(** * Sandbox backends: a shallow embedding of the terminal (tmux) backend,
    the container (OrbStack/Docker) backend and the backend factory.

    Sources embedded:
      sandbox_cli/src/backends/base.py      (the data classes)
      sandbox_cli/src/backends/tmux/backend.py
        _generate_sandbox_id, _run_tmux, _session_exists,
        _get_session_info_path, _save_session_info, _load_session_info,
        create_sandbox, connect_sandbox, get_sandbox_info,
        is_sandbox_running, kill_sandbox, pause_sandbox, resume_sandbox,
        list_sandboxes, run_command, run_command_background,
        _get_full_path, list_files, read_file, read_file_bytes,
        write_file, write_file_bytes, file_exists, get_file_info,
        remove_file, make_directory
      sandbox_cli/src/backends/orbstack/backend.py
        _get_image_name, _get_container, _map_status, connect_sandbox,
        get_sandbox_info, is_sandbox_running, kill_sandbox,
        pause_sandbox, resume_sandbox, run_command, read_file,
        read_file_bytes, write_file, write_file_bytes
      sandbox_cli/src/backends/factory.py
        register_backend, create_backend, _register_default_backends,
        list_backends, clear_cache, get_backend

    Python text is modelled by [string], holding the UTF-8 code units
    of the text (a surrogate code point, which a [str] may hold, by the
    three units the same scheme gives it): every [str] has an image, and
    a literal of this file is the text it shows. [Py.chars] cuts a text
    into its characters. White space and decimal digits are those of
    CPython 3.11 (Unicode 14.0) and [int()] has its default limit of
    4300 digits; lower-casing covers the ASCII letters. A number that
    may be a float is a [Py.number], Python [bytes] are a
    [list Byte.byte], dictionaries a [gmap], and a method that mutates
    [self] or the outside world is a computation in a
    state-and-exception monad.

    What lies outside the Python source is modelled as far as the
    methods use it: [pathlib] and [os.path] on POSIX, a host file tree
    without symbolic links and permissions, a clock that advances in
    [time.sleep] (in whole milliseconds) and is read exactly, the
    multiplexer's sessions addressed by their exact names, and the
    container runtime's containers addressed by name, with their exec
    and archive calls. *)

From Stdlib Require Import ZArith Ascii QArith Qround.
From stdpp Require Import gmap strings list fin_maps.

Close Scope Q_scope.

Local Open Scope Z_scope.

(* ===================================================================== *)
(** ** Python string primitives used by the backends *)
(* ===================================================================== *)

Module Py.

(** [s.startswith(p)] *)
Definition startswith (s p : string) : bool := String.prefix p s.

(** [s[n:]] for a text whose first [n] characters are ASCII, as they
    are wherever the backends cut a prefix off: it is one they have
    tested for with [startswith]. *)
Fixpoint slice_from (n : nat) (s : string) : string :=
  match n, s with
  | O, _ => s
  | S _, EmptyString => EmptyString
  | S n', String _ s' => slice_from n' s'
  end.

(** [s[:n]] for a text whose first [n] characters are ASCII, as the
    hexadecimal digits of [uuid4().hex] are. *)
Fixpoint slice_to (n : nat) (s : string) : string :=
  match n, s with
  | O, _ => EmptyString
  | S _, EmptyString => EmptyString
  | S n', String c s' => String c (slice_to n' s')
  end.

(** [bool(s)]: a string is truthy when it is not empty. *)
Definition truthy (s : string) : bool :=
  match s with EmptyString => false | _ => true end.

(** *** Characters *)

(** Not a code point: the mark of code units that hold no character. *)
Definition no_char : N := 1114112.

Definition is_continuation (b : N) : bool := ((128 <=? b) && (b <? 192))%N.

(** What the first code unit of a character says: how many units
    follow it, and the bits of the code point it holds. *)
Definition lead (b : N) : nat * N :=
  if (b <? 128)%N then (0%nat, b)
  else if (b <? 192)%N then (0%nat, no_char)
  else if (b <? 224)%N then (1%nat, b mod 32)%N
  else if (b <? 240)%N then (2%nat, b mod 16)%N
  else if (b <? 248)%N then (3%nat, b mod 8)%N
  else (0%nat, no_char).

(** The characters of a text, each with its code point and the code
    units that hold it. [need] units are still to come for the
    character being read, whose units so far are [cur], in reverse. *)
Fixpoint chars_aux (need : nat) (cp : N) (cur : list ascii) (s : string)
    : list (N * string) :=
  match s with
  | EmptyString =>
      match cur with
      | [] => []
      | _ => [(no_char, String.string_of_list_ascii (rev cur))]
      end
  | String c s' =>
      let b := N_of_ascii c in
      let fresh :=
        let '(n, p) := lead b in
        match n with
        | O => (p, String c EmptyString) :: chars_aux 0 0 [] s'
        | S _ => chars_aux n p [c] s'
        end in
      match need with
      | O => fresh
      | S n =>
          if is_continuation b then
            let cp' := (cp * 64 + b mod 64)%N in
            match n with
            | O => (cp', String.string_of_list_ascii (rev (c :: cur)))
                   :: chars_aux 0 0 [] s'
            | S _ => chars_aux n cp' (c :: cur) s'
            end
          else (no_char, String.string_of_list_ascii (rev cur)) :: fresh
      end
  end.

Definition chars (s : string) : list (N * string) := chars_aux 0 0 [] s.

(** The text made of some characters. *)
Definition text (l : list (N * string)) : string :=
  foldr (fun c r => c.2 +:+ r) EmptyString l.


(** [c.isspace()] of the character with code point [cp]. *)
Definition isspace (cp : N) : bool :=
  ((9 <=? cp) && (cp <=? 13) || (28 <=? cp) && (cp <=? 32)
   || (cp =? 133) || (cp =? 160) || (cp =? 5760)
   || (8192 <=? cp) && (cp <=? 8202) || (cp =? 8232) || (cp =? 8233)
   || (cp =? 8239) || (cp =? 8287) || (cp =? 12288))%N.

Definition char_isspace (c : N * string) : bool := isspace c.1.

Fixpoint drop_spaces (l : list (N * string)) : list (N * string) :=
  match l with
  | c :: l' => if char_isspace c then drop_spaces l' else l
  | [] => []
  end.

(** [s.strip()] *)
Definition strip (s : string) : string :=
  text (rev (drop_spaces (rev (drop_spaces (chars s))))).

(** [s.split()] : maximal runs of characters that are not white space.
    [cur] is the run being read. *)
Fixpoint split_ws_aux (cur : list (N * string)) (l : list (N * string)) : list string :=
  let flush rest :=
    match cur with
    | [] => rest
    | _ => text (rev cur) :: rest
    end in
  match l with
  | [] => flush []
  | c :: l' =>
      if char_isspace c then flush (split_ws_aux [] l')
      else split_ws_aux (c :: cur) l'
  end.

Definition split_ws (s : string) : list string := split_ws_aux [] (chars s).

(** *** Cutting a text at a separator *)

(** Leftmost occurrence of [sep] in [s]: the text before it and the text
    after it. *)
Fixpoint partition (sep s : string) : option (string * string) :=
  if String.prefix sep s then Some (EmptyString, slice_from (String.length sep) s)
  else match s with
       | EmptyString => None
       | String c s' =>
           match partition sep s' with
           | Some (a, b) => Some (String c a, b)
           | None => None
           end
       end.

(** [sep in s] *)
Definition contains (sep s : string) : bool :=
  match partition sep s with Some _ => true | None => false end.

(** [s.split(sep)] for a non-empty [sep]; the recursion is on the
    length of the text still to be cut. *)
Fixpoint split_fuel (fuel : nat) (sep s : string) : list string :=
  match fuel with
  | O => [s]
  | S fuel' =>
      match partition sep s with
      | Some (a, b) => a :: split_fuel fuel' sep b
      | None => [s]
      end
  end.

Definition split (sep s : string) : list string :=
  split_fuel (String.length s) sep s.

(** *** Integers *)

(** The digit zero of every set of decimal digits (the characters of
    category Nd in Unicode 14.0): the nine code points after each are
    its digits one to nine. *)
Definition digit_zeros : list N :=
  [48; 1632; 1776; 1984; 2406; 2534; 2662; 2790; 2918; 3046; 3174; 3302;
   3430; 3558; 3664; 3792; 3872; 4160; 4240; 6112; 6160; 6470; 6608; 6784;
   6800; 6992; 7088; 7232; 7248; 42528; 43216; 43264; 43472; 43504; 43600;
   44016; 65296; 66720; 68912; 69734; 69872; 69942; 70096; 70384; 70736;
   70864; 71248; 71360; 71472; 71904; 72016; 72784; 73040; 73120; 92768;
   92864; 93008; 120782; 120792; 120802; 120812; 120822; 123200; 123632;
   125264; 130032]%N.

(** [unicodedata.decimal(c)] *)
Definition decimal (cp : N) : option N :=
  (fun z => cp - z)%N <$> List.find (fun z => (z <=? cp) && (cp <? z + 10))%N digit_zeros.

(** [sys.get_int_max_str_digits()], at its default. *)
Definition int_max_str_digits : nat := 4300.

(** What [int()] reads a character as: an ASCII character as itself,
    any other white space as a space, any other decimal digit as the
    ASCII digit of its value; no other character is read. *)
Definition int_char (c : N * string) : option ascii :=
  if (c.1 <? 128)%N then Some (ascii_of_N c.1)
  else if isspace c.1 then Some " "%char
  else (fun d => ascii_of_N (48 + d)) <$> decimal c.1.

(** The white space [int()] skips around the number. *)
Definition int_isspace (c : ascii) : bool :=
  let n := N_of_ascii c in ((9 <=? n) && (n <=? 13) || (n =? 32))%N.

Definition isdigit (c : ascii) : bool :=
  let n := N_of_ascii c in ((48 <=? n) && (n <=? 57))%N.

Definition digit_val (c : ascii) : Z := Z.of_N (N_of_ascii c) - 48.

Fixpoint drop_int_spaces (l : list ascii) : list ascii :=
  match l with
  | c :: l' => if int_isspace c then drop_int_spaces l' else l
  | [] => []
  end.

(** The digits of an integer literal, with single underscores
    between them, followed by white space only: [acc] is the value of
    the [n] digits read so far, [after_digit] says that the character
    just read was a digit. *)
Fixpoint int_digits (acc : Z) (n : nat) (after_digit : bool) (l : list ascii)
    : option (Z * nat) :=
  match l with
  | [] => if after_digit then Some (acc, n) else None
  | c :: l' =>
      if isdigit c then int_digits (10 * acc + digit_val c) (S n) true l'
      else if Ascii.eqb c "_" then
             (if after_digit then int_digits acc n false l' else None)
      else if after_digit && forallb int_isspace l then Some (acc, n)
      else None
  end.

(** [int(s)]: white space, a sign, the digits, white space; [None]
    stands for [ValueError], which a number of more than
    [int_max_str_digits] digits raises too. *)
Definition int (s : string) : option Z :=
  l ← mapM int_char (chars s) ;
  let '(sign, digits) :=
    match drop_int_spaces l with
    | "+"%char :: d => (1, d)
    | "-"%char :: d => (-1, d)
    | d => (1, d)
    end in
  r ← int_digits 0 0 false digits ;
  if (int_max_str_digits <? r.2)%nat then None else Some (sign * r.1).

(** [s.lower()] on the ASCII letters. *)
Definition lower_char (c : ascii) : ascii :=
  let n := nat_of_ascii c in
  if (65 <=? n)%nat && (n <=? 90)%nat then ascii_of_nat (n + 32) else c.

Fixpoint lower (s : string) : string :=
  match s with
  | EmptyString => EmptyString
  | String c s' => String (lower_char c) (lower s')
  end.

(** [sep.join(l)] *)
Fixpoint join (sep : string) (l : list string) : string :=
  match l with
  | [] => EmptyString
  | [x] => x
  | x :: rest => x +:+ sep +:+ join sep rest
  end.

(** *** Numbers *)

(** A number given where a float is expected: an [int] or a [float]
    by its exact value, or one of the floats [inf], [-inf] and [nan]. *)
Inductive number :=
  | Finite (q : Q)
  | PosInf
  | NegInf
  | NaN.

(** [bool(x)] *)
Definition number_truthy (x : number) : bool :=
  match x with
  | Finite q => negb (Qeq_bool q 0)
  | _ => true
  end.

(** [ms / 1000 < x] for a whole number [ms]: a time span read off the
    clock, in seconds, against a number. *)
Definition ms_lt (ms : Z) (x : number) : bool :=
  match x with
  | Finite q => negb (Qle_bool q (Qmake ms 1000))
  | PosInf => true
  | NegInf | NaN => false
  end.

End Py.

(* ===================================================================== *)
(** ** [pathlib.PurePosixPath] *)
(* ===================================================================== *)

Module PosixPath.

(** A parsed path: [root] counts the leading slashes the parser keeps
    (0 for a relative path, 1 for "/", 2 for exactly two slashes);
    [parts] are the components, with empty ones and "." dropped and
    ".." kept. *)
Record t := mk { root : nat; parts : list string }.

Global Instance t_eq_dec : EqDecision t.
Proof. solve_decision. Defined.

Fixpoint leading_slashes (s : string) : nat :=
  match s with
  | String "/" s' => S (leading_slashes s')
  | _ => O
  end.

Definition root_of (s : string) : nat :=
  match leading_slashes s with
  | O => 0%nat
  | 2%nat => 2%nat
  | _ => 1%nat
  end.

(** [s.split("/")], reading one component at a time. *)
Fixpoint components_aux (cur : list ascii) (s : string) : list string :=
  match s with
  | EmptyString => [String.string_of_list_ascii (rev cur)]
  | String c s' =>
      if Ascii.eqb c "/"
      then String.string_of_list_ascii (rev cur) :: components_aux [] s'
      else components_aux (c :: cur) s'
  end.

Definition keep_component (c : string) : bool :=
  negb (String.eqb c "") && negb (String.eqb c ".").

(** [Path(s)] *)
Definition of_string (s : string) : t :=
  {| root := root_of s;
     parts := List.filter keep_component (components_aux [] s) |}.

(** [p / s]: an absolute right operand replaces the left one. *)
Definition joinpath (p : t) (s : string) : t :=
  let q := of_string s in
  match root q with
  | O => {| root := root p; parts := parts p ++ parts q |}
  | _ => q
  end.

(** [p.parent] *)
Definition parent (p : t) : t :=
  {| root := root p; parts := removelast (parts p) |}.

(** [p.name] *)
Definition name (p : t) : string := List.last (parts p) "".

Fixpoint slashes (n : nat) : string :=
  match n with O => "" | S n' => String "/" (slashes n') end.

(** [str(p)] *)
Definition to_string (p : t) : string :=
  match root p, parts p with
  | O, [] => "."
  | r, ps => slashes r +:+ Py.join "/" ps
  end.

(** [p.is_relative_to(base)]: [p] is [base] or lies below it. *)
Definition is_relative_to (p base : t) : bool :=
  bool_decide (root p = root base) &&
  bool_decide (take (length (parts base)) (parts p) = parts base).

End PosixPath.

Abbreviation Path := PosixPath.t.


(* ===================================================================== *)
(** ** Exceptions and the state-and-exception monad *)
(* ===================================================================== *)

Inductive os_errno := ENOENT | EEXIST | ENOTDIR | EISDIR.

(** The exception classes of [utils/exceptions.py], the operating-system
    and codec errors the standard library raises, and the two errors of
    the container runtime's client. [Diverge] is not a Python exception:
    it is the outcome of a loop that does not end (the polling loop of
    the terminal backend under an infinite timeout, when the marker
    never shows), and no handler catches it. *)
Inductive exn :=
  | SandboxCreationError (msg : string)
  | SandboxNotFoundError (msg : string)
  | CommandExecutionError (msg : string)
  | FileOperationError (msg : string)
  | InvalidBackendError (msg : string)
  | OSError (e : os_errno)
  | UnicodeError
  | JSONDecodeError
  | IndexError
  | DockerNotFound (msg : string)
  | DockerAPIError (msg : string)
  | Diverge.

Global Instance os_errno_eq_dec : EqDecision os_errno.
Proof. solve_decision. Defined.
Global Instance exn_eq_dec : EqDecision exn.
Proof. solve_decision. Defined.

(** [str(e)] *)
Definition exn_str (e : exn) : string :=
  match e with
  | SandboxCreationError m | SandboxNotFoundError m | CommandExecutionError m
  | FileOperationError m | InvalidBackendError m
  | DockerNotFound m | DockerAPIError m => m
  | OSError ENOENT => "No such file or directory"
  | OSError EEXIST => "File exists"
  | OSError ENOTDIR => "Not a directory"
  | OSError EISDIR => "Is a directory"
  | UnicodeError => "codec can't convert"
  | JSONDecodeError => "Expecting value"
  | IndexError => "list index out of range"
  | Diverge => ""
  end.

(** [isinstance(e, docker.errors.NotFound)] *)
Definition is_docker_not_found (e : exn) : bool :=
  match e with DockerNotFound _ => true | _ => false end.

(** [isinstance(e, SandboxNotFoundError)] *)
Definition is_sandbox_not_found (e : exn) : bool :=
  match e with SandboxNotFoundError _ => true | _ => false end.

Inductive outcome (A : Type) :=
  | Ok (a : A)
  | Raise (e : exn).
Arguments Ok {A} a.
Arguments Raise {A} e.

(** A computation over a state of type [S]: the state reached is kept
    also when an exception is raised, as side effects are in Python. *)
Definition M (S A : Type) : Type := S -> outcome A * S.

Definition ret {S A} (a : A) : M S A := fun s => (Ok a, s).
Definition raise {S A} (e : exn) : M S A := fun s => (Raise e, s).
Definition bind {S A B} (m : M S A) (k : A -> M S B) : M S B :=
  fun s => match m s with
           | (Ok a, s') => k a s'
           | (Raise e, s') => (Raise e, s')
           end.
Definition gets {S A} (f : S -> A) : M S A := fun s => (Ok (f s), s).
Definition modify {S} (f : S -> S) : M S unit := fun s => (Ok tt, f s).

(** [try: m except <classes selected by catches>: h e] *)
Definition try_except {S A} (m : M S A) (catches : exn -> bool)
    (h : exn -> M S A) : M S A :=
  fun s => match m s with
           | (Raise e, s') =>
               if catches e then h e s' else (Raise e, s')
           | r => r
           end.

(** [except Exception] *)
Definition any_exception (e : exn) : bool :=
  match e with Diverge => false | _ => true end.

(** Run a computation on a component [T] of the state [S]. *)
Definition zoom {S T A} (get : S -> T) (set : T -> S -> S) (m : M T A) : M S A :=
  fun s => let '(r, t') := m (get s) in (r, set t' s).

Declare Scope monad_scope.
Delimit Scope monad_scope with monad.
Notation "x <- c ;; k" := (bind c (fun x => k))
  (at level 100, c at next level, right associativity) : monad_scope.
Notation "c ;;; k" := (bind c (fun _ => k))
  (at level 100, right associativity) : monad_scope.
Local Open Scope monad_scope.

(* ===================================================================== *)
(** ** The host: file system, clock, entropy *)
(* ===================================================================== *)

Module Host.

(** A node of the file tree. Regular files carry their bytes. *)
Inductive node :=
  | Dir (mode : Z)
  | File (mode : Z) (data : list Byte.byte).

Definition is_dir_node (n : option node) : bool :=
  match n with Some (Dir _) => true | _ => false end.

(** A scheduled action of another process (the shell behind a terminal
    session): at time [ev_time] the file at [ev_key] holds [ev_data]. *)
Record event := { ev_time : Z; ev_key : list string; ev_data : list Byte.byte }.

(** The file tree is keyed by canonical absolute paths (component
    lists without "." and ".."; [[]] is the root directory). The clock
    counts milliseconds. [uuid_hex] is the stream of values of
    [uuid.uuid4().hex], read at index [uuid_next]. *)
Record t := {
  fs : gmap (list string) node;
  cwd : list string;
  umask : Z;
  clock : Z;
  pending : list event;
  uuid_hex : nat -> string;
  uuid_next : nat;
}.

Definition set_fs (f : gmap (list string) node) (h : t) : t :=
  {| fs := f; cwd := cwd h; umask := umask h; clock := clock h;
     pending := pending h; uuid_hex := uuid_hex h; uuid_next := uuid_next h |}.

(** Path resolution as the kernel does it, without symbolic links:
    every directory walked through must exist and be a directory; ".."
    steps to the parent. The last component need not exist. *)
Fixpoint walk (f : gmap (list string) node) (cur : list string)
    (comps : list string) : os_errno + list string :=
  match comps with
  | [] => inr cur
  | c :: rest =>
      match f !! cur with
      | None => inl ENOENT
      | Some (File _ _) => inl ENOTDIR
      | Some (Dir _) =>
          walk f (if String.eqb c ".." then removelast cur else cur ++ [c]) rest
      end
  end.

Definition locate (p : Path) (h : t) : os_errno + list string :=
  walk (fs h) (match PosixPath.root p with O => cwd h | _ => [] end)
    (PosixPath.parts p).

(** [p.exists()] *)
Definition exists_ (p : Path) : M t bool :=
  gets (fun h => match locate p h with
                 | inr k => bool_decide (is_Some (fs h !! k))
                 | inl _ => false
                 end).

(** [p.is_dir()] *)
Definition is_dir (p : Path) : M t bool :=
  gets (fun h => match locate p h with
                 | inr k => is_dir_node (fs h !! k)
                 | inl _ => false
                 end).

(** Creating an entry needs its parent directory. *)
Definition create (k : list string) (n : node) : M t unit :=
  fun h => if is_dir_node (fs h !! removelast k)
           then (Ok tt, set_fs (<[k := n]> (fs h)) h)
           else (Raise (OSError ENOENT), h).

(** [os.mkdir(p, 0o777)] *)
Definition os_mkdir (p : Path) : M t unit :=
  fun h => match locate p h with
           | inl e => (Raise (OSError e), h)
           | inr k =>
               match fs h !! k with
               | Some _ => (Raise (OSError EEXIST), h)
               | None => create k (Dir (Z.land 511 (Z.lnot (umask h)))) h
               end
           end.

(** The handler pathlib's [mkdir] has for an [OSError] other than
    [FileNotFoundError], with [exist_ok=True]: the error is dropped
    when the path is a directory. *)
Definition mkdir_other_error (p : Path) (e : exn) : M t unit :=
  d <- is_dir p ;; if d then ret tt else raise e.

Definition is_enoent (e : exn) : bool :=
  match e with OSError ENOENT => true | _ => false end.

(** [p.mkdir(parents=False, exist_ok=True)] *)
Definition mkdir_exist_ok (p : Path) : M t unit :=
  try_except (os_mkdir p) any_exception
    (fun e => if is_enoent e then raise e else mkdir_other_error p e).

(** [p.mkdir(parents=True, exist_ok=True)] where [p] has root [r] and
    parts [rev rparts]: on [FileNotFoundError] the parent is made
    first, then the directory itself; the recursion of pathlib on
    [self.parent] is the recursion on the tail of [rparts]. *)
Fixpoint mkdir_parents_rev (r : nat) (rparts : list string) : M t unit :=
  let p := PosixPath.mk r (rev rparts) in
  try_except (os_mkdir p) any_exception
    (fun e =>
       if is_enoent e then
         match rparts with
         | [] => raise e
         | _ :: up => mkdir_parents_rev r up ;;; mkdir_exist_ok p
         end
       else mkdir_other_error p e).

Definition mkdir_parents (p : Path) : M t unit :=
  mkdir_parents_rev (PosixPath.root p) (rev (PosixPath.parts p)).

(** [open(p, "wb")] followed by [write(data)]: the file is created
    with mode [0o666 & ~umask] or its content replaced. *)
Definition write_bytes (p : Path) (data : list Byte.byte) : M t unit :=
  fun h => match locate p h with
           | inl e => (Raise (OSError e), h)
           | inr k =>
               match fs h !! k with
               | Some (Dir _) => (Raise (OSError EISDIR), h)
               | Some (File m _) => (Ok tt, set_fs (<[k := File m data]> (fs h)) h)
               | None => create k (File (Z.land 438 (Z.lnot (umask h))) data) h
               end
           end.

(** [p.read_bytes()] *)
Definition read_bytes (p : Path) : M t (list Byte.byte) :=
  fun h => match locate p h with
           | inl e => (Raise (OSError e), h)
           | inr k =>
               match fs h !! k with
               | Some (Dir _) => (Raise (OSError EISDIR), h)
               | Some (File _ d) => (Ok d, h)
               | None => (Raise (OSError ENOENT), h)
               end
           end.

(** [p.unlink()] *)
Definition unlink (p : Path) : M t unit :=
  fun h => match locate p h with
           | inl e => (Raise (OSError e), h)
           | inr k =>
               match fs h !! k with
               | Some (Dir _) => (Raise (OSError EISDIR), h)
               | Some (File _ _) => (Ok tt, set_fs (delete k (fs h)) h)
               | None => (Raise (OSError ENOENT), h)
               end
           end.

Definition below (k : list string) (k' : list string) : bool :=
  bool_decide (take (length k) k' = k).

(** [shutil.rmtree(p)]: the directory and everything below it. *)
Definition rmtree (p : Path) : M t unit :=
  fun h => match locate p h with
           | inl e => (Raise (OSError e), h)
           | inr k =>
               match fs h !! k with
               | Some (Dir _) =>
                   (Ok tt, set_fs (filter (fun kv => negb (below k kv.1)) (fs h)) h)
               | Some (File _ _) => (Raise (OSError ENOTDIR), h)
               | None => (Raise (OSError ENOENT), h)
               end
           end.

(** [p.stat()]: mode and size. The size of a directory depends on the
    file system and is not used by the backends after a write. *)
Definition stat (p : Path) : M t (Z * Z) :=
  fun h => match locate p h with
           | inl e => (Raise (OSError e), h)
           | inr k =>
               match fs h !! k with
               | Some (Dir m) => (Ok (m + 16384, 4096), h)
               | Some (File m d) => (Ok (m + 32768, Z.of_nat (length d)), h)
               | None => (Raise (OSError ENOENT), h)
               end
           end.

(** The scheduled actions that are due at time [now] are applied in
    order; the others stay pending. *)
Fixpoint run_due (now : Z) (evs : list event) (f : gmap (list string) node)
    : gmap (list string) node * list event :=
  match evs with
  | [] => (f, [])
  | ev :: rest =>
      if ev_time ev <=? now
      then run_due now rest (<[ev_key ev := File 420 (ev_data ev)]> f)
      else let '(f', rest') := run_due now rest f in (f', ev :: rest')
  end.

(** [time.sleep(ms / 1000)]: the clock advances by [ms] and the other
    processes take their due steps. *)
Definition sleep (ms : Z) : M t unit :=
  modify (fun h =>
    let now := clock h + ms in
    let '(f, evs) := run_due now (pending h) (fs h) in
    {| fs := f; cwd := cwd h; umask := umask h; clock := now;
       pending := evs; uuid_hex := uuid_hex h; uuid_next := uuid_next h |}).

(** [time.time()], in milliseconds *)
Definition time : M t Z := gets clock.

(** [uuid.uuid4().hex] *)
Definition uuid4_hex : M t string :=
  fun h => (Ok (uuid_hex h (uuid_next h)),
            {| fs := fs h; cwd := cwd h; umask := umask h; clock := clock h;
               pending := pending h; uuid_hex := uuid_hex h;
               uuid_next := S (uuid_next h) |}).

(** [oct(st_mode)[-3:]] *)
Definition oct_digit (n : Z) : ascii := ascii_of_nat (48 + Z.to_nat (n mod 8)).
Definition oct3 (st_mode : Z) : string :=
  String (oct_digit (st_mode / 64))
    (String (oct_digit (st_mode / 8)) (String (oct_digit st_mode) EmptyString)).

(** The name under which an entry of the tree lies in the directory
    at [k], if it lies there. *)
Definition entry_of (k : list string) (kv : list string * node) : option string :=
  match kv.1 with
  | [] => None
  | _ :: _ => if bool_decide (removelast kv.1 = k) then Some (List.last kv.1 "") else None
  end.

(** [os.listdir] of the directory at [k], in the order the file system
    gives the names. *)
Definition listdir (k : list string) (f : gmap (list string) node) : list string :=
  omap (entry_of k) (map_to_list f).

(** [p.iterdir()]: every entry of the directory as the child path
    [p / name]. *)
Definition iterdir (p : Path) : M t (list Path) :=
  fun h => match locate p h with
           | inl e => (Raise (OSError e), h)
           | inr k =>
               match fs h !! k with
               | Some (Dir _) =>
                   (Ok (map (fun n => PosixPath.mk (PosixPath.root p) (PosixPath.parts p ++ [n]))
                            (listdir k (fs h))), h)
               | Some (File _ _) => (Raise (OSError ENOTDIR), h)
               | None => (Raise (OSError ENOENT), h)
               end
           end.

End Host.

(** Wall-clock time and time stamps are not part of the host's state:
    [utcnow_isoformat] is [datetime.utcnow().isoformat()] at a reading
    of the clock, [mtime_isoformat] is
    [datetime.fromtimestamp(st_mtime).isoformat()] of the entry at a
    key of the tree. *)
Class Calendar := {
  utcnow_isoformat : Z -> string;
  mtime_isoformat : Host.t -> list string -> string;
}.

(** [datetime.fromtimestamp(p.stat().st_mtime).isoformat()] *)
Definition stat_mtime `{Calendar} (p : Path) : M Host.t string :=
  fun h => match Host.locate p h with
           | inl e => (Raise (OSError e), h)
           | inr k =>
               match Host.fs h !! k with
               | Some _ => (Ok (mtime_isoformat h k), h)
               | None => (Raise (OSError ENOENT), h)
               end
           end.

(* ===================================================================== *)
(** ** Text encodings *)
(* ===================================================================== *)

(** A text codec of the Python runtime ([str.encode], [bytes.decode]):
    [None] stands for [UnicodeEncodeError] / [UnicodeDecodeError];
    [decode_replace] is [decode(..., errors="replace")]. What is encoded
    decodes to itself. *)
Class TextCodec := {
  encode : string -> option (list Byte.byte);
  decode : list Byte.byte -> option string;
  decode_replace : list Byte.byte -> string;
  decode_encode : forall s b, encode s = Some b -> decode b = Some s;
}.

Module TextIO.

(** Universal newlines, the translation a file opened for reading in
    text mode with [newline=None] applies: "\r\n" and "\r" become
    "\n". *)
Fixpoint universal_newlines (s : string) : string :=
  match s with
  | EmptyString => EmptyString
  | String "013" s' =>
      String "010"
        (match s' with
         | String "010" s'' => universal_newlines s''
         | _ => universal_newlines s'
         end)
  | String c s' => String c (universal_newlines s')
  end.

Section WithCodec.
Context {codec : TextCodec}.

(** [p.write_text(s)]: the file is opened (created or emptied)
    before the text is encoded; on POSIX the newline written is
    "\n" itself. *)
Definition write_text (p : Path) (s : string) : M Host.t unit :=
  Host.write_bytes p [] ;;;
  match encode s with
  | Some b => Host.write_bytes p b
  | None => raise UnicodeError
  end.

(** [p.read_text()] *)
Definition read_text (p : Path) : M Host.t string :=
  b <- Host.read_bytes p ;;
  match decode b with
  | Some s => ret (universal_newlines s)
  | None => raise UnicodeError
  end.

End WithCodec.

End TextIO.

(* ===================================================================== *)
(** ** [backends/base.py]: the data classes *)
(* ===================================================================== *)

Inductive SandboxStatus := CREATING | RUNNING | PAUSED | STOPPED | ERROR.

Record SandboxInfo := {
  sandbox_id : string;
  backend_type : string;
  status : SandboxStatus;
  created_at : string;
  metadata : gmap string string;
  template : option string;
  ports : option (gmap Z string);
}.

Record CommandResult := {
  stdout : string;
  stderr : string;
  exit_code : Z;
  pid : option string;
}.

Record FileInfo := {
  name : string;
  path : string;
  type : string;
  size : Z;
  permissions : string;
  modified_at : option string;
}.

(** A dictionary of strings in insertion order ([envs]). *)
Definition str_dict := list (string * string).

(* ===================================================================== *)
(** ** [backends/tmux/backend.py] *)
(* ===================================================================== *)

Module Tmux.

(** *** The terminal multiplexer, as seen through its command line *)

(** The sessions of the server, named exactly, and the keystrokes sent
    so far (target session and keys, latest first). *)
Record Server := {
  sessions : gset string;
  sent : list (string * list string);
}.

Record CompletedProcess := {
  returncode : Z;
  proc_stdout : string;
  proc_stderr : string;
}.

Definition done_ok : CompletedProcess :=
  {| returncode := 0; proc_stdout := ""; proc_stderr := "" |}.
Definition done_err (msg : string) : CompletedProcess :=
  {| returncode := 1; proc_stdout := ""; proc_stderr := msg |}.

(** [tmux <args>] for the sub-commands the embedded methods use. *)
Definition tmux_cli (args : list string) (srv : Server) : CompletedProcess * Server :=
  match args with
  | ["has-session"; "-t"; t] =>
      if decide (t ∈ sessions srv) then (done_ok, srv)
      else (done_err ("can't find session: " +:+ t), srv)
  | ["kill-session"; "-t"; t] =>
      if decide (t ∈ sessions srv)
      then (done_ok, {| sessions := sessions srv ∖ {[t]}; sent := sent srv |})
      else (done_err ("can't find session: " +:+ t), srv)
  | "send-keys" :: "-t" :: t :: keys =>
      if decide (t ∈ sessions srv)
      then (done_ok, {| sessions := sessions srv; sent := (t, keys) :: sent srv |})
      else (done_err ("can't find session: " +:+ t), srv)
  | _ => (done_err "unknown command", srv)
  end.

(** *** The backend object and its surroundings *)

(** [self.config] after [_validate_config]. *)
Record Config := {
  workspace_dir : string;
  capture_dir : string;
  cleanup_workspace : option bool;
}.

(** A session-info dictionary: every key may be absent; [template] and
    [timeout] may be present and [None]. *)
Record session_dict := {
  d_sandbox_id : option string;
  d_workspace : option string;
  d_created_at : option string;
  d_template : option (option string);
  d_timeout : option (option Z);
  d_metadata : option (gmap string string);
  d_envs : option (gmap string string);
}.

Definition empty_dict : session_dict :=
  {| d_sandbox_id := None; d_workspace := None; d_created_at := None;
     d_template := None; d_timeout := None; d_metadata := None; d_envs := None |}.

(** [bool(d)]: a dictionary is truthy when it has a key. *)
Definition dict_truthy (d : session_dict) : bool :=
  bool_decide (is_Some (d_sandbox_id d)) || bool_decide (is_Some (d_workspace d))
  || bool_decide (is_Some (d_created_at d)) || bool_decide (is_Some (d_template d))
  || bool_decide (is_Some (d_timeout d)) || bool_decide (is_Some (d_metadata d))
  || bool_decide (is_Some (d_envs d)).

(** [json.load] of a session-info side file; [None] stands for the
    error it raises on text that is not such a dictionary. *)
Class JsonCodec := { json_loads : string -> option session_dict }.

(** [self] (the configuration and the [_sessions] cache) together with
    the host and the multiplexer server it acts on. *)
Record t := {
  config : Config;
  _sessions : gmap string session_dict;
  host : Host.t;
  server : Server;
}.

Definition set_host (h : Host.t) (st : t) : t :=
  {| config := config st; _sessions := _sessions st; host := h; server := server st |}.
Definition set_server (s : Server) (st : t) : t :=
  {| config := config st; _sessions := _sessions st; host := host st; server := s |}.
Definition set_sessions (m : gmap string session_dict) (st : t) : t :=
  {| config := config st; _sessions := m; host := host st; server := server st |}.

Definition on_host {A} (m : M Host.t A) : M t A := zoom host set_host m.

Section Backend.
Context {codec : TextCodec} {json : JsonCodec}.

(** [_run_tmux(args, check)]; the multiplexer answers within the 30 s
    the call allows. *)
Definition _run_tmux (args : list string) (check : bool) : M t CompletedProcess :=
  fun st =>
    let '(r, srv) := tmux_cli args (server st) in
    if check && negb (returncode r =? 0)
    then (Raise (CommandExecutionError ("Tmux command failed: " +:+ proc_stderr r)),
          set_server srv st)
    else (Ok r, set_server srv st).

Definition _session_exists (sandbox_id : string) : M t bool :=
  result <- _run_tmux ["has-session"; "-t"; sandbox_id] false ;;
  ret (returncode result =? 0).

Definition _get_session_info_path (sandbox_id : string) : M t Path :=
  gets (fun st => PosixPath.joinpath (PosixPath.of_string (capture_dir (config st)))
                    (sandbox_id +:+ ".json")).

Definition _load_session_info (sandbox_id : string) : M t (option session_dict) :=
  path <- _get_session_info_path sandbox_id ;;
  ex <- on_host (Host.exists_ path) ;;
  if ex then
    text <- on_host (TextIO.read_text path) ;;
    match json_loads text with
    | Some d => ret (Some d)
    | None => raise JSONDecodeError
    end
  else ret None.

(** [self._sessions.get(sandbox_id)] *)
Definition cached (sandbox_id : string) : M t (option session_dict) :=
  gets (fun st => _sessions st !! sandbox_id).

(** [x or {}] on an optional dictionary *)
Definition or_empty (d : option session_dict) : session_dict :=
  match d with
  | Some d => if dict_truthy d then d else empty_dict
  | None => empty_dict
  end.

Definition connect_sandbox (sandbox_id : string) : M t bool :=
  ex <- _session_exists sandbox_id ;;
  if negb ex then raise (SandboxNotFoundError ("Session not found: " +:+ sandbox_id))
  else
    c <- cached sandbox_id ;;
    match c with
    | Some _ => ret true
    | None =>
        info <- _load_session_info sandbox_id ;;
        match info with
        | Some d =>
            if dict_truthy d
            then modify (fun st => set_sessions (<[sandbox_id := d]> (_sessions st)) st) ;;;
                 ret true
            else ret true
        | None => ret true
        end
    end.

Definition get_sandbox_info (sandbox_id : string) : M t SandboxInfo :=
  ex <- _session_exists sandbox_id ;;
  if negb ex then raise (SandboxNotFoundError ("Session not found: " +:+ sandbox_id))
  else
    c <- cached sandbox_id ;;
    loaded <- match c with
              | Some d => if dict_truthy d then ret (Some d)
                          else _load_session_info sandbox_id
              | None => _load_session_info sandbox_id
              end ;;
    let session_info :=
      match loaded with
      | Some d => if dict_truthy d then d
                  else {| d_sandbox_id := Some sandbox_id; d_workspace := None;
                          d_created_at := Some ""; d_template := None;
                          d_timeout := None; d_metadata := Some ∅; d_envs := None |}
      | None => {| d_sandbox_id := Some sandbox_id; d_workspace := None;
                   d_created_at := Some ""; d_template := None;
                   d_timeout := None; d_metadata := Some ∅; d_envs := None |}
      end in
    ret {| sandbox_id := sandbox_id;
           backend_type := "tmux";
           status := RUNNING;
           created_at := default "" (d_created_at session_info);
           metadata := default ∅ (d_metadata session_info);
           template := default None (d_template session_info);
           ports := None |}.

Definition is_sandbox_running (sandbox_id : string) : M t bool :=
  _session_exists sandbox_id.

Definition kill_sandbox (sandbox_id : string) : M t bool :=
  try_except
    (_run_tmux ["kill-session"; "-t"; sandbox_id] false ;;;
     cleanup <- gets (fun st => default false (cleanup_workspace (config st))) ;;
     (if cleanup then
        workspace <- gets (fun st =>
          PosixPath.joinpath (PosixPath.of_string (workspace_dir (config st))) sandbox_id) ;;
        ex <- on_host (Host.exists_ workspace) ;;
        if ex then on_host (Host.rmtree workspace) else ret tt
      else ret tt) ;;;
     info_path <- _get_session_info_path sandbox_id ;;
     ex <- on_host (Host.exists_ info_path) ;;
     (if ex then on_host (Host.unlink info_path) else ret tt) ;;;
     modify (fun st => set_sessions (delete sandbox_id (_sessions st)) st) ;;;
     ret true)
    any_exception
    (fun _ => ret false).

Definition pause_sandbox (sandbox_id : string) : M t bool := ret false.
Definition resume_sandbox (sandbox_id : string) : M t bool := ret false.

(** The workspace string both command methods and the path
    translation compute:
    [session_info.get("workspace", str(Path(workspace_dir) / sandbox_id))]. *)
Definition workspace_of (sandbox_id : string) : M t string :=
  gets (fun st =>
    let session_info := or_empty (_sessions st !! sandbox_id) in
    default
      (PosixPath.to_string
         (PosixPath.joinpath (PosixPath.of_string (workspace_dir (config st))) sandbox_id))
      (d_workspace session_info)).

(** [" ".join([f"{k}={v}" for k, v in envs.items()])] *)
Definition env_str (envs : str_dict) : string :=
  Py.join " " (map (fun kv => kv.1 +:+ "=" +:+ kv.2) envs).

(** The command line both command methods build from [command],
    [cwd], the workspace and [envs]. *)
Definition build_full_cmd (command : string) (cwd : option string)
    (workspace : string) (envs : option str_dict) : string :=
  let full_cmd :=
    match cwd with
    | Some c =>
        if Py.truthy c then "cd " +:+ c +:+ " && " +:+ command
        else if Py.truthy workspace then "cd " +:+ workspace +:+ " && " +:+ command
        else command
    | None =>
        if Py.truthy workspace then "cd " +:+ workspace +:+ " && " +:+ command
        else command
    end in
  match envs with
  | Some (e :: es) => env_str (e :: es) +:+ " " +:+ full_cmd
  | _ => full_cmd
  end.

(** The body of the polling loop once the capture file was read:
    the output and the exit status cut out of [content]. *)
Definition parse_capture (exit_marker content : string) : string * Z :=
  let parts := Py.split exit_marker content in
  let output := Py.strip (default "" (parts !! 0%nat)) in
  let exit_code :=
    match parts !! 1%nat with
    | Some after =>
        match Py.split_ws (Py.strip after) with
        | tok :: _ => default 0 (Py.int tok)
        | [] => 0
        end
    | None => 0
    end in
  (output, exit_code).

(** [while time.time() - start_time < timeout: ...]; the result is
    the pair of [output] and [exit_code] the loop leaves. The loop is
    followed for [fuel] rounds, and is taken not to end when they run
    out: [rounds] gives their number. *)
Fixpoint poll (fuel : nat) (start_time : Z) (timeout : Py.number)
    (exit_marker : string) (output_file : Path) : M t (string * Z) :=
  now <- on_host Host.time ;;
  if Py.ms_lt (now - start_time) timeout then
    match fuel with
    | O => raise Diverge
    | S fuel' =>
        on_host (Host.sleep 200) ;;;
        ex <- on_host (Host.exists_ output_file) ;;
        if ex then
          content <- on_host (TextIO.read_text output_file) ;;
          if Py.contains exit_marker content
          then ret (parse_capture exit_marker content)
          else poll fuel' start_time timeout exit_marker output_file
        else poll fuel' start_time timeout exit_marker output_file
    end
  else ret ("", -1).

(** The double-quote character of the [echo] the command is wrapped in. *)
Definition dquote : string := String "034"%char EmptyString.

(** [timeout or 60] *)
Definition effective_timeout (timeout : option Py.number) : Py.number :=
  match timeout with
  | Some t => if Py.number_truthy t then t else Py.Finite 60
  | None => Py.Finite 60
  end.

(** The first whole number of milliseconds that is not less than [q]
    seconds. *)
Definition deadline (q : Q) : Z := Qceiling (q * 1000).

(** Rounds of 200 ms that cover [ms] milliseconds. *)
Definition poll_fuel (ms : Z) : nat := S (Z.to_nat (ms / 200)).

(** The time of the last step the other processes have scheduled. *)
Definition last_due (h : Host.t) : Z :=
  foldr (fun ev t => Z.max (Host.ev_time ev) t) (Host.clock h) (Host.pending h).

(** The rounds the loop is followed for. Under a finite timeout the
    clock ends it within these. Under an infinite one only the marker
    ends it: once the other processes have taken their last step every
    round reads what the one before read, so the loop that has not
    read the marker by then never ends, and the model stops with
    [Diverge]. *)
Definition rounds (timeout : Py.number) (h : Host.t) : nat :=
  match timeout with
  | Py.Finite q => poll_fuel (deadline q)
  | Py.PosInf => poll_fuel (last_due h - Host.clock h)
  | Py.NegInf | Py.NaN => O
  end.

(** The first half of [run_command], up to the keystrokes of the
    wrapped command: it yields the exit marker and the capture file. *)
Definition send_command (sandbox_id command : string) (cwd : option string)
    (envs : option str_dict) : M t (string * Path) :=
  workspace <- workspace_of sandbox_id ;;
  let full_cmd := build_full_cmd command cwd workspace envs in
  marker_hex <- on_host Host.uuid4_hex ;;
  exit_hex <- on_host Host.uuid4_hex ;;
  let exit_marker := "__EXIT_" +:+ Py.slice_to 8 exit_hex +:+ "__" in
  let wrapped_cmd := full_cmd +:+ "; echo " +:+ dquote +:+ exit_marker +:+ "$?" +:+ dquote in
  output_file <- gets (fun st =>
    PosixPath.joinpath (PosixPath.of_string (capture_dir (config st)))
      (sandbox_id +:+ "_output.txt")) ;;
  _run_tmux ["send-keys"; "-t"; sandbox_id;
             "exec > >(tee " +:+ PosixPath.to_string output_file +:+ ") 2>&1";
             "Enter"] true ;;;
  on_host (Host.sleep 100) ;;;
  _run_tmux ["send-keys"; "-t"; sandbox_id; wrapped_cmd; "Enter"] true ;;;
  ret (exit_marker, output_file).

Definition run_command (sandbox_id command : string) (cwd : option string)
    (envs : option str_dict) (timeout : option Py.number) (shell : bool)
    : M t CommandResult :=
  ex <- _session_exists sandbox_id ;;
  if negb ex then raise (SandboxNotFoundError ("Session not found: " +:+ sandbox_id))
  else
    sent <- send_command sandbox_id command cwd envs ;;
    let exit_marker := sent.1 in
    let output_file := sent.2 in
    start_time <- on_host Host.time ;;
    let timeout := effective_timeout timeout in
    fuel <- gets (fun st => rounds timeout (host st)) ;;
    r <- poll fuel start_time timeout exit_marker output_file ;;
    ex <- on_host (Host.exists_ output_file) ;;
    (if ex then on_host (Host.unlink output_file) else ret tt) ;;;
    ret {| stdout := r.1; stderr := ""; exit_code := r.2; pid := None |}.

Definition run_command_background (sandbox_id command : string)
    (cwd : option string) (envs : option str_dict) : M t CommandResult :=
  ex <- _session_exists sandbox_id ;;
  if negb ex then raise (SandboxNotFoundError ("Session not found: " +:+ sandbox_id))
  else
    workspace <- workspace_of sandbox_id ;;
    let full_cmd := build_full_cmd command cwd workspace envs in
    let bg_cmd := "nohup " +:+ full_cmd +:+ " > /dev/null 2>&1 & echo $!" in
    _run_tmux ["send-keys"; "-t"; sandbox_id; bg_cmd; "Enter"] true ;;;
    on_host (Host.sleep 200) ;;;
    ret {| stdout := ""; stderr := ""; exit_code := 0; pid := None |}.

(** *** File operations (direct file-system access) *)

Definition _get_full_path (sandbox_id path : string) : M t Path :=
  ws <- workspace_of sandbox_id ;;
  let workspace := PosixPath.of_string ws in
  if Py.startswith path "/workspace"
  then ret (PosixPath.joinpath workspace (Py.slice_from 10 path))
  else if Py.startswith path "/"
  then ret (PosixPath.joinpath workspace (Py.slice_from 1 path))
  else ret (PosixPath.joinpath workspace path).

Definition read_file (sandbox_id path : string) : M t string :=
  full_path <- _get_full_path sandbox_id path ;;
  ex <- on_host (Host.exists_ full_path) ;;
  if negb ex then raise (FileOperationError ("File not found: " +:+ path))
  else on_host (TextIO.read_text full_path).

Definition read_file_bytes (sandbox_id path : string) : M t (list Byte.byte) :=
  full_path <- _get_full_path sandbox_id path ;;
  ex <- on_host (Host.exists_ full_path) ;;
  if negb ex then raise (FileOperationError ("File not found: " +:+ path))
  else on_host (Host.read_bytes full_path).

(** The [FileInfo] both write methods build from [full_path.stat()]. *)
Definition written_info (full_path : Path) : M t FileInfo :=
  st <- on_host (Host.stat full_path) ;;
  ret {| name := PosixPath.name full_path;
         path := PosixPath.to_string full_path;
         type := "file";
         size := st.2;
         permissions := Host.oct3 st.1;
         modified_at := None |}.

Definition write_file (sandbox_id path content : string) : M t FileInfo :=
  full_path <- _get_full_path sandbox_id path ;;
  on_host (Host.mkdir_parents (PosixPath.parent full_path)) ;;;
  on_host (TextIO.write_text full_path content) ;;;
  written_info full_path.

Definition write_file_bytes (sandbox_id path : string) (data : list Byte.byte)
    : M t FileInfo :=
  full_path <- _get_full_path sandbox_id path ;;
  on_host (Host.mkdir_parents (PosixPath.parent full_path)) ;;;
  on_host (Host.write_bytes full_path data) ;;;
  written_info full_path.

Definition file_exists (sandbox_id path : string) : M t bool :=
  full_path <- _get_full_path sandbox_id path ;;
  on_host (Host.exists_ full_path).

Definition make_directory (sandbox_id path : string) : M t bool :=
  full_path <- _get_full_path sandbox_id path ;;
  on_host (Host.mkdir_parents full_path) ;;;
  ret true.

Context {calendar : Calendar}.

(** The [FileInfo] that [list_files] and [get_file_info] build for
    an entry from [stat()] and [is_dir()]. *)
Definition entry_info (item : Path) : M t FileInfo :=
  st <- on_host (Host.stat item) ;;
  d <- on_host (Host.is_dir item) ;;
  mtime <- on_host (stat_mtime item) ;;
  ret {| name := PosixPath.name item;
         path := PosixPath.to_string item;
         type := if d then "dir" else "file";
         size := st.2;
         permissions := Host.oct3 st.1;
         modified_at := Some mtime |}.

(** [for item in full_path.iterdir(): files.append(...)] *)
Fixpoint list_items (items : list Path) (files : list FileInfo) : M t (list FileInfo) :=
  match items with
  | [] => ret files
  | item :: rest =>
      fi <- entry_info item ;;
      list_items rest (files ++ [fi])
  end.

Definition list_files (sandbox_id path : string) (depth : Z) : M t (list FileInfo) :=
  full_path <- _get_full_path sandbox_id path ;;
  ex <- on_host (Host.exists_ full_path) ;;
  if negb ex then ret []
  else
    items <- on_host (Host.iterdir full_path) ;;
    list_items items [].

Definition get_file_info (sandbox_id path : string) : M t FileInfo :=
  full_path <- _get_full_path sandbox_id path ;;
  ex <- on_host (Host.exists_ full_path) ;;
  if negb ex then raise (FileOperationError ("File not found: " +:+ path))
  else entry_info full_path.

Definition remove_file (sandbox_id path : string) : M t unit :=
  full_path <- _get_full_path sandbox_id path ;;
  ex <- on_host (Host.exists_ full_path) ;;
  if negb ex then raise (FileOperationError ("File not found: " +:+ path))
  else
    d <- on_host (Host.is_dir full_path) ;;
    if d then on_host (Host.rmtree full_path) else on_host (Host.unlink full_path).

End Backend.

(** *** Creating and listing sandboxes *)

Definition SESSION_PREFIX : string := "sbx".

Definition newline : string := String "010" EmptyString.

(** The multiplexer's answers to the sub-commands of [create_sandbox]
    and [list_sandboxes]; every other command line is answered by
    [tmux_cli]. A session name can be taken once; the sessions are
    listed one name a line, and without a session there is no server
    to list them. *)
Definition tmux_cli_sessions (args : list string) (srv : Server)
    : CompletedProcess * Server :=
  match args with
  | ["new-session"; "-d"; "-s"; s; "-c"; _] =>
      if decide (s ∈ sessions srv) then (done_err ("duplicate session: " +:+ s), srv)
      else (done_ok, {| sessions := sessions srv ∪ {[s]}; sent := sent srv |})
  | ["set-environment"; "-t"; t; _; _] =>
      if decide (t ∈ sessions srv) then (done_ok, srv)
      else (done_err ("can't find session: " +:+ t), srv)
  | ["list-sessions"; "-F"; "#{session_name}"] =>
      match elements (sessions srv) with
      | [] => (done_err "no server running", srv)
      | names =>
          ({| returncode := 0;
              proc_stdout := Py.join newline names +:+ newline;
              proc_stderr := "" |}, srv)
      end
  | _ => tmux_cli args srv
  end.

(** [json.dumps] of a session-info dictionary. *)
Class JsonWriter := { json_dumps : session_dict -> string }.

Section Sessions.
Context {codec : TextCodec} {json : JsonCodec} {writer : JsonWriter}
        {calendar : Calendar}.

(** [_run_tmux(args, check)] for these sub-commands. *)
Definition _run_tmux_sessions (args : list string) (check : bool)
    : M t CompletedProcess :=
  fun st =>
    let '(r, srv) := tmux_cli_sessions args (server st) in
    if check && negb (returncode r =? 0)
    then (Raise (CommandExecutionError ("Tmux command failed: " +:+ proc_stderr r)),
          set_server srv st)
    else (Ok r, set_server srv st).

Definition _generate_sandbox_id : M t string :=
  hex <- on_host Host.uuid4_hex ;;
  ret (SESSION_PREFIX +:+ "_" +:+ Py.slice_to 12 hex).

Definition _save_session_info (sandbox_id : string) (info : session_dict) : M t unit :=
  path <- _get_session_info_path sandbox_id ;;
  on_host (TextIO.write_text path (json_dumps info)).

(** [for key, value in envs.items(): self._run_tmux([...])] *)
Fixpoint set_environment (sandbox_id : string) (envs : str_dict) : M t unit :=
  match envs with
  | [] => ret tt
  | (key, value) :: rest =>
      _run_tmux_sessions ["set-environment"; "-t"; sandbox_id; key; value] true ;;;
      set_environment sandbox_id rest
  end.

Definition create_sandbox (template : option string) (timeout : option Z)
    (envs : option str_dict) (metadata : option (gmap string string)) : M t string :=
  sandbox_id <- _generate_sandbox_id ;;
  try_except
    (workspace <- gets (fun st =>
       PosixPath.joinpath (PosixPath.of_string (workspace_dir (config st))) sandbox_id) ;;
     on_host (Host.mkdir_parents workspace) ;;;
     _run_tmux_sessions ["new-session"; "-d"; "-s"; sandbox_id;
                         "-c"; PosixPath.to_string workspace] true ;;;
     (match envs with
      | Some (e :: es) => set_environment sandbox_id (e :: es)
      | _ => ret tt
      end) ;;;
     now <- on_host Host.time ;;
     let session_info :=
       {| d_sandbox_id := Some sandbox_id;
          d_workspace := Some (PosixPath.to_string workspace);
          d_created_at := Some (utcnow_isoformat now);
          d_template := Some template;
          d_timeout := Some timeout;
          d_metadata := Some (default ∅ metadata);
          d_envs := Some (list_to_map (default [] envs)) |} in
     modify (fun st => set_sessions (<[sandbox_id := session_info]> (_sessions st)) st) ;;;
     _save_session_info sandbox_id session_info ;;;
     ret sandbox_id)
    any_exception
    (fun e => raise (SandboxCreationError (exn_str e))).

(** The [SandboxInfo] that [list_sandboxes] builds for a session from
    its session info, if it has one. *)
Definition listed (session_name : string) (session_info : option session_dict)
    : SandboxInfo :=
  let info := match session_info with
              | Some d => if dict_truthy d then Some d else None
              | None => None
              end in
  {| sandbox_id := session_name;
     backend_type := "tmux";
     status := RUNNING;
     created_at := match info with Some d => default "" (d_created_at d) | None => "" end;
     metadata := match info with Some d => default ∅ (d_metadata d) | None => ∅ end;
     template := match info with Some d => default None (d_template d) | None => None end;
     ports := None |}.

(** [for line in result.stdout.strip().split("\n"): ...] *)
Fixpoint list_lines (limit : Z) (lines : list string) (sandboxes : list SandboxInfo)
    : M t (list SandboxInfo) :=
  match lines with
  | [] => ret sandboxes
  | line :: rest =>
      let session_name := Py.strip line in
      if Py.startswith session_name SESSION_PREFIX then
        c <- cached session_name ;;
        session_info <- match c with
                        | Some d => if dict_truthy d then ret (Some d)
                                    else _load_session_info session_name
                        | None => _load_session_info session_name
                        end ;;
        let sandboxes := sandboxes ++ [listed session_name session_info] in
        if Z.of_nat (length sandboxes) >=? limit then ret sandboxes
        else list_lines limit rest sandboxes
      else list_lines limit rest sandboxes
  end.

Definition list_sandboxes (limit : Z) : M t (list SandboxInfo) :=
  result <- _run_tmux_sessions ["list-sessions"; "-F"; "#{session_name}"] false ;;
  if (returncode result =? 0) && Py.truthy (proc_stdout result)
  then list_lines limit (Py.split newline (Py.strip (proc_stdout result))) []
  else ret [].

End Sessions.
End Tmux.

(* ===================================================================== *)
(** ** [os.path] and [tarfile], as far as the container backend uses them *)
(* ===================================================================== *)

Module OsPath.

(** The text after the last slash, and the text up to and including
    it, both read off the reversed string. *)
Fixpoint rsplit_rev (tail : list ascii) (l : list ascii) : list ascii * list ascii :=
  match l with
  | [] => ([], tail)
  | c :: l' =>
      if Ascii.eqb c "/" then (l, tail) else rsplit_rev (c :: tail) l'
  end.

Fixpoint drop_slashes (l : list ascii) : list ascii :=
  match l with
  | c :: l' => if Ascii.eqb c "/" then drop_slashes l' else l
  | [] => []
  end.

(** [os.path.split(p)] *)
Definition split (p : string) : string * string :=
  let '(head_rev, tail_chars) := rsplit_rev [] (rev (String.list_ascii_of_string p)) in
  let tail := String.string_of_list_ascii tail_chars in
  match drop_slashes head_rev with
  | [] => (String.string_of_list_ascii (rev head_rev), tail)
  | stripped => (String.string_of_list_ascii (rev stripped), tail)
  end.

Definition dirname (p : string) : string := (split p).1.
Definition basename (p : string) : string := (split p).2.

End OsPath.

(** A tar archive: its members in order, a regular file with its bytes
    or a directory. *)
Definition tar_archive := list (string * option (list Byte.byte)).

(* ===================================================================== *)
(** ** The container runtime, as seen through its client *)
(* ===================================================================== *)

Module Docker.

(** What the runtime reports about a container. *)
Record attrs := {
  a_status : string;
  a_labels : gmap string string;
  a_created : string;
}.

Record container := {
  c_attrs : attrs;
  c_fs : gmap (list string) Host.node;
}.

(** What running a command in a container yields: its exit status,
    the two output streams ([None] for a stream without data), the
    time it takes in milliseconds and the file tree it leaves. *)
Record exec_outcome := {
  eo_exit_code : Z;
  eo_stdout : option (list Byte.byte);
  eo_stderr : option (list Byte.byte);
  eo_duration : Z;
  eo_fs : gmap (list string) Host.node;
}.

(** The daemon: containers by name, and the behaviour of commands
    (container name, argument vector, working directory, environment,
    file tree before). *)
Record t := {
  containers : gmap string container;
  exec_fn : string -> list string -> string -> option str_dict ->
            gmap (list string) Host.node -> exec_outcome;
}.

Definition set_containers (m : gmap string container) (d : t) : t :=
  {| containers := m; exec_fn := exec_fn d |}.

(** A [Container] object of the client: the name it addresses the
    container by and the attributes it read last. *)
Record handle := { h_name : string; h_attrs : attrs }.

Definition not_found (what : string) : exn :=
  DockerNotFound ("404 Client Error: Not Found (" +:+ what +:+ ")").

(** [client.containers.get(name)] *)
Definition get (name : string) : M t handle :=
  fun d => match containers d !! name with
           | Some c => (Ok {| h_name := name; h_attrs := c_attrs c |}, d)
           | None => (Raise (not_found ("No such container: " +:+ name)), d)
           end.

(** [container.reload()]: the attributes read anew. *)
Definition reload (h : handle) : M t handle := get (h_name h).

Definition set_status (s : string) (c : container) : container :=
  {| c_attrs := {| a_status := s; a_labels := a_labels (c_attrs c);
                   a_created := a_created (c_attrs c) |};
     c_fs := c_fs c |}.

(** [container.kill()]: only a running container can be killed. *)
Definition kill (h : handle) : M t unit :=
  fun d => match containers d !! h_name h with
           | Some c =>
               if String.eqb (a_status (c_attrs c)) "running"
               then (Ok tt, set_containers (<[h_name h := set_status "exited" c]> (containers d)) d)
               else (Raise (DockerAPIError "409 Client Error: Conflict (container is not running)"), d)
           | None => (Raise (not_found ("No such container: " +:+ h_name h)), d)
           end.

(** [container.remove(force=True)] *)
Definition remove_force (h : handle) : M t unit :=
  fun d => match containers d !! h_name h with
           | Some _ => (Ok tt, set_containers (delete (h_name h) (containers d)) d)
           | None => (Raise (not_found ("No such container: " +:+ h_name h)), d)
           end.

(** [container.exec_run(cmd, workdir=..., environment=...)]: the
    outcome and the time it took. *)
Definition exec_run (h : handle) (cmd : list string) (workdir : string)
    (environment : option str_dict) : M t exec_outcome :=
  fun d => match containers d !! h_name h with
           | Some c =>
               if String.eqb (a_status (c_attrs c)) "running"
               then let o := exec_fn d (h_name h) cmd workdir environment (c_fs c) in
                    (Ok o, set_containers
                             (<[h_name h := {| c_attrs := c_attrs c; c_fs := eo_fs o |}]>
                                (containers d)) d)
               else (Raise (DockerAPIError "409 Client Error: Conflict (container is not running)"), d)
           | None => (Raise (not_found ("No such container: " +:+ h_name h)), d)
           end.

(** Paths inside a container are resolved from its root directory. *)
Definition resolve (f : gmap (list string) Host.node) (p : string)
    : os_errno + list string :=
  Host.walk f [] (PosixPath.parts (PosixPath.of_string p)).

(** A member name that names an entry of the directory it is unpacked
    into. *)
Definition plain_name (n : string) : bool :=
  negb (String.eqb n "") && negb (String.eqb n ".") && negb (String.eqb n "..")
  && negb (Py.contains "/" n).

(** Unpacking: a regular-file member replaces or creates the entry of
    its name; a directory member creates the directory if missing. *)
Fixpoint unpack (dir : list string) (ar : tar_archive)
    (f : gmap (list string) Host.node) : option (gmap (list string) Host.node) :=
  match ar with
  | [] => Some f
  | (n, m) :: rest =>
      if plain_name n then
        match m, f !! (dir ++ [n]) with
        | Some data, Some (Host.Dir _) => None
        | Some data, _ => unpack dir rest (<[dir ++ [n] := Host.File 420 data]> f)
        | None, Some (Host.File _ _) => None
        | None, Some (Host.Dir _) => unpack dir rest f
        | None, None => unpack dir rest (<[dir ++ [n] := Host.Dir 493]> f)
        end
      else None
  end.

(** [container.put_archive(path, data)]: [path] must be a directory of
    the container. *)
Definition put_archive (h : handle) (p : string) (ar : tar_archive) : M t bool :=
  fun d => match containers d !! h_name h with
           | None => (Raise (not_found ("No such container: " +:+ h_name h)), d)
           | Some c =>
               match resolve (c_fs c) p with
               | inr k =>
                   match c_fs c !! k with
                   | Some (Host.Dir _) =>
                       match unpack k ar (c_fs c) with
                       | Some f' =>
                           (Ok true, set_containers
                              (<[h_name h := {| c_attrs := c_attrs c; c_fs := f' |}]>
                                 (containers d)) d)
                       | None => (Raise (DockerAPIError "500 Server Error (cannot unpack)"), d)
                       end
                   | Some (Host.File _ _) =>
                       (Raise (DockerAPIError "400 Client Error (not a directory)"), d)
                   | None => (Raise (not_found ("No such path: " +:+ p)), d)
                   end
               | inl _ => (Raise (not_found ("No such path: " +:+ p)), d)
               end
           end.

(** [container.get_archive(path)]: the archive of the entry at
    [path], its first member named by the entry's own name. The
    members below a directory are not read by the backend and are
    left out. *)
Definition get_archive (h : handle) (p : string) : M t tar_archive :=
  fun d => match containers d !! h_name h with
           | None => (Raise (not_found ("No such container: " +:+ h_name h)), d)
           | Some c =>
               if String.eqb p "" then (Raise (DockerAPIError "400 Client Error (empty path)"), d)
               else
               match resolve (c_fs c) p with
               | inr k =>
                   match c_fs c !! k with
                   | Some (Host.File _ data) => (Ok [(List.last k "", Some data)], d)
                   | Some (Host.Dir _) => (Ok [(List.last k "", None)], d)
                   | None => (Raise (not_found ("No such path: " +:+ p)), d)
                   end
               | inl _ => (Raise (not_found ("No such path: " +:+ p)), d)
               end
           end.

Definition conflict (why : string) : exn :=
  DockerAPIError ("409 Client Error: Conflict (" +:+ why +:+ ")").

(** [container.start()]: a container that was created or has exited
    runs again; starting a running one changes nothing. *)
Definition start (h : handle) : M t unit :=
  fun d => match containers d !! h_name h with
           | Some c =>
               let s := a_status (c_attrs c) in
               if String.eqb s "running" then (Ok tt, d)
               else if String.eqb s "created" || String.eqb s "exited"
               then (Ok tt, set_containers (<[h_name h := set_status "running" c]> (containers d)) d)
               else (Raise (conflict ("cannot start a container that is " +:+ s)), d)
           | None => (Raise (not_found ("No such container: " +:+ h_name h)), d)
           end.

(** [container.pause()]: only a running container can be paused. *)
Definition pause (h : handle) : M t unit :=
  fun d => match containers d !! h_name h with
           | Some c =>
               if String.eqb (a_status (c_attrs c)) "running"
               then (Ok tt, set_containers (<[h_name h := set_status "paused" c]> (containers d)) d)
               else (Raise (conflict "container is not running"), d)
           | None => (Raise (not_found ("No such container: " +:+ h_name h)), d)
           end.

(** [container.unpause()]: only a paused container can be resumed. *)
Definition unpause (h : handle) : M t unit :=
  fun d => match containers d !! h_name h with
           | Some c =>
               if String.eqb (a_status (c_attrs c)) "paused"
               then (Ok tt, set_containers (<[h_name h := set_status "running" c]> (containers d)) d)
               else (Raise (conflict "container is not paused"), d)
           | None => (Raise (not_found ("No such container: " +:+ h_name h)), d)
           end.

End Docker.

(* ===================================================================== *)
(** ** [backends/orbstack/backend.py] *)
(* ===================================================================== *)

Module OrbStack.

Definition LABEL_PREFIX : string := "agent-sandbox".

Record Config := {
  workspace_dir : string;
  image_prefix : option string;
  cleanup_workspace : option bool;
}.

(** An entry of [_active_containers]. The [Container] object it holds
    is shared with whoever got it from [_get_container]. *)
Record entry := {
  e_container : Docker.handle;
  e_workspace : Path;
  e_template : option string;
  e_reconnected : bool;
}.

(** [self] together with the host and the daemon it acts on. *)
Record t := {
  config : Config;
  _active_containers : gmap string entry;
  host : Host.t;
  daemon : Docker.t;
}.

Definition set_host (h : Host.t) (st : t) : t :=
  {| config := config st; _active_containers := _active_containers st;
     host := h; daemon := daemon st |}.
Definition set_daemon (d : Docker.t) (st : t) : t :=
  {| config := config st; _active_containers := _active_containers st;
     host := host st; daemon := d |}.
Definition set_active (m : gmap string entry) (st : t) : t :=
  {| config := config st; _active_containers := m;
     host := host st; daemon := daemon st |}.

Definition on_host {A} (m : M Host.t A) : M t A := zoom host set_host m.
Definition on_daemon {A} (m : M Docker.t A) : M t A := zoom daemon set_daemon m.

Section Backend.
Context {utf8 : TextCodec}.

Definition _get_container (sandbox_id : string) : M t Docker.handle :=
  c <- gets (fun st => _active_containers st !! sandbox_id) ;;
  match c with
  | Some e => ret (e_container e)
  | None =>
      try_except (on_daemon (Docker.get sandbox_id)) is_docker_not_found
        (fun _ => raise (SandboxNotFoundError ("Container not found: " +:+ sandbox_id)))
  end.

(** [container.reload()] on the object [_get_container sandbox_id]
    returned: when that object is the cached one, the cache sees
    the attributes read anew. *)
Definition reload (sandbox_id : string) (container : Docker.handle)
    : M t Docker.handle :=
  h <- on_daemon (Docker.reload container) ;;
  modify (fun st =>
    match _active_containers st !! sandbox_id with
    | Some e =>
        set_active (<[sandbox_id := {| e_container := h; e_workspace := e_workspace e;
                                       e_template := e_template e;
                                       e_reconnected := e_reconnected e |}]>
                      (_active_containers st)) st
    | None => st
    end) ;;;
  ret h.

Definition _map_status (docker_status : string) : SandboxStatus :=
  if String.eqb docker_status "running" then RUNNING
  else if String.eqb docker_status "paused" then PAUSED
  else if String.eqb docker_status "exited" then STOPPED
  else if String.eqb docker_status "created" then CREATING
  else if String.eqb docker_status "restarting" then CREATING
  else if String.eqb docker_status "removing" then STOPPED
  else if String.eqb docker_status "dead" then ERROR
  else ERROR.

(** The metadata read back from the labels with the
    ["agent-sandbox.meta."] prefix. *)
Definition metadata_of (labels : gmap string string) : gmap string string :=
  let pre := LABEL_PREFIX +:+ ".meta." in
  list_to_map
    (omap (fun kv => if Py.startswith kv.1 pre
                     then Some (Py.slice_from (String.length pre) kv.1, kv.2)
                     else None)
          (map_to_list labels)).

Definition get_sandbox_info (sandbox_id : string) : M t SandboxInfo :=
  container <- _get_container sandbox_id ;;
  container <- reload sandbox_id container ;;
  let labels := Docker.a_labels (Docker.h_attrs container) in
  ret {| sandbox_id := sandbox_id;
         backend_type := "orbstack";
         status := _map_status (Docker.a_status (Docker.h_attrs container));
         created_at := default (Docker.a_created (Docker.h_attrs container))
                         (labels !! (LABEL_PREFIX +:+ ".created_at"));
         metadata := metadata_of labels;
         template := labels !! (LABEL_PREFIX +:+ ".template");
         ports := None |}.

Definition is_sandbox_running (sandbox_id : string) : M t bool :=
  try_except
    (container <- _get_container sandbox_id ;;
     container <- reload sandbox_id container ;;
     ret (String.eqb (Docker.a_status (Docker.h_attrs container)) "running"))
    is_sandbox_not_found
    (fun _ => ret false).

Definition kill_sandbox (sandbox_id : string) : M t bool :=
  try_except
    (container <- _get_container sandbox_id ;;
     container <- reload sandbox_id container ;;
     (if String.eqb (Docker.a_status (Docker.h_attrs container)) "running"
      then on_daemon (Docker.kill container) else ret tt) ;;;
     on_daemon (Docker.remove_force container) ;;;
     cleanup <- gets (fun st => default false (cleanup_workspace (config st))) ;;
     (if cleanup then
        workspace <- gets (fun st =>
          PosixPath.joinpath (PosixPath.of_string (workspace_dir (config st))) sandbox_id) ;;
        ex <- on_host (Host.exists_ workspace) ;;
        if ex then on_host (Host.rmtree workspace) else ret tt
      else ret tt) ;;;
     modify (fun st => set_active (delete sandbox_id (_active_containers st)) st) ;;;
     ret true)
    any_exception
    (fun _ => ret false).

(** [data.decode("utf-8", errors="replace") if data else ""] *)
Definition decode_stream (data : option (list Byte.byte)) : string :=
  match data with
  | Some (b :: bs) => decode_replace (b :: bs)
  | _ => ""
  end.

Definition run_command (sandbox_id command : string) (cwd : option string)
    (envs : option str_dict) (timeout : option Py.number) (shell : bool)
    : M t CommandResult :=
  container <- _get_container sandbox_id ;;
  let cmd := if shell then ["/bin/sh"; "-c"; command] else Py.split_ws command in
  try_except
    (exec_result <- on_daemon
       (Docker.exec_run container cmd
          (match cwd with Some c => if Py.truthy c then c else "/workspace"
                        | None => "/workspace" end)
          envs) ;;
     on_host (Host.sleep (Docker.eo_duration exec_result)) ;;;
     ret {| stdout := Py.strip (decode_stream (Docker.eo_stdout exec_result));
            stderr := Py.strip (decode_stream (Docker.eo_stderr exec_result));
            exit_code := Docker.eo_exit_code exec_result;
            pid := None |})
    any_exception
    (fun e => raise (CommandExecutionError ("Command failed: " +:+ exn_str e))).

Definition read_file_bytes (sandbox_id path : string) : M t (list Byte.byte) :=
  container <- _get_container sandbox_id ;;
  try_except
    (tar <- on_daemon (Docker.get_archive container path) ;;
     match tar with
     | (_, Some data) :: _ => ret data
     | (_, None) :: _ => raise (FileOperationError ("Could not read file: " +:+ path))
     | [] => raise IndexError
     end)
    any_exception
    (fun e => if is_docker_not_found e
              then raise (FileOperationError ("File not found: " +:+ path))
              else raise (FileOperationError ("Failed to read file: " +:+ exn_str e))).

Definition read_file (sandbox_id path : string) : M t string :=
  data <- read_file_bytes sandbox_id path ;;
  match decode data with
  | Some s => ret s
  | None => raise UnicodeError
  end.

Definition write_file_bytes (sandbox_id path : string) (data : list Byte.byte)
    : M t FileInfo :=
  container <- _get_container sandbox_id ;;
  try_except
    (let tar := [(OsPath.basename path, Some data)] in
     let directory :=
       if Py.truthy (OsPath.dirname path) then OsPath.dirname path else "/workspace" in
     on_daemon (Docker.put_archive container directory tar) ;;;
     ret {| name := OsPath.basename path;
            path := path;
            type := "file";
            size := Z.of_nat (length data);
            permissions := "644";
            modified_at := None |})
    any_exception
    (fun e => raise (FileOperationError ("Failed to write file: " +:+ exn_str e))).

Definition write_file (sandbox_id path content : string) : M t FileInfo :=
  match encode content with
  | Some data => write_file_bytes sandbox_id path data
  | None => raise UnicodeError
  end.

(** [_get_image_name(template)] *)
Definition _get_image_name (template : option string) : M t string :=
  let template := match template with
                  | Some s => if Py.truthy s then s else "base"
                  | None => "base"
                  end in
  prefix <- gets (fun st => default "agent-sandbox" (image_prefix (config st))) ;;
  ret (prefix +:+ "-" +:+ template +:+ ":latest").

Definition connect_sandbox (sandbox_id : string) : M t bool :=
  try_except
    (container <- on_daemon (Docker.get sandbox_id) ;;
     (if negb (String.eqb (Docker.a_status (Docker.h_attrs container)) "running")
      then on_daemon (Docker.start container) else ret tt) ;;;
     let labels := Docker.a_labels (Docker.h_attrs container) in
     let template := default "base" (labels !! (LABEL_PREFIX +:+ ".template")) in
     modify (fun st =>
       set_active (<[sandbox_id :=
                      {| e_container := container;
                         e_workspace :=
                           PosixPath.joinpath (PosixPath.of_string (workspace_dir (config st)))
                             sandbox_id;
                         e_template := Some template;
                         e_reconnected := true |}]> (_active_containers st)) st) ;;;
     ret true)
    is_docker_not_found
    (fun _ => raise (SandboxNotFoundError ("Container not found: " +:+ sandbox_id))).

Definition pause_sandbox (sandbox_id : string) : M t bool :=
  try_except
    (container <- _get_container sandbox_id ;;
     on_daemon (Docker.pause container) ;;;
     ret true)
    any_exception
    (fun _ => ret false).

Definition resume_sandbox (sandbox_id : string) : M t bool :=
  try_except
    (container <- _get_container sandbox_id ;;
     on_daemon (Docker.unpause container) ;;;
     ret true)
    any_exception
    (fun _ => ret false).

End Backend.
End OrbStack.

(* ===================================================================== *)
(** ** [backends/factory.py] *)
(* ===================================================================== *)

Module Factory.

Section Factory.
(** Configurations, backend objects and the world their
    constructors act on. *)
Context {Cfg Obj W : Type}.

(** A backend class is what calling it does: [__init__], which
    validates the configuration against the world and may raise. *)
Definition backend_class : Type := Cfg -> M W Obj.

(** The two classes [_register_default_backends] imports. *)
Context (OrbStackBackend TmuxBackend : backend_class).

(** The class attributes [_backends] (in insertion order) and
    [_instances], the objects constructed so far (an instance is
    referred to by its index in [objects]) and the world. *)
Record t := {
  _backends : list (string * backend_class);
  _instances : gmap string nat;
  objects : list Obj;
  world : W;
}.

(** [d[k] = v] on a dictionary kept in insertion order *)
Fixpoint dict_set (k : string) (v : backend_class)
    (d : list (string * backend_class)) : list (string * backend_class) :=
  match d with
  | [] => [(k, v)]
  | (k', v') :: rest =>
      if String.eqb k' k then (k, v) :: rest else (k', v') :: dict_set k v rest
  end.

(** [d.get(k)] *)
Fixpoint dict_get (k : string) (d : list (string * backend_class))
    : option backend_class :=
  match d with
  | [] => None
  | (k', v') :: rest => if String.eqb k' k then Some v' else dict_get k rest
  end.

Definition register_backend (name : string) (cls : backend_class) : M t unit :=
  modify (fun s =>
    {| _backends := dict_set (Py.lower name) cls (_backends s);
       _instances := _instances s; objects := objects s; world := world s |}).

Definition _register_default_backends : M t unit :=
  register_backend "orbstack" OrbStackBackend ;;;
  register_backend "tmux" TmuxBackend.

(** [backend_class(config)]: the new object gets the next reference. *)
Definition construct (cls : backend_class) (config : Cfg) : M t nat :=
  fun s => match cls config (world s) with
           | (Ok o, w') =>
               (Ok (length (objects s)),
                {| _backends := _backends s; _instances := _instances s;
                   objects := objects s ++ [o]; world := w' |})
           | (Raise e, w') =>
               (Raise e,
                {| _backends := _backends s; _instances := _instances s;
                   objects := objects s; world := w' |})
           end.

Definition create_backend (backend_type : string) (config : Cfg) (cache : bool)
    : M t nat :=
  let backend_type := Py.lower backend_type in
  hit <- gets (fun s => if cache then _instances s !! backend_type else None) ;;
  match hit with
  | Some instance => ret instance
  | None =>
      empty <- gets (fun s => match _backends s with [] => true | _ => false end) ;;
      (if empty then _register_default_backends else ret tt) ;;;
      cls <- gets (fun s => dict_get backend_type (_backends s)) ;;
      match cls with
      | None =>
          available <- gets (fun s => Py.join ", " (map fst (_backends s))) ;;
          raise (InvalidBackendError
                   ("Unknown backend: " +:+ backend_type +:+ ". Available: " +:+ available))
      | Some backend_class =>
          instance <- construct backend_class config ;;
          (if cache then
             modify (fun s =>
               {| _backends := _backends s;
                  _instances := <[backend_type := instance]> (_instances s);
                  objects := objects s; world := world s |})
           else ret tt) ;;;
          ret instance
      end
  end.

Definition list_backends : M t (list string) :=
  empty <- gets (fun s => match _backends s with [] => true | _ => false end) ;;
  (if empty then _register_default_backends else ret tt) ;;;
  gets (fun s => map fst (_backends s)).

Definition clear_cache : M t unit :=
  modify (fun s =>
    {| _backends := _backends s; _instances := ∅;
       objects := objects s; world := world s |}).

(** A call on the factory other than [clear_cache]. *)
Inductive call :=
  | Register (name : string) (cls : backend_class)
  | Create (backend_type : string) (config : Cfg) (cache : bool)
  | ListBackends.

Definition run_call (c : call) (s : t) : t :=
  match c with
  | Register n cls => (register_backend n cls s).2
  | Create n cfg cache => (create_backend n cfg cache s).2
  | ListBackends => (list_backends s).2
  end.

Definition run_calls (cs : list call) (s : t) : t := foldl (fun s c => run_call c s) s cs.

(** *** [get_backend] *)

(** The two dictionaries [get_backend] uses when no configuration is
    given. *)
Context (default_orbstack_config default_tmux_config : Cfg).

(** The class attributes of the factory together with the module's
    global [_current_backend]. *)
Record globals := {
  factory : t;
  _current_backend : option nat;
}.

Definition on_factory {A} (m : M t A) : M globals A :=
  zoom factory (fun f g => {| factory := f; _current_backend := _current_backend g |}) m.

Definition get_backend (backend_type : option string) (config : option Cfg)
    : M globals nat :=
  current <- gets _current_backend ;;
  match backend_type, current with
  | None, Some backend => ret backend
  | _, _ =>
      let backend_type := default "orbstack" backend_type in
      let config :=
        match config with
        | Some c => c
        | None => if String.eqb backend_type "orbstack"
                  then default_orbstack_config else default_tmux_config
        end in
      backend <- on_factory (create_backend backend_type config true) ;;
      modify (fun g => {| factory := factory g; _current_backend := Some backend |}) ;;;
      ret backend
  end.

End Factory.
End Factory.

(* ===================================================================== *)
(** * Properties *)
(* ===================================================================== *)

(** The ["ascii"] codec. *)
Module AsciiCodec.

Definition is_low (c : ascii) : bool := (nat_of_ascii c <? 128)%nat.

Definition enc (s : string) : option (list Byte.byte) :=
  let l := String.list_ascii_of_string s in
  if forallb is_low l then Some (map byte_of_ascii l) else None.

Definition dec (b : list Byte.byte) : option string :=
  let l := map ascii_of_byte b in
  if forallb is_low l then Some (String.string_of_list_ascii l) else None.

Definition dec_replace (b : list Byte.byte) : string :=
  String.string_of_list_ascii
    (map (fun x => let c := ascii_of_byte x in if is_low c then c else "?"%char) b).

Lemma dec_enc s b : enc s = Some b -> dec b = Some s.
Proof.
  unfold enc, dec. destruct (forallb _ _) eqn:E; [|done].
  intros [= <-]. rewrite map_map.
  rewrite (map_ext _ id), map_id by (intros; apply ascii_of_byte_of_ascii).
  by rewrite E, String.string_of_list_ascii_of_string.
Qed.

Definition codec : TextCodec :=
  {| encode := enc; decode := dec; decode_replace := dec_replace;
     decode_encode := dec_enc |}.

End AsciiCodec.

(** The ["utf-8"] codec: well-formed UTF-8 only, so that a text with a
    surrogate is not encoded and units that are no character are not
    decoded; with [errors="replace"] each place the decoder reports
    becomes U+FFFD. *)
Module Utf8Codec.

Definition between (lo hi b : N) : bool := ((lo <=? b) && (b <=? hi))%N.

Definition continuation (b : N) : bool := between 128 191 b.

(** The second unit a first unit allows: no overlong form, no
    surrogate, nothing above U+10FFFF. *)
Definition second (b b2 : N) : bool :=
  if (b =? 224)%N then between 160 191 b2
  else if (b =? 237)%N then between 128 159 b2
  else if (b =? 240)%N then between 144 191 b2
  else if (b =? 244)%N then between 128 143 b2
  else continuation b2.

(** The units cut into characters; [None] stands for units that
    are no character, one for each place the decoder reports. *)
Fixpoint scan (l : list N) : list (option (list N)) :=
  match l with
  | [] => []
  | b :: r1 =>
      if (b <? 128)%N then Some [b] :: scan r1
      else if between 194 223 b then
        match r1 with
        | [] => [None]
        | b2 :: r2 =>
            if continuation b2 then Some [b; b2] :: scan r2 else None :: scan r1
        end
      else if between 224 239 b then
        match r1 with
        | [] => [None]
        | b2 :: r2 =>
            if second b b2 then
              match r2 with
              | [] => [None]
              | b3 :: r3 =>
                  if continuation b3 then Some [b; b2; b3] :: scan r3
                  else None :: scan r2
              end
            else None :: scan r1
        end
      else if between 240 244 b then
        match r1 with
        | [] => [None]
        | b2 :: r2 =>
            if second b b2 then
              match r2 with
              | [] => [None]
              | b3 :: r3 =>
                  if continuation b3 then
                    match r3 with
                    | [] => [None]
                    | b4 :: r4 =>
                        if continuation b4 then Some [b; b2; b3; b4] :: scan r4
                        else None :: scan r3
                    end
                  else None :: scan r2
              end
            else None :: scan r1
        end
      else None :: scan r1
  end.

Definition well_formed (l : list N) : bool :=
  forallb (fun c => bool_decide (is_Some c)) (scan l).

Definition units (s : string) : list N := map N_of_ascii (String.list_ascii_of_string s).
Definition of_units (l : list N) : string := String.string_of_list_ascii (map ascii_of_N l).

Definition enc (s : string) : option (list Byte.byte) :=
  if well_formed (units s)
  then Some (map byte_of_ascii (String.list_ascii_of_string s)) else None.

Definition dec (b : list Byte.byte) : option string :=
  if well_formed (map (fun x => N_of_ascii (ascii_of_byte x)) b)
  then Some (String.string_of_list_ascii (map ascii_of_byte b)) else None.

(** U+FFFD *)
Definition replacement : list N := [239; 191; 189]%N.

Definition dec_replace (b : list Byte.byte) : string :=
  of_units (concat (map (default replacement)
                      (scan (map (fun x => N_of_ascii (ascii_of_byte x)) b)))).

Lemma dec_enc_utf8 s b : enc s = Some b -> dec b = Some s.
Proof.
  unfold enc, dec, units. destruct (well_formed _) eqn:E; [|done].
  intros [= <-]. rewrite !map_map.
  rewrite (map_ext (fun x => N_of_ascii (ascii_of_byte (byte_of_ascii x))) N_of_ascii)
    by (intros; by rewrite ascii_of_byte_of_ascii).
  rewrite E. rewrite (map_ext _ id), map_id by (intros; apply ascii_of_byte_of_ascii).
  by rewrite String.string_of_list_ascii_of_string.
Qed.

Definition codec : TextCodec :=
  {| encode := enc; decode := dec; decode_replace := dec_replace;
     decode_encode := dec_enc_utf8 |}.

End Utf8Codec.



(** Unfolding of the monad's operations. *)
Ltac munfold :=
  unfold bind, ret, raise, gets, modify, zoom, try_except in *.


(** ** A Hoare logic for the monad *)

(** [hoare P m Q]: from a state in [P], [m] ends with a result and a
    state related by [Q]. *)
Definition hoare {S A} (P : S -> Prop) (m : M S A) (Q : outcome A -> S -> Prop) : Prop :=
  forall s r s', P s -> m s = (r, s') -> Q r s'.

Section HoareRules.
Context {S : Type}.
Implicit Types P I : S -> Prop.

Lemma hoare_ret {A} P (a : A) (Q : outcome A -> S -> Prop) :
  (forall s, P s -> Q (Ok a) s) -> hoare P (ret a) Q.
Proof. intros H s r s' HP [= <- <-]. auto. Qed.

Lemma hoare_raise {A} P e (Q : outcome A -> S -> Prop) :
  (forall s, P s -> Q (Raise e) s) -> hoare P (raise e) Q.
Proof. intros H s r s' HP [= <- <-]. auto. Qed.

Lemma hoare_gets {A} P (f : S -> A) (Q : outcome A -> S -> Prop) :
  (forall s, P s -> Q (Ok (f s)) s) -> hoare P (gets f) Q.
Proof. intros H s r s' HP [= <- <-]. auto. Qed.

Lemma hoare_modify P (f : S -> S) (Q : outcome unit -> S -> Prop) :
  (forall s, P s -> Q (Ok tt) (f s)) -> hoare P (modify f) Q.
Proof. intros H s r s' HP [= <- <-]. auto. Qed.

Lemma hoare_bind {A B} P (m : M S A) (k : A -> M S B) (R : A -> S -> Prop)
    (Q : outcome B -> S -> Prop) :
  hoare P m (fun r s => match r with Ok a => R a s | Raise e => Q (Raise e) s end) ->
  (forall a, hoare (R a) (k a) Q) ->
  hoare P (bind m k) Q.
Proof.
  intros Hm Hk s r s' HP. unfold bind.
  destruct (m s) as [[a|e] s1] eqn:E; intros Hr.
  - eapply Hk; [|exact Hr]. exact (Hm _ _ _ HP E).
  - injection Hr as <- <-. exact (Hm _ _ _ HP E).
Qed.

Lemma hoare_try {A} P (m : M S A) (c : exn -> bool) (h : exn -> M S A)
    (R : exn -> S -> Prop)
    (Q : outcome A -> S -> Prop) :
  hoare P m (fun r s => match r with
                        | Ok a => Q (Ok a) s
                        | Raise e => if c e then R e s else Q (Raise e) s
                        end) ->
  (forall e, hoare (R e) (h e) Q) ->
  hoare P (try_except m c h) Q.
Proof.
  intros Hm Hh s r s' HP. unfold try_except.
  destruct (m s) as [[a|e] s1] eqn:E.
  - intros [= <- <-]. exact (Hm _ _ _ HP E).
  - pose proof (Hm _ _ _ HP E) as H1. simpl in H1.
    destruct (c e); intros Hr.
    + eapply Hh; eauto.
    + by injection Hr as <- <-.
Qed.

Lemma hoare_weaken {A} P P' (m : M S A) (Q Q' : outcome A -> S -> Prop) :
  hoare P' m Q' -> (forall s, P s -> P' s) -> (forall r s, Q' r s -> Q r s) ->
  hoare P m Q.
Proof. intros H HP HQ s r s' Hs E. eauto. Qed.

(** [m] keeps the invariant [I], whatever its result. *)
Definition keeps {A} (I : S -> Prop) (m : M S A) : Prop :=
  hoare I m (fun _ s => I s).

Lemma keeps_ret {A} I (a : A) : keeps I (ret a).
Proof. by apply hoare_ret. Qed.
Lemma keeps_raise {A} I e : keeps I (@raise S A e).
Proof. by apply hoare_raise. Qed.
Lemma keeps_gets {A} I (f : S -> A) : keeps I (gets f).
Proof. by apply hoare_gets. Qed.
Lemma keeps_modify I (f : S -> S) : (forall s, I s -> I (f s)) -> keeps I (modify f).
Proof. intros. by apply hoare_modify. Qed.
Lemma keeps_bind {A B} I (m : M S A) (k : A -> M S B) :
  keeps I m -> (forall a, keeps I (k a)) -> keeps I (bind m k).
Proof.
  intros Hm Hk. apply hoare_bind with (R := fun _ s => I s); [|exact Hk].
  intros s r s' Hs E. destruct r; exact (Hm _ _ _ Hs E).
Qed.
Lemma keeps_try {A} I (m : M S A) (c : exn -> bool) (h : exn -> M S A) :
  keeps I m -> (forall e, keeps I (h e)) -> keeps I (try_except m c h).
Proof.
  intros Hm Hh. apply hoare_try with (R := fun _ s => I s); [|exact Hh].
  intros s r s' Hs E. pose proof (Hm _ _ _ Hs E). destruct r; [done|by destruct (c e)].
Qed.
Lemma keeps_if {A} I (b : bool) (m1 m2 : M S A) :
  keeps I m1 -> keeps I m2 -> keeps I (if b then m1 else m2).
Proof. by destruct b. Qed.

(** [returns P m Q]: when [m] returns normally from a state in [P],
    the value and the state are related by [Q]. *)
Definition returns {A} (P : S -> Prop) (m : M S A) (Q : A -> S -> Prop) : Prop :=
  hoare P m (fun r s => match r with Ok a => Q a s | Raise _ => True end).

Lemma returns_bind {A B} P (m : M S A) (k : A -> M S B) (R : A -> S -> Prop)
    (Q : B -> S -> Prop) :
  returns P m R -> (forall a, returns (R a) (k a) Q) -> returns P (bind m k) Q.
Proof.
  intros Hm Hk. apply hoare_bind with (R := R); [|exact Hk].
  intros s r s' Hs E. pose proof (Hm _ _ _ Hs E). by destruct r.
Qed.

Lemma returns_ret {A} P (a : A) (Q : A -> S -> Prop) :
  (forall s, P s -> Q a s) -> returns P (ret a) Q.
Proof. intros. by apply hoare_ret. Qed.

Lemma returns_raise {A} P e (Q : A -> S -> Prop) : returns P (raise e) Q.
Proof. by apply hoare_raise. Qed.

Lemma returns_gets {A} P (f : S -> A) (Q : A -> S -> Prop) :
  (forall s, P s -> Q (f s) s) -> returns P (gets f) Q.
Proof. intros. by apply hoare_gets. Qed.

Lemma returns_modify P (f : S -> S) (Q : unit -> S -> Prop) :
  (forall s, P s -> Q tt (f s)) -> returns P (modify f) Q.
Proof. intros. by apply hoare_modify. Qed.

Lemma returns_keeps {A} (I : S -> Prop) (m : M S A) :
  keeps I m -> returns I m (fun _ s => I s).
Proof. intros H s r s' Hs E. pose proof (H _ _ _ Hs E). by destruct r. Qed.

(** A handler that answers [False] for every exception: the method
    answers [True] only when its body returned it. *)
Lemma returns_or_false P (m : M S bool) (c : exn -> bool) (Q : S -> Prop) :
  returns P m (fun b s => b = true -> Q s) ->
  hoare P (try_except m c (fun _ => ret false)) (fun r s => r = Ok true -> Q s).
Proof.
  intros Hm s r s' Hs. unfold try_except.
  destruct (m s) as [[a|e] s1] eqn:E.
  - intros [= <- <-] [= ->]. by apply (Hm _ _ _ Hs E).
  - destruct (c e); intros [= <- <-]; done.
Qed.

End HoareRules.


(** ** Lifecycle of the terminal backend *)

Module TmuxLifecycle.
Import Tmux.

Lemma set_server_same st : set_server (server st) st = st.
Proof. by destruct st. Qed.
Lemma set_host_same st : set_host (host st) st = st.
Proof. by destruct st. Qed.

(** A host action keeps what does not depend on the host. *)
Lemma keeps_on_tmux_host {A} (I : Tmux.t -> Prop) (m : M Host.t A) :
  (forall st h, I st -> I (set_host h st)) -> keeps I (on_host m).
Proof.
  intros HI st r st' Hst. unfold on_host, zoom.
  destruct (m (host st)) as [r1 h1]. intros [= <- <-]. by apply HI.
Qed.

(** Splits a computation into its steps and closes those that act on
    the host or on the [_sessions] cache only. *)
Ltac keeps_steps :=
  repeat (first [ apply keeps_bind; [|intros ?]
                | apply keeps_if
                | apply keeps_on_tmux_host; by intros
                | apply keeps_modify; by intros
                | apply keeps_gets
                | apply keeps_raise
                | apply keeps_ret ]).

Lemma _session_exists_eq sandbox_id st :
  _session_exists sandbox_id st
  = (Ok (bool_decide (sandbox_id ∈ sessions (server st))), st).
Proof.
  unfold _session_exists, _run_tmux. munfold. simpl.
  destruct (decide (sandbox_id ∈ sessions (server st))); simpl;
    rewrite set_server_same; [by rewrite bool_decide_eq_true_2
                             | by rewrite bool_decide_eq_false_2].
Qed.

(** After [kill-session] the session is gone, whether it was there. *)
Lemma kill_session_gone sandbox_id check :
  hoare (fun _ => True) (_run_tmux ["kill-session"; "-t"; sandbox_id] check)
    (fun _ st => sandbox_id ∉ sessions (server st)).
Proof.
  intros st r st' _. unfold _run_tmux. simpl.
  destruct (decide (sandbox_id ∈ sessions (server st))); simpl.
  - destruct check; simpl; intros [= <- <-]; simpl;
      rewrite elem_of_difference, elem_of_singleton; tauto.
  - destruct check; simpl; intros [= <- <-]; simpl; done.
Qed.

Section WithCodec.
Context {codec : TextCodec}.

(** Whatever [kill_sandbox] returns, the session is gone after it. *)
Lemma kill_sandbox_session_gone sandbox_id :
  hoare (fun _ => True) (kill_sandbox sandbox_id)
    (fun _ st => sandbox_id ∉ sessions (server st)).
Proof.
  unfold kill_sandbox.
  apply hoare_try with (R := fun _ st => sandbox_id ∉ sessions (server st));
    [|intros e; apply hoare_ret; auto].
  eapply hoare_weaken with
    (P' := fun _ => True) (Q' := fun _ st => sandbox_id ∉ sessions (server st));
    [|done|intros [a|e] s H; [exact H|by destruct (any_exception e)]].
  eapply hoare_bind with (R := fun _ st => sandbox_id ∉ sessions (server st)).
  - intros s r s' HP E. pose proof (kill_session_gone _ _ _ _ _ HP E). by destruct r.
  - intros _.
    change (keeps (fun st => sandbox_id ∉ sessions (server st))
              (cleanup <- gets (fun st => default false (cleanup_workspace (config st))) ;;
               (if cleanup then
                  workspace <- gets (fun st =>
                    PosixPath.joinpath (PosixPath.of_string (workspace_dir (config st))) sandbox_id) ;;
                  ex <- on_host (Host.exists_ workspace) ;;
                  if ex then on_host (Host.rmtree workspace) else ret tt
                else ret tt) ;;;
               info_path <- _get_session_info_path sandbox_id ;;
               ex <- on_host (Host.exists_ info_path) ;;
               (if ex then on_host (Host.unlink info_path) else ret tt) ;;;
               modify (fun st => set_sessions (delete sandbox_id (_sessions st)) st) ;;;
               ret true)).
    unfold _get_session_info_path. keeps_steps.
Qed.

End WithCodec.
End TmuxLifecycle.

Module TmuxNotFound.
Import Tmux TmuxLifecycle.

Section WithCodec.
Context {codec : TextCodec} {json : JsonCodec}.

Definition session_not_found (sandbox_id : string) : exn :=
  SandboxNotFoundError ("Session not found: " +:+ sandbox_id).

Lemma tmux_is_sandbox_running_unknown sandbox_id st :
  sandbox_id ∉ sessions (server st) ->
  is_sandbox_running sandbox_id st = (Ok false, st).
Proof.
  intros H. unfold is_sandbox_running.
  by rewrite _session_exists_eq, bool_decide_eq_false_2.
Qed.

Lemma tmux_get_sandbox_info_unknown sandbox_id st :
  sandbox_id ∉ sessions (server st) ->
  get_sandbox_info sandbox_id st = (Raise (session_not_found sandbox_id), st).
Proof.
  intros H. unfold get_sandbox_info, bind at 1.
  by rewrite _session_exists_eq, bool_decide_eq_false_2.
Qed.

Lemma tmux_connect_sandbox_unknown sandbox_id st :
  sandbox_id ∉ sessions (server st) ->
  connect_sandbox sandbox_id st = (Raise (session_not_found sandbox_id), st).
Proof.
  intros H. unfold connect_sandbox, bind at 1.
  by rewrite _session_exists_eq, bool_decide_eq_false_2.
Qed.

Lemma tmux_run_command_unknown sandbox_id command cwd envs timeout shell st :
  sandbox_id ∉ sessions (server st) ->
  run_command sandbox_id command cwd envs timeout shell st
  = (Raise (session_not_found sandbox_id), st).
Proof.
  intros H. unfold run_command, bind at 1.
  by rewrite _session_exists_eq, bool_decide_eq_false_2.
Qed.

Lemma tmux_run_command_background_unknown sandbox_id command cwd envs st :
  sandbox_id ∉ sessions (server st) ->
  run_command_background sandbox_id command cwd envs st
  = (Raise (session_not_found sandbox_id), st).
Proof.
  intros H. unfold run_command_background, bind at 1.
  by rewrite _session_exists_eq, bool_decide_eq_false_2.
Qed.

End WithCodec.
End TmuxNotFound.

(** ** Lifecycle of the container backend *)

Module OrbStackLifecycle.
Import OrbStack.

Lemma set_daemon_same st : set_daemon (daemon st) st = st.
Proof. by destruct st. Qed.

(** The backend cannot resolve the id: it is neither cached nor the
    name of a container of the runtime. *)
Definition unknown (sandbox_id : string) (st : OrbStack.t) : Prop :=
  _active_containers st !! sandbox_id = None
  /\ Docker.containers (daemon st) !! sandbox_id = None.

(** Every cached [Container] object addresses the container named by
    the id it is cached under, as [connect_sandbox] and
    [create_sandbox] store it. *)
Definition consistent (st : OrbStack.t) : Prop :=
  forall sandbox_id e,
    _active_containers st !! sandbox_id = Some e ->
    Docker.h_name (e_container e) = sandbox_id.

Definition container_not_found (sandbox_id : string) : exn :=
  SandboxNotFoundError ("Container not found: " +:+ sandbox_id).

Lemma _get_container_unknown sandbox_id st :
  unknown sandbox_id st ->
  _get_container sandbox_id st = (Raise (container_not_found sandbox_id), st).
Proof.
  intros [Hc Hd]. unfold _get_container. munfold. rewrite Hc.
  unfold on_daemon, zoom, Docker.get. rewrite Hd. simpl.
  by rewrite set_daemon_same.
Qed.

(** [_get_container] changes nothing, and the object it returns
    addresses the container named [sandbox_id]. *)
Lemma _get_container_spec sandbox_id :
  forall st r st', consistent st -> _get_container sandbox_id st = (r, st') ->
    st' = st /\ match r with
                | Ok h => Docker.h_name h = sandbox_id
                | Raise e => e = container_not_found sandbox_id /\ unknown sandbox_id st
                end.
Proof.
  intros st r st' Hc. unfold _get_container. munfold.
  destruct (_active_containers st !! sandbox_id) as [e|] eqn:E.
  - intros [= <- <-]. split; [done|]. by apply Hc.
  - unfold on_daemon, zoom, Docker.get.
    destruct (Docker.containers (daemon st) !! sandbox_id) eqn:D; simpl;
      rewrite set_daemon_same; intros [= <- <-]; done.
Qed.

Lemma keeps_on_orbstack_host {A} (I : OrbStack.t -> Prop) (m : M Host.t A) :
  (forall st h, I st -> I (set_host h st)) -> keeps I (on_host m).
Proof.
  intros HI st r st' Hst. unfold on_host, zoom.
  destruct (m (host st)) as [r1 h1]. intros [= <- <-]. by apply HI.
Qed.

Section WithCodec.
Context {utf8 : TextCodec}.

(** [reload] hands back an object for the same container. *)
Lemma reload_name sandbox_id h :
  returns (fun _ => Docker.h_name h = sandbox_id) (reload sandbox_id h)
    (fun h' _ => Docker.h_name h' = sandbox_id).
Proof.
  intros st r st' Hn. unfold reload, on_daemon, zoom, Docker.reload, Docker.get.
  munfold. destruct (Docker.containers (daemon st) !! Docker.h_name h); simpl.
  - by intros [= <- <-].
  - by intros [= <- <-].
Qed.

(** After [remove(force=True)] the runtime has no container of
    that name. *)
Lemma remove_force_gone sandbox_id h :
  returns (fun _ => Docker.h_name h = sandbox_id) (on_daemon (Docker.remove_force h))
    (fun _ st => Docker.containers (daemon st) !! sandbox_id = None).
Proof.
  intros st r st' Hn. unfold on_daemon, zoom, Docker.remove_force.
  rewrite Hn. destruct (Docker.containers (daemon st) !! sandbox_id); simpl.
  - intros [= <- <-]. simpl. apply lookup_delete_eq.
  - by intros [= <- <-].
Qed.

(** A successful [kill_sandbox] leaves the id unknown. *)
Lemma kill_sandbox_true_unknown sandbox_id :
  hoare consistent (kill_sandbox sandbox_id)
    (fun r st => r = Ok true -> unknown sandbox_id st).
Proof.
  unfold kill_sandbox. apply returns_or_false.
  apply returns_bind with (R := fun h _ => Docker.h_name h = sandbox_id).
  { intros st r st' Hc E. destruct (_get_container_spec _ _ _ _ Hc E) as [-> H].
    by destruct r. }
  intros h0. apply returns_bind with (R := fun h _ => Docker.h_name h = sandbox_id);
    [apply reload_name|].
  intros h. apply returns_bind with (R := fun _ _ => Docker.h_name h = sandbox_id).
  { intros st r st' Hn _. by destruct r. }
  intros _. apply returns_bind with
    (R := fun _ st => Docker.containers (daemon st) !! sandbox_id = None);
    [apply remove_force_gone|].
  intros _. apply returns_bind with
    (R := fun _ st => Docker.containers (daemon st) !! sandbox_id = None).
  { apply returns_gets. auto. }
  intros cleanup. apply returns_bind with
    (R := fun _ st => Docker.containers (daemon st) !! sandbox_id = None).
  { apply returns_keeps. destruct cleanup; [|apply keeps_ret].
    repeat (first [ apply keeps_bind; [|intros ?] | apply keeps_if
                  | apply keeps_on_orbstack_host; by intros | apply keeps_gets | apply keeps_ret ]). }
  intros _. apply returns_bind with (R := fun _ st => unknown sandbox_id st).
  { apply returns_modify. intros st H. split; [apply lookup_delete_eq|exact H]. }
  intros _. apply returns_ret. auto.
Qed.

Lemma orbstack_is_sandbox_running_unknown sandbox_id st :
  unknown sandbox_id st -> is_sandbox_running sandbox_id st = (Ok false, st).
Proof.
  intros H. unfold is_sandbox_running, try_except, bind.
  by rewrite (_get_container_unknown _ _ H).
Qed.

Lemma orbstack_kill_sandbox_unknown sandbox_id st :
  unknown sandbox_id st -> kill_sandbox sandbox_id st = (Ok false, st).
Proof.
  intros H. unfold kill_sandbox, try_except, bind.
  by rewrite (_get_container_unknown _ _ H).
Qed.

Lemma orbstack_get_sandbox_info_unknown sandbox_id st :
  unknown sandbox_id st ->
  get_sandbox_info sandbox_id st = (Raise (container_not_found sandbox_id), st).
Proof.
  intros H. unfold get_sandbox_info, bind.
  by rewrite (_get_container_unknown _ _ H).
Qed.

Lemma orbstack_run_command_unknown sandbox_id command cwd envs timeout shell st :
  unknown sandbox_id st ->
  run_command sandbox_id command cwd envs timeout shell st
  = (Raise (container_not_found sandbox_id), st).
Proof.
  intros H. unfold run_command, bind.
  by rewrite (_get_container_unknown _ _ H).
Qed.

Lemma orbstack_read_file_bytes_unknown sandbox_id path st :
  unknown sandbox_id st ->
  read_file_bytes sandbox_id path st = (Raise (container_not_found sandbox_id), st).
Proof.
  intros H. unfold read_file_bytes, bind.
  by rewrite (_get_container_unknown _ _ H).
Qed.

Lemma orbstack_read_file_unknown sandbox_id path st :
  unknown sandbox_id st ->
  read_file sandbox_id path st = (Raise (container_not_found sandbox_id), st).
Proof.
  intros H. unfold read_file, bind.
  by rewrite (orbstack_read_file_bytes_unknown _ _ _ H).
Qed.

Lemma orbstack_write_file_bytes_unknown sandbox_id path data st :
  unknown sandbox_id st ->
  write_file_bytes sandbox_id path data st
  = (Raise (container_not_found sandbox_id), st).
Proof.
  intros H. unfold write_file_bytes, bind.
  by rewrite (_get_container_unknown _ _ H).
Qed.

End WithCodec.
End OrbStackLifecycle.

(** ** The cache invariant of the container backend *)

Module OrbStackInvariant.
Import OrbStack OrbStackLifecycle.

Lemma keeps_on_daemon {A} (I : OrbStack.t -> Prop) (m : M Docker.t A) :
  (forall st d, I st -> I (set_daemon d st)) -> keeps I (on_daemon m).
Proof.
  intros HI st r st' Hst. unfold on_daemon, zoom.
  destruct (m (daemon st)) as [r1 d1]. intros [= <- <-]. by apply HI.
Qed.

(** Splits a computation into its steps and closes those that act on
    the host or on the daemon only. *)
Ltac frame_steps :=
  repeat (first [ apply keeps_bind; [|intros ?]
                | apply keeps_try; [|intros ?]
                | apply keeps_if
                | apply keeps_on_orbstack_host; by intros
                | apply keeps_on_daemon; by intros
                | apply keeps_gets
                | apply keeps_raise
                | apply keeps_ret
                | match goal with |- keeps _ (match ?x with _ => _ end) => destruct x end ]).

Section WithCodec.
Context {utf8 : TextCodec}.

(** [_get_container] in a consistent state: the state stays, and an
    object returned addresses the container named by the id. *)
Lemma _get_container_consistent sandbox_id :
  hoare consistent (_get_container sandbox_id)
    (fun r st => consistent st
                 /\ match r with Ok h => Docker.h_name h = sandbox_id | Raise _ => True end).
Proof.
  intros st r st' Hc E. destruct (_get_container_spec _ _ _ _ Hc E) as [-> H].
  split; [done|]. by destruct r.
Qed.

Lemma reload_consistent sandbox_id h :
  Docker.h_name h = sandbox_id ->
  hoare consistent (reload sandbox_id h)
    (fun r st => consistent st
                 /\ match r with Ok h' => Docker.h_name h' = sandbox_id | Raise _ => True end).
Proof.
  intros Hn st r st' Hc. unfold reload, on_daemon, zoom, Docker.reload, Docker.get.
  munfold. rewrite Hn. destruct (Docker.containers (daemon st) !! sandbox_id); simpl.
  - destruct (_active_containers st !! sandbox_id) as [e|] eqn:E;
      intros [= <- <-]; (split; [|done]).
    + intros sid e'. simpl. destruct (decide (sandbox_id = sid)) as [<-|Hne].
      * rewrite lookup_insert_eq. by intros [= <-].
      * rewrite lookup_insert_ne by done. apply Hc.
    + done.
  - by intros [= <- <-].
Qed.

(** A method body that begins by resolving and reloading the container
    keeps the invariant when what follows does. *)
Lemma resolved_keeps {A} sandbox_id (k : Docker.handle -> M OrbStack.t A) :
  (forall h, keeps consistent (k h)) ->
  keeps consistent (container <- _get_container sandbox_id ;;
                    container <- reload sandbox_id container ;; k container).
Proof.
  intros Hk.
  apply hoare_bind with (R := fun h st => consistent st /\ Docker.h_name h = sandbox_id).
  { intros st r st' Hc E. destruct (_get_container_consistent _ _ _ _ Hc E) as [H1 H2].
    by destruct r. }
  intros h. apply hoare_bind with (R := fun _ st => consistent st).
  { intros st r st' [Hc Hn] E. destruct (reload_consistent _ _ Hn _ _ _ Hc E) as [H1 H2].
    by destruct r. }
  exact Hk.
Qed.

Lemma delete_consistent sandbox_id st :
  consistent st -> consistent (set_active (delete sandbox_id (_active_containers st)) st).
Proof.
  intros Hc sid e. simpl. intros [_ H]%lookup_delete_Some. by apply Hc.
Qed.

(** Every embedded method of the container backend keeps the
    invariant. *)
Lemma kill_sandbox_consistent sandbox_id : keeps consistent (kill_sandbox sandbox_id).
Proof.
  unfold kill_sandbox. apply keeps_try; [|intros; apply keeps_ret].
  apply resolved_keeps. intros h.
  frame_steps. apply keeps_modify. intros st. apply delete_consistent.
Qed.

Lemma get_sandbox_info_consistent sandbox_id : keeps consistent (get_sandbox_info sandbox_id).
Proof. unfold get_sandbox_info. apply resolved_keeps. intros h. apply keeps_ret. Qed.

Lemma is_sandbox_running_consistent sandbox_id :
  keeps consistent (is_sandbox_running sandbox_id).
Proof.
  unfold is_sandbox_running. apply keeps_try; [|intros; apply keeps_ret].
  apply resolved_keeps. intros h. apply keeps_ret.
Qed.

Lemma _get_container_keeps sandbox_id : keeps consistent (_get_container sandbox_id).
Proof.
  intros st r st' Hc E. by destruct (_get_container_spec _ _ _ _ Hc E) as [-> _].
Qed.

Lemma run_command_consistent sandbox_id command cwd envs timeout shell :
  keeps consistent (run_command sandbox_id command cwd envs timeout shell).
Proof.
  unfold run_command. apply keeps_bind; [apply _get_container_keeps|]. intros h.
  frame_steps.
Qed.

Lemma read_file_bytes_consistent sandbox_id path :
  keeps consistent (read_file_bytes sandbox_id path).
Proof.
  unfold read_file_bytes. apply keeps_bind; [apply _get_container_keeps|]. intros h.
  frame_steps.
Qed.

Lemma write_file_bytes_consistent sandbox_id path data :
  keeps consistent (write_file_bytes sandbox_id path data).
Proof.
  unfold write_file_bytes. apply keeps_bind; [apply _get_container_keeps|]. intros h.
  frame_steps.
Qed.

End WithCodec.
End OrbStackInvariant.

(** ** Concrete states *)

Module Demo.

#[local] Existing Instance AsciiCodec.codec.

(** No side file is read in these states. *)
Definition no_json : Tmux.JsonCodec := {| Tmux.json_loads := fun _ => None |}.

Definition host : Host.t :=
  {| Host.fs := {[ [] := Host.Dir 493; ["ws"] := Host.Dir 493;
                   ["ws"; "sbx_1"] := Host.Dir 493; ["cap"] := Host.Dir 493 ]};
     Host.cwd := []; Host.umask := 18; Host.clock := 0; Host.pending := [];
     Host.uuid_hex := fun _ => "0123456789abcdef0123456789abcdef";
     Host.uuid_next := 0 |}.

(** A terminal backend with one sandbox, [sbx_1], and workspace
    clean-up switched on. *)
Definition tmux : Tmux.t :=
  {| Tmux.config := {| Tmux.workspace_dir := "/ws"; Tmux.capture_dir := "/cap";
                       Tmux.cleanup_workspace := Some true |};
     Tmux._sessions :=
       {[ "sbx_1" := {| Tmux.d_sandbox_id := Some "sbx_1";
                        Tmux.d_workspace := Some "/ws/sbx_1";
                        Tmux.d_created_at := Some "2024-01-01T00:00:00";
                        Tmux.d_template := Some None; Tmux.d_timeout := Some None;
                        Tmux.d_metadata := Some ∅; Tmux.d_envs := Some ∅ |} ]};
     Tmux.host := host;
     Tmux.server := {| Tmux.sessions := {["sbx_1"]}; Tmux.sent := [] |} |}.

(** The same backend once the sandbox was killed. *)
Definition tmux_killed : Tmux.t :=
  {| Tmux.config := Tmux.config tmux;
     Tmux._sessions := ∅;
     Tmux.host :=
       Host.set_fs {[ [] := Host.Dir 493; ["ws"] := Host.Dir 493;
                      ["cap"] := Host.Dir 493 ]} host;
     Tmux.server := {| Tmux.sessions := ∅; Tmux.sent := [] |} |}.

Definition running : Docker.attrs :=
  {| Docker.a_status := "running";
     Docker.a_labels := {[ "agent-sandbox.sandbox_id" := "sbx_1" ]};
     Docker.a_created := "2024-01-01T00:00:00" |}.

(** In the container, [sleep 10] takes ten seconds and succeeds. *)
Definition behaviour (name : string) (cmd : list string) (workdir : string)
    (env : option str_dict) (f : gmap (list string) Host.node) : Docker.exec_outcome :=
  if bool_decide (cmd = ["/bin/sh"; "-c"; "sleep 10"])
  then {| Docker.eo_exit_code := 0; Docker.eo_stdout := None; Docker.eo_stderr := None;
          Docker.eo_duration := 10000; Docker.eo_fs := f |}
  else {| Docker.eo_exit_code := 127; Docker.eo_stdout := None; Docker.eo_stderr := None;
          Docker.eo_duration := 5; Docker.eo_fs := f |}.

(** A container backend with one sandbox, [sbx_1], cached. *)
Definition orbstack : OrbStack.t :=
  {| OrbStack.config := {| OrbStack.workspace_dir := "/ws"; OrbStack.image_prefix := None;
                           OrbStack.cleanup_workspace := Some true |};
     OrbStack._active_containers :=
       {[ "sbx_1" := {| OrbStack.e_container :=
                          {| Docker.h_name := "sbx_1"; Docker.h_attrs := running |};
                        OrbStack.e_workspace := PosixPath.of_string "/ws/sbx_1";
                        OrbStack.e_template := None;
                        OrbStack.e_reconnected := false |} ]};
     OrbStack.host := host;
     OrbStack.daemon :=
       {| Docker.containers :=
            {[ "sbx_1" := {| Docker.c_attrs := running;
                             Docker.c_fs := {[ [] := Host.Dir 493;
                                               ["workspace"] := Host.Dir 493 ]} |} ]};
          Docker.exec_fn := behaviour |} |}.

Definition orbstack_killed : OrbStack.t :=
  {| OrbStack.config := OrbStack.config orbstack;
     OrbStack._active_containers := ∅;
     OrbStack.host :=
       Host.set_fs {[ [] := Host.Dir 493; ["ws"] := Host.Dir 493;
                      ["cap"] := Host.Dir 493 ]} host;
     OrbStack.daemon := {| Docker.containers := ∅; Docker.exec_fn := behaviour |} |}.

End Demo.

(** ** Path translation of the terminal backend *)

Module TmuxPaths.
Import Tmux.

Lemma root_of_slash s : PosixPath.root_of (String "/" s) <> 0%nat.
Proof.
  unfold PosixPath.root_of. simpl.
  destruct (PosixPath.leading_slashes s) as [|[|n]]; done.
Qed.

(** An absolute right operand replaces the workspace. *)
Lemma joinpath_absolute p s :
  PosixPath.joinpath p (String "/" s) = PosixPath.of_string (String "/" s).
Proof.
  unfold PosixPath.joinpath.
  change (PosixPath.root (PosixPath.of_string (String "/" s)))
    with (PosixPath.root_of (String "/" s)).
  pose proof (root_of_slash s).
  destruct (PosixPath.root_of (String "/" s)); done.
Qed.

(** C5 (the code departs from the claim). Whatever the backend state
    and the sandbox, a path written with the legacy prefix and a slash,
    "/workspace/<rest>", is translated to the absolute host path
    "/<rest>": only ten characters are cut, the slash that follows
    stays, and joining an absolute path to the workspace drops the
    workspace. So "/workspace/foo" in the sandbox with workspace
    "/ws/sbx_1" is translated to "/foo", which does not lie under the
    workspace, and [write_file_bytes] on it writes the file "/foo" and
    nothing below the workspace. *)
Theorem get_full_path_legacy_prefix_leaves_workspace :
  (forall (st : Tmux.t) (sandbox_id rest : string),
      _get_full_path sandbox_id ("/workspace/" +:+ rest) st
      = (Ok (PosixPath.of_string ("/" +:+ rest)), st))
  /\ _get_full_path "sbx_1" "/workspace/foo" Demo.tmux
     = (Ok {| PosixPath.root := 1; PosixPath.parts := ["foo"] |}, Demo.tmux)
  /\ (workspace_of "sbx_1" Demo.tmux).1 = Ok "/ws/sbx_1"
  /\ PosixPath.is_relative_to
       {| PosixPath.root := 1; PosixPath.parts := ["foo"] |}
       (PosixPath.of_string "/ws/sbx_1") = false
  /\ (let st1 := (write_file_bytes "sbx_1" "/workspace/foo" [Byte.x68; Byte.x69]
                    Demo.tmux).2 in
      Host.fs (host st1) !! ["foo"] = Some (Host.File 420 [Byte.x68; Byte.x69])
      /\ Host.fs (host st1) !! ["ws"; "sbx_1"; "foo"] = None).
Proof.
  split; [|by vm_compute].
  intros st sandbox_id rest. unfold _get_full_path, workspace_of. munfold.
  change (Py.startswith ("/workspace/" +:+ rest) "/workspace") with true.
  cbv iota.
  change (Py.slice_from 10 ("/workspace/" +:+ rest)) with (String "/" rest).
  by rewrite joinpath_absolute.
Qed.

End TmuxPaths.

(** ** Lifecycle claims *)

Module Lifecycle.

(** C6. On either backend, right after a [kill_sandbox] that returned
    [True], [is_sandbox_running] returns [False], and
    [get_sandbox_info] and [run_command] on the same id raise
    [SandboxNotFoundError] (and change nothing). For the container
    backend the cached objects address the containers they are cached
    under, as the backend stores them. *)
Theorem killed_sandbox_is_gone :
  (forall (codec : TextCodec) (json : Tmux.JsonCodec) (st st1 : Tmux.t) sandbox_id,
      Tmux.kill_sandbox sandbox_id st = (Ok true, st1) ->
      Tmux.is_sandbox_running sandbox_id st1 = (Ok false, st1)
      /\ Tmux.get_sandbox_info sandbox_id st1
         = (Raise (SandboxNotFoundError ("Session not found: " +:+ sandbox_id)), st1)
      /\ forall command cwd envs timeout shell,
           Tmux.run_command sandbox_id command cwd envs timeout shell st1
           = (Raise (SandboxNotFoundError ("Session not found: " +:+ sandbox_id)), st1))
  /\ (forall (utf8 : TextCodec) (st st1 : OrbStack.t) sandbox_id,
      OrbStackLifecycle.consistent st ->
      OrbStack.kill_sandbox sandbox_id st = (Ok true, st1) ->
      OrbStack.is_sandbox_running sandbox_id st1 = (Ok false, st1)
      /\ OrbStack.get_sandbox_info sandbox_id st1
         = (Raise (SandboxNotFoundError ("Container not found: " +:+ sandbox_id)), st1)
      /\ forall command cwd envs timeout shell,
           OrbStack.run_command sandbox_id command cwd envs timeout shell st1
           = (Raise (SandboxNotFoundError ("Container not found: " +:+ sandbox_id)), st1)).
Proof.
  split.
  - intros codec json st st1 sid Hk.
    pose proof (TmuxLifecycle.kill_sandbox_session_gone sid _ _ _ I Hk) as Hgone.
    split; [|split].
    + by apply TmuxNotFound.tmux_is_sandbox_running_unknown.
    + by apply TmuxNotFound.tmux_get_sandbox_info_unknown.
    + intros. by apply TmuxNotFound.tmux_run_command_unknown.
  - intros utf8 st st1 sid Hc Hk.
    pose proof (OrbStackLifecycle.kill_sandbox_true_unknown sid _ _ _ Hc Hk eq_refl) as Hu.
    split; [|split].
    + by apply OrbStackLifecycle.orbstack_is_sandbox_running_unknown.
    + by apply OrbStackLifecycle.orbstack_get_sandbox_info_unknown.
    + intros. by apply OrbStackLifecycle.orbstack_run_command_unknown.
Qed.

Lemma killed_sandbox_is_gone_witness :
  (Tmux.kill_sandbox "sbx_1" Demo.tmux = (Ok true, Demo.tmux_killed)
   /\ Tmux.is_sandbox_running "sbx_1" Demo.tmux_killed = (Ok false, Demo.tmux_killed)
   /\ @Tmux.get_sandbox_info AsciiCodec.codec Demo.no_json "sbx_1" Demo.tmux_killed
      = (Raise (SandboxNotFoundError "Session not found: sbx_1"), Demo.tmux_killed)
   /\ @Tmux.run_command AsciiCodec.codec "sbx_1" "echo hi" None None (Some (Py.Finite 1)) true
        Demo.tmux_killed
      = (Raise (SandboxNotFoundError "Session not found: sbx_1"), Demo.tmux_killed))
  /\ (OrbStackLifecycle.consistent Demo.orbstack
      /\ OrbStack.kill_sandbox "sbx_1" Demo.orbstack = (Ok true, Demo.orbstack_killed)
      /\ OrbStack.is_sandbox_running "sbx_1" Demo.orbstack_killed
         = (Ok false, Demo.orbstack_killed)
      /\ OrbStack.get_sandbox_info "sbx_1" Demo.orbstack_killed
         = (Raise (SandboxNotFoundError "Container not found: sbx_1"), Demo.orbstack_killed)
      /\ @OrbStack.run_command AsciiCodec.codec "sbx_1" "echo hi" None None (Some (Py.Finite 1)) true
           Demo.orbstack_killed
         = (Raise (SandboxNotFoundError "Container not found: sbx_1"), Demo.orbstack_killed)).
Proof.
  assert (Hk : Tmux.kill_sandbox "sbx_1" Demo.tmux = (Ok true, Demo.tmux_killed))
    by (vm_compute; reflexivity).
  assert (Hc : OrbStackLifecycle.consistent Demo.orbstack)
    by (intros sid e; unfold Demo.orbstack; simpl;
        intros [<- <-]%lookup_singleton_Some; reflexivity).
  assert (Ho : OrbStack.kill_sandbox "sbx_1" Demo.orbstack = (Ok true, Demo.orbstack_killed))
    by (vm_compute; reflexivity).
  destruct (proj1 killed_sandbox_is_gone AsciiCodec.codec Demo.no_json _ _ _ Hk)
    as (T1 & T2 & T3).
  destruct (proj2 killed_sandbox_is_gone AsciiCodec.codec _ _ _ Hc Ho)
    as (O1 & O2 & O3).
  split; [split; [exact Hk|split; [exact T1|split; [exact T2|apply T3]]]|].
  split; [exact Hc|split; [exact Ho|split; [exact O1|split; [exact O2|apply O3]]]].
Defined.

(** What [kill_sandbox] of the terminal backend does for an id that
    has no session, no workspace on disk and no side file: it answers
    [True] all the same. *)
Lemma tmux_kill_sandbox_absent {codec : TextCodec} (st : Tmux.t) sandbox_id :
  sandbox_id ∉ Tmux.sessions (Tmux.server st) ->
  (Host.exists_
     (PosixPath.joinpath (PosixPath.of_string (Tmux.workspace_dir (Tmux.config st)))
        sandbox_id) (Tmux.host st)).1 = Ok false ->
  (Host.exists_
     (PosixPath.joinpath (PosixPath.of_string (Tmux.capture_dir (Tmux.config st)))
        (sandbox_id +:+ ".json")) (Tmux.host st)).1 = Ok false ->
  Tmux.kill_sandbox sandbox_id st
  = (Ok true, Tmux.set_sessions (delete sandbox_id (Tmux._sessions st)) st).
Proof.
  destruct st as [cfg ses h srv]. simpl. intros Hs Hw Hi.
  unfold Tmux.kill_sandbox, Tmux._run_tmux, Tmux._get_session_info_path,
    Tmux.on_host. munfold. simpl.
  destruct (decide (sandbox_id ∈ Tmux.sessions srv)) as [|_]; [done|].
  simpl. unfold Host.exists_, gets in *. simpl in *.
  injection Hw as Hw. injection Hi as Hi.
  destruct (default false (Tmux.cleanup_workspace cfg)); simpl;
    rewrite ?Hw; simpl; rewrite Hi; reflexivity.
Qed.

(** C4 (the code departs from the claim on the terminal backend).
    Killing the sandbox [sbx_1] of the terminal backend twice returns
    [True] both times: the second call finds no session, and says
    [True] again. The container backend answers [True] and then
    [False]. *)
Theorem tmux_kill_sandbox_twice_true_both_times :
  Tmux.kill_sandbox "sbx_1" Demo.tmux = (Ok true, Demo.tmux_killed)
  /\ ("sbx_1" ∉ Tmux.sessions (Tmux.server Demo.tmux_killed))
  /\ Tmux.kill_sandbox "sbx_1" Demo.tmux_killed = (Ok true, Demo.tmux_killed)
  /\ OrbStack.kill_sandbox "sbx_1" Demo.orbstack = (Ok true, Demo.orbstack_killed)
  /\ OrbStack.kill_sandbox "sbx_1" Demo.orbstack_killed = (Ok false, Demo.orbstack_killed).
Proof.
  split; [by vm_compute|]. split; [by apply not_elem_of_empty|].
  split; [by vm_compute|]. split; by vm_compute.
Qed.

(** On the container backend the second of two kills answers
    [False]. *)
Lemma orbstack_kill_sandbox_twice {utf8 : TextCodec} (st st1 : OrbStack.t) sandbox_id :
  OrbStackLifecycle.consistent st ->
  OrbStack.kill_sandbox sandbox_id st = (Ok true, st1) ->
  OrbStack.kill_sandbox sandbox_id st1 = (Ok false, st1).
Proof.
  intros Hc Hk. apply OrbStackLifecycle.orbstack_kill_sandbox_unknown.
  exact (OrbStackLifecycle.kill_sandbox_true_unknown sandbox_id _ _ _ Hc Hk eq_refl).
Qed.

(** C3 (the code departs from the claim). [run_command] of the
    container backend never looks at its [timeout] argument: two
    calls that differ in it only do the same. A command that runs for
    ten seconds under a timeout of one second runs to its end: the
    call returns its exit status 0 once the ten seconds have passed. *)
Theorem orbstack_run_command_ignores_timeout :
  (forall (utf8 : TextCodec) sandbox_id command cwd envs (t1 t2 : option Py.number) shell st,
      OrbStack.run_command sandbox_id command cwd envs t1 shell st
      = OrbStack.run_command sandbox_id command cwd envs t2 shell st)
  /\ (let r := @OrbStack.run_command AsciiCodec.codec "sbx_1" "sleep 10" None None
                 (Some (Py.Finite 1)) true Demo.orbstack in
      r.1 = Ok {| stdout := ""; stderr := ""; exit_code := 0; pid := None |}
      /\ Host.clock (OrbStack.host r.2) - Host.clock (OrbStack.host Demo.orbstack) = 10000).
Proof. split; [reflexivity|]. by vm_compute. Qed.

(** C1 (the code departs from the claim on the terminal backend's
    file operations). [write_file] of the terminal backend, given an
    id that has no session and is not cached, never looks the session
    up: it returns normally after it has created a workspace directory
    and a file for that id. [run_command] of the same backend and
    [write_file_bytes] of the container backend, given that id, raise
    [SandboxNotFoundError] and change nothing. *)
Theorem tmux_write_file_unknown_id_writes :
  ("ghost" ∉ Tmux.sessions (Tmux.server Demo.tmux))
  /\ Tmux._sessions Demo.tmux !! "ghost" = None
  /\ Host.fs (Tmux.host Demo.tmux) !! ["ws"; "ghost"] = None
  /\ (let r := @Tmux.write_file AsciiCodec.codec "ghost" "a.txt" "hi" Demo.tmux in
      r.1 = Ok {| name := "a.txt"; path := "/ws/ghost/a.txt"; type := "file";
                  size := 2; permissions := "644"; modified_at := None |}
      /\ Host.fs (Tmux.host r.2) !! ["ws"; "ghost"] = Some (Host.Dir 493)
      /\ Host.fs (Tmux.host r.2) !! ["ws"; "ghost"; "a.txt"]
         = Some (Host.File 420 [Byte.x68; Byte.x69]))
  /\ @Tmux.run_command AsciiCodec.codec "ghost" "echo hi" None None None true Demo.tmux
     = (Raise (SandboxNotFoundError "Session not found: ghost"), Demo.tmux)
  /\ @OrbStack.write_file_bytes "ghost" "/workspace/a.txt" [Byte.x68; Byte.x69]
       Demo.orbstack
     = (Raise (SandboxNotFoundError "Container not found: ghost"), Demo.orbstack).
Proof.
  split; [|by vm_compute].
  unfold Demo.tmux; simpl. rewrite elem_of_singleton. discriminate.
Qed.

(** X23. The methods that resolve the sandbox first fail with
    [SandboxNotFoundError] on an id the backend cannot resolve, and
    leave the backend, the host and the runtime as they were: on the
    terminal backend [connect_sandbox], [get_sandbox_info],
    [run_command] and [run_command_background], for an id without a
    session; on the container backend [get_sandbox_info],
    [run_command], [read_file_bytes], [read_file] and
    [write_file_bytes], for an id that is neither cached nor the name
    of a container. On such an id [is_sandbox_running] answers [False]
    on both backends and [kill_sandbox] of the container backend
    answers [False], also without any change. *)
Theorem unknown_sandbox_not_found :
  (forall (codec : TextCodec) (json : Tmux.JsonCodec) (st : Tmux.t) sandbox_id,
      sandbox_id ∉ Tmux.sessions (Tmux.server st) ->
      let not_found := SandboxNotFoundError ("Session not found: " +:+ sandbox_id) in
      Tmux.connect_sandbox sandbox_id st = (Raise not_found, st)
      /\ Tmux.get_sandbox_info sandbox_id st = (Raise not_found, st)
      /\ (forall command cwd envs timeout shell,
            Tmux.run_command sandbox_id command cwd envs timeout shell st
            = (Raise not_found, st))
      /\ (forall command cwd envs,
            Tmux.run_command_background sandbox_id command cwd envs st
            = (Raise not_found, st))
      /\ Tmux.is_sandbox_running sandbox_id st = (Ok false, st))
  /\ (forall (utf8 : TextCodec) (st : OrbStack.t) sandbox_id,
      OrbStackLifecycle.unknown sandbox_id st ->
      let not_found := SandboxNotFoundError ("Container not found: " +:+ sandbox_id) in
      OrbStack.get_sandbox_info sandbox_id st = (Raise not_found, st)
      /\ (forall command cwd envs timeout shell,
            OrbStack.run_command sandbox_id command cwd envs timeout shell st
            = (Raise not_found, st))
      /\ (forall path, OrbStack.read_file_bytes sandbox_id path st = (Raise not_found, st))
      /\ (forall path, OrbStack.read_file sandbox_id path st = (Raise not_found, st))
      /\ (forall path data,
            OrbStack.write_file_bytes sandbox_id path data st = (Raise not_found, st))
      /\ OrbStack.is_sandbox_running sandbox_id st = (Ok false, st)
      /\ OrbStack.kill_sandbox sandbox_id st = (Ok false, st)).
Proof.
  split.
  - intros codec json st sid H not_found. repeat split; intros.
    + by apply TmuxNotFound.tmux_connect_sandbox_unknown.
    + by apply TmuxNotFound.tmux_get_sandbox_info_unknown.
    + by apply TmuxNotFound.tmux_run_command_unknown.
    + by apply TmuxNotFound.tmux_run_command_background_unknown.
    + by apply TmuxNotFound.tmux_is_sandbox_running_unknown.
  - intros utf8 st sid H not_found. repeat split; intros.
    + by apply OrbStackLifecycle.orbstack_get_sandbox_info_unknown.
    + by apply OrbStackLifecycle.orbstack_run_command_unknown.
    + by apply OrbStackLifecycle.orbstack_read_file_bytes_unknown.
    + by apply OrbStackLifecycle.orbstack_read_file_unknown.
    + by apply OrbStackLifecycle.orbstack_write_file_bytes_unknown.
    + by apply OrbStackLifecycle.orbstack_is_sandbox_running_unknown.
    + by apply OrbStackLifecycle.orbstack_kill_sandbox_unknown.
Qed.

Lemma unknown_sandbox_not_found_witness :
  (("ghost" ∉ Tmux.sessions (Tmux.server Demo.tmux))
   /\ @Tmux.run_command AsciiCodec.codec "ghost" "echo hi" None None None true Demo.tmux
      = (Raise (SandboxNotFoundError "Session not found: ghost"), Demo.tmux))
  /\ (OrbStackLifecycle.unknown "ghost" Demo.orbstack
      /\ @OrbStack.write_file_bytes "ghost" "/workspace/a.txt" [Byte.x68; Byte.x69]
           Demo.orbstack
         = (Raise (SandboxNotFoundError "Container not found: ghost"), Demo.orbstack)).
Proof.
  assert (Ht : "ghost" ∉ Tmux.sessions (Tmux.server Demo.tmux))
    by (unfold Demo.tmux; simpl; rewrite elem_of_singleton; discriminate).
  assert (Ho : OrbStackLifecycle.unknown "ghost" Demo.orbstack)
    by (split; vm_compute; reflexivity).
  split; (split; [assumption|]).
  - apply (proj1 unknown_sandbox_not_found AsciiCodec.codec Demo.no_json _ _ Ht).
  - apply (proj2 unknown_sandbox_not_found AsciiCodec.codec _ _ Ho).
Defined.

End Lifecycle.

(** ** The factory's instance cache *)

Module FactoryCache.
Import Factory.

Section WithClasses.
Context {Cfg Obj W : Type}.
Context (OrbStackBackend TmuxBackend : @backend_class Cfg Obj W).

Local Abbreviation state := (@Factory.t Cfg Obj W).
Local Abbreviation create_backend := (create_backend OrbStackBackend TmuxBackend).
Local Abbreviation run_call := (run_call OrbStackBackend TmuxBackend).
Local Abbreviation run_calls := (run_calls OrbStackBackend TmuxBackend).

(** A cached instance is returned as it is; nothing changes. *)
Lemma create_backend_hit backend_type config (s : state) instance :
  _instances s !! Py.lower backend_type = Some instance ->
  create_backend backend_type config true s = (Ok instance, s).
Proof. intros H. unfold Factory.create_backend. munfold. by rewrite H. Qed.

(** What [create_backend] does to the cache and to the objects: an
    entry is only added, under the lower-cased name and only when
    caching is on and the name had none; objects are only added. *)
Lemma create_backend_effect backend_type config cache (s : state) r s' :
  Factory.create_backend OrbStackBackend TmuxBackend backend_type config cache s = (r, s') ->
  objects s `prefix_of` objects s'
  /\ (forall k instance, _instances s !! k = Some instance ->
                         _instances s' !! k = Some instance)
  /\ (cache = true -> forall instance, r = Ok instance ->
        _instances s' !! Py.lower backend_type = Some instance).
Proof.
  unfold Factory.create_backend. munfold.
  destruct (if cache then _instances s !! Py.lower backend_type else None)
    as [hit|] eqn:Hhit.
  { intros [= <- <-]. split; [done|]. split; [done|].
    intros -> instance [= ->]. exact Hhit. }
  set (s0 := (if match _backends s with [] => true | _ => false end
              then _register_default_backends OrbStackBackend TmuxBackend
              else fun s => (Ok tt, s)) s).
  assert (Hs0 : s0.1 = Ok tt /\ _instances s0.2 = _instances s /\ objects s0.2 = objects s).
  { subst s0. by destruct (_backends s). }
  destruct s0 as [r0 s0]. simpl in Hs0. destruct Hs0 as (-> & Hi0 & Ho0).
  destruct (dict_get (Py.lower backend_type) (_backends s0)) as [cls|].
  2:{ intros [= <- <-]. rewrite Hi0, Ho0. split; [done|]. split; [done|]. by intros. }
  unfold construct.
  destruct (cls config (world s0)) as [[o|e] w'].
  2:{ intros [= <- <-]. simpl. rewrite Hi0, Ho0. split; [done|]. split; [done|]. by intros. }
  destruct cache; simpl; intros [= <- <-]; simpl; rewrite Hi0, Ho0.
  - split; [by apply prefix_app_r|]. split.
    + intros k instance Hk. destruct (decide (Py.lower backend_type = k)) as [<-|Hne].
      * congruence.
      * by rewrite lookup_insert_ne.
    + intros _ instance [= <-]. apply lookup_insert_eq.
  - split; [by apply prefix_app_r|]. split; [done|]. done.
Qed.

Lemma run_call_effect c (s : state) :
  objects s `prefix_of` objects (run_call c s)
  /\ forall k instance, _instances s !! k = Some instance ->
                        _instances (run_call c s) !! k = Some instance.
Proof.
  destruct c as [n cls|n cfg cache|]; simpl.
  - done.
  - destruct (Factory.create_backend OrbStackBackend TmuxBackend n cfg cache s)
      as [r s'] eqn:E.
    destruct (create_backend_effect _ _ _ _ _ _ E) as (H1 & H2 & _). done.
  - unfold Factory.list_backends. munfold. by destruct (_backends s).
Qed.

Lemma run_calls_effect cs (s : state) :
  objects s `prefix_of` objects (run_calls cs s)
  /\ forall k instance, _instances s !! k = Some instance ->
                        _instances (run_calls cs s) !! k = Some instance.
Proof.
  revert s. induction cs as [|c cs IH]; intros s; [done|].
  simpl. destruct (run_call_effect c s) as [H1 H2].
  destruct (IH (run_call c s)) as [H3 H4]. split; [by etrans|auto].
Qed.

(** C10. Once [create_backend(name, config1, cache=True)] has
    returned an instance, every later
    [create_backend(name, config2, cache=True)] returns that same
    instance and changes nothing, whatever [config2] is and whatever
    calls other than [clear_cache] came in between (with any names,
    the same name in another case included); the objects made so
    far stay as they are. [clear_cache] empties the cache. *)
Theorem create_backend_returns_cached_instance
    backend_type config1 (s s1 : state) instance :
  create_backend backend_type config1 true s = (Ok instance, s1) ->
  forall calls,
    let s2 := run_calls calls s1 in
    (forall config2, create_backend backend_type config2 true s2 = (Ok instance, s2))
    /\ (forall other config2,
          Py.lower other = Py.lower backend_type ->
          create_backend other config2 true s2 = (Ok instance, s2))
    /\ objects s1 `prefix_of` objects s2
    /\ _instances (clear_cache s2).2 = ∅.
Proof.
  intros Hc calls s2.
  destruct (create_backend_effect _ _ _ _ _ _ Hc) as (_ & _ & Hin).
  specialize (Hin eq_refl _ eq_refl).
  destruct (run_calls_effect calls s1) as [Hpre Hkeep].
  apply Hkeep in Hin. fold s2 in Hin, Hpre.
  split; [|split; [|split]].
  - intros config2. by apply create_backend_hit.
  - intros other config2 Heq. apply create_backend_hit. by rewrite Heq.
  - exact Hpre.
  - done.
Qed.

End WithClasses.

(** Two classes over a world that only counts constructions: a
    terminal backend that records its configuration and a container
    backend whose runtime is down. *)
Definition TmuxClass : @backend_class string string nat :=
  fun config w => (Ok ("tmux with " +:+ config), S w).
Definition OrbStackClass : @backend_class string string nat :=
  fun config w => (Raise (SandboxCreationError "Cannot connect to Docker/OrbStack"), w).

Definition fresh : @Factory.t string string nat :=
  {| _backends := []; _instances := ∅; objects := []; world := 0%nat |}.

Definition after_first : @Factory.t string string nat :=
  {| _backends := [("orbstack", OrbStackClass); ("tmux", TmuxClass)];
     _instances := {[ "tmux" := 0%nat ]};
     objects := ["tmux with first"]; world := 1%nat |}.

Lemma create_backend_returns_cached_instance_witness :
  create_backend OrbStackClass TmuxClass "TMUX" "first" true fresh = (Ok 0%nat, after_first)
  /\ (let s2 := run_calls OrbStackClass TmuxClass
                  [Create "orbstack" "x" true; Create "tmux" "uncached" false;
                   Register "other" TmuxClass; ListBackends] after_first in
      create_backend OrbStackClass TmuxClass "TMUX" "second" true s2 = (Ok 0%nat, s2)
      /\ create_backend OrbStackClass TmuxClass "tmux" "third" true s2 = (Ok 0%nat, s2)
      /\ objects s2 !! 0%nat = Some "tmux with first").
Proof.
  assert (H : create_backend OrbStackClass TmuxClass "TMUX" "first" true fresh
              = (Ok 0%nat, after_first)) by (vm_compute; reflexivity).
  split; [exact H|].
  pose proof (create_backend_returns_cached_instance OrbStackClass TmuxClass
                "TMUX" "first" fresh after_first 0%nat H
                [Create "orbstack" "x" true; Create "tmux" "uncached" false;
                 Register "other" TmuxClass; ListBackends]) as (H1 & H2 & H3 & _).
  split; [apply H1|]. split; [apply H2; reflexivity|].
  vm_compute. reflexivity.
Defined.

End FactoryCache.

(** ** The host file system *)

Module HostFacts.
Import Host.

(** Resolution only looks at directories: replacing or creating an
    entry that is not a directory does not change where a path that
    resolved leads. *)
Lemma walk_insert f k n cur comps k' :
  is_dir_node (f !! k) = false ->
  walk f cur comps = inr k' ->
  walk (<[k := n]> f) cur comps = inr k'.
Proof.
  intros Hk. revert cur. induction comps as [|c rest IH]; intros cur; simpl; [done|].
  destruct (f !! cur) as [[m|m d]|] eqn:E; try done.
  intros Hw. assert (cur <> k) as Hne by (intros ->; by rewrite E in Hk).
  rewrite lookup_insert_ne by done. rewrite E. by apply IH.
Qed.

Lemma walk_app f cur a b :
  walk f cur (a ++ b)
  = match walk f cur a with inr k => walk f k b | inl e => inl e end.
Proof.
  revert cur. induction a as [|c a IH]; intros cur; simpl; [done|].
  by destruct (f !! cur) as [[m|m d]|].
Qed.

Lemma locate_set_fs_insert p h k n k' :
  is_dir_node (fs h !! k) = false ->
  locate p h = inr k' ->
  locate p (set_fs (<[k := n]> (fs h)) h) = inr k'.
Proof. unfold locate. simpl. apply walk_insert. Qed.

(** A successful [write_bytes] leaves a regular file with the bytes
    written where the path leads. *)
Lemma write_bytes_stored p data h h' :
  write_bytes p data h = (Ok tt, h') ->
  exists k m, locate p h' = inr k /\ fs h' !! k = Some (File m data).
Proof.
  unfold write_bytes. destruct (locate p h) as [e|k] eqn:L; [done|].
  destruct (fs h !! k) as [[m|m d]|] eqn:E; [done| |].
  - intros [= <-]. exists k, m. split; [|apply lookup_insert_eq].
    apply locate_set_fs_insert; [by rewrite E|done].
  - unfold create. destruct (is_dir_node (fs h !! removelast k)); [|done].
    intros [= <-]. eexists k, _. split; [|apply lookup_insert_eq].
    apply locate_set_fs_insert; [by rewrite E|done].
Qed.

Lemma stored_exists p h k m data :
  locate p h = inr k -> fs h !! k = Some (File m data) ->
  exists_ p h = (Ok true, h).
Proof.
  intros L E. unfold exists_, gets. rewrite L, E.
  by rewrite bool_decide_eq_true_2.
Qed.


Lemma stored_stat p h k m data :
  locate p h = inr k -> fs h !! k = Some (File m data) ->
  stat p h = (Ok (m + 32768, Z.of_nat (length data)), h).
Proof. intros L E. unfold stat. by rewrite L, E. Qed.

(** *** Chains of ancestors *)

(** [chain Q f cur ps]: [Q] holds of the entry at [cur] and at every
    path that extends [cur] by a prefix of [ps]. *)
Fixpoint chain (Q : option node -> Prop) (f : gmap (list string) node)
    (cur ps : list string) : Prop :=
  Q (f !! cur) /\
  match ps with
  | [] => True
  | c :: rest => chain Q f (cur ++ [c]) rest
  end.

Definition dirs := chain (fun n => is_dir_node n = true).
Definition not_file (n : option node) : Prop :=
  match n with Some (File _ _) => False | _ => True end.
Definition no_files := chain not_file.

Lemma chain_snoc Q f cur up c :
  chain Q f cur (up ++ [c]) <-> chain Q f cur up /\ Q (f !! (cur ++ up ++ [c])).
Proof.
  revert cur. induction up as [|x up IH]; intros cur; simpl.
  - tauto.
  - rewrite IH. rewrite <- (app_assoc cur [x]). simpl. tauto.
Qed.

Lemma chain_last Q f cur ps : chain Q f cur ps -> Q (f !! (cur ++ ps)).
Proof.
  revert cur. induction ps as [|x ps IH]; intros cur; simpl.
  - rewrite app_nil_r. tauto.
  - intros [_ H]. apply IH in H. by rewrite <- app_assoc in H.
Qed.

(** A chain only depends on the entries no longer than its end. *)
Lemma chain_frame Q f f' cur ps :
  (forall k, (length k <= length cur + length ps)%nat -> f' !! k = f !! k) ->
  chain Q f cur ps -> chain Q f' cur ps.
Proof.
  revert cur. induction ps as [|x ps IH]; intros cur Hf; simpl.
  - intros [H _]. split; [|done]. rewrite Hf; [done|lia].
  - intros [H1 H2]. split; [rewrite Hf; [done|lia]|].
    apply IH; [|done]. intros k Hk. apply Hf. rewrite length_app in Hk. simpl in *. lia.
Qed.

Definition no_dotdot (ps : list string) : Prop := Forall (fun c => c <> "..") ps.

(** Below a chain of directories the path leads where it says. *)
Lemma walk_dirs f cur ps :
  no_dotdot ps -> dirs f cur ps -> walk f cur ps = inr (cur ++ ps).
Proof.
  revert cur. induction ps as [|c ps IH]; intros cur Hn; simpl.
  - by rewrite app_nil_r.
  - intros [H1 H2]. destruct (f !! cur) as [[m|m d]|]; try done.
    apply Forall_cons in Hn as [Hc Hn].
    apply String.eqb_neq in Hc. rewrite Hc.
    rewrite IH by done. by rewrite <- app_assoc.
Qed.

Lemma walk_snoc_dirs f cur up c :
  no_dotdot (up ++ [c]) -> dirs f cur up ->
  walk f cur (up ++ [c]) = inr (cur ++ up ++ [c]).
Proof.
  intros Hn Hd. apply Forall_app in Hn as [Hup Hc].
  rewrite walk_app, walk_dirs by done. simpl.
  apply chain_last in Hd. destruct (f !! (cur ++ up)) as [[m|m d]|]; try done.
  apply Forall_singleton, String.eqb_neq in Hc. rewrite Hc.
  by rewrite <- app_assoc.
Qed.

(** Where no ancestor is a regular file, resolution either finds every
    ancestor to be a directory or stops at a missing one. *)
Lemma walk_snoc_cases f cur up c :
  no_dotdot (up ++ [c]) -> no_files f cur up ->
  walk f cur (up ++ [c]) = inl ENOENT
  \/ (dirs f cur up /\ walk f cur (up ++ [c]) = inr (cur ++ up ++ [c])).
Proof.
  revert c. induction up as [|c' up IH] using rev_ind; intros c Hn Hf.
  - simpl in *. destruct Hf as [Hf _].
    destruct (f !! cur) as [[m|m d]|] eqn:E; [|done|by left].
    right. split; [unfold dirs; simpl; by rewrite E|].
    apply Forall_singleton, String.eqb_neq in Hn. by rewrite Hn.
  - apply Forall_app in Hn as [Hn Hc].
    apply chain_snoc in Hf as [Hf Hlast].
    rewrite walk_app.
    destruct (IH c' Hn Hf) as [->|[Hd ->]]; [by left|].
    simpl.
    destruct (f !! (cur ++ up ++ [c'])) as [[m|m d]|] eqn:E; [|done|by left].
    right. split.
    + apply chain_snoc. split; [done|simpl; by rewrite E].
    + apply Forall_singleton, String.eqb_neq in Hc. rewrite Hc.
      by rewrite <- !app_assoc.
Qed.

(** *** Making directories *)

Definition start_of (r : nat) (h : t) : list string :=
  match r with O => cwd h | _ => [] end.

Lemma removelast_snoc {A} (l : list A) x : removelast (l ++ [x]) = l.
Proof. apply removelast_last. Qed.

(** Making a directory all of whose ancestors are directories, where
    no regular file is in the way: both forms of [mkdir] make it (or
    find it) and touch nothing else. *)
Lemma mkdir_leaf r up c h :
  no_dotdot (up ++ [c]) ->
  dirs (fs h) (start_of r h) up ->
  not_file (fs h !! (start_of r h ++ up ++ [c])) ->
  exists h',
    mkdir_exist_ok (PosixPath.mk r (up ++ [c])) h = (Ok tt, h')
    /\ (forall rest : M t unit,
          try_except (os_mkdir (PosixPath.mk r (up ++ [c]))) any_exception
            (fun e => if is_enoent e then rest
                      else mkdir_other_error (PosixPath.mk r (up ++ [c])) e) h
          = (Ok tt, h'))
    /\ cwd h' = cwd h /\ umask h' = umask h
    /\ is_dir_node (fs h' !! (start_of r h ++ up ++ [c])) = true
    /\ (forall k, k <> start_of r h ++ up ++ [c] -> fs h' !! k = fs h !! k).
Proof.
  intros Hn Hd Hnf.
  pose proof (walk_snoc_dirs _ _ _ _ Hn Hd) as Hw.
  assert (L : locate (PosixPath.mk r (up ++ [c])) h = inr (start_of r h ++ up ++ [c]))
    by (unfold locate, start_of in *; simpl; exact Hw).
  unfold mkdir_exist_ok, try_except, os_mkdir. rewrite L.
  destruct (fs h !! (start_of r h ++ up ++ [c])) as [[m|m d]|] eqn:E; [|done|].
  - exists h. simpl. unfold mkdir_other_error, is_dir. munfold. rewrite L, E. simpl.
    repeat split; try done.
  - unfold create. rewrite app_assoc, removelast_snoc.
    apply chain_last in Hd. simpl in Hd. rewrite Hd.
    eexists. split; [reflexivity|]. split; [reflexivity|].
    simpl. rewrite <- app_assoc. split; [done|]. split; [done|].
    split; [by rewrite lookup_insert_eq|].
    intros k Hk. by rewrite lookup_insert_ne.
Qed.

(** [mkdir(parents=True, exist_ok=True)] succeeds where the starting
    directory exists and no ancestor (nor the directory itself) is a
    regular file: afterwards the whole chain is made of directories,
    and no entry longer than the directory's path has changed. *)
Lemma mkdir_parents_rev_ok r rparts : forall h,
  no_dotdot (rev rparts) ->
  is_dir_node (fs h !! start_of r h) = true ->
  no_files (fs h) (start_of r h) (rev rparts) ->
  exists h',
    mkdir_parents_rev r rparts h = (Ok tt, h')
    /\ cwd h' = cwd h /\ umask h' = umask h
    /\ dirs (fs h') (start_of r h) (rev rparts)
    /\ (forall k, (length (start_of r h) + length rparts < length k)%nat ->
                  fs h' !! k = fs h !! k).
Proof.
  induction rparts as [|c up IH]; intros h Hn Hs Hf.
  - exists h. simpl. unfold try_except, os_mkdir, locate. simpl.
    fold (start_of r h). destruct (fs h !! start_of r h) as [[m|m d]|] eqn:E; try done.
    simpl. unfold mkdir_other_error, is_dir, locate. munfold. simpl.
    fold (start_of r h). rewrite E. simpl. repeat split; try done.
    unfold dirs. simpl. by rewrite E.
  - simpl rev in *. apply chain_snoc in Hf as [Hf Hlast].
    destruct (walk_snoc_cases _ _ _ _ Hn Hf) as [Hw|[Hd Hw]].
    + (* an ancestor is missing: the parent is made first *)
      apply Forall_app in Hn as [Hnup Hnc].
      destruct (IH h Hnup Hs Hf) as (h1 & E1 & Hc1 & Hu1 & Hd1 & Hfr1).
      assert (Hst : start_of r h1 = start_of r h) by (unfold start_of; by rewrite Hc1).
      destruct (mkdir_leaf r (rev up) c h1) as (h' & E2 & _ & Hc2 & Hu2 & Hd2 & Hfr2).
      { apply Forall_app; done. }
      { by rewrite Hst. }
      { rewrite Hst, Hfr1; [done|]. rewrite !length_app, length_rev. simpl. lia. }
      exists h'. split; [|split; [congruence|split; [congruence|split]]].
      * simpl. unfold try_except at 1. unfold os_mkdir at 1.
        assert (L : locate (PosixPath.mk r (rev up ++ [c])) h = inl ENOENT)
          by (unfold locate; simpl; exact Hw).
        rewrite L. simpl. unfold bind. rewrite E1. exact E2.
      * rewrite Hst in *. apply chain_snoc. split; [|done].
        eapply chain_frame; [|exact Hd1]. intros k Hk. apply Hfr2.
        intros ->. rewrite !length_app in Hk. simpl in Hk. lia.
      * intros k Hk. rewrite Hst in *. rewrite Hfr2, Hfr1; [done| |].
        -- simpl in Hk. lia.
        -- intros ->. rewrite !length_app, length_rev in Hk. simpl in Hk. lia.
    + (* every ancestor is there *)
      destruct (mkdir_leaf r (rev up) c h Hn Hd Hlast)
        as (h' & _ & E2 & Hc2 & Hu2 & Hd2 & Hfr2).
      exists h'. split; [|split; [done|split; [done|split]]].
      * simpl. apply E2.
      * apply chain_snoc. split; [|done].
        eapply chain_frame; [|exact Hd]. intros k Hk. apply Hfr2.
        intros ->. rewrite !length_app in Hk. simpl in Hk. lia.
      * intros k Hk. apply Hfr2. intros ->.
        rewrite !length_app, length_rev in Hk. simpl in Hk. lia.
Qed.

(** *** Writing below directories just made *)

(** The file tree is a tree: the root and the working directory are
    directories and every entry lies in a directory. *)
Definition tree (h : t) : Prop :=
  is_dir_node (fs h !! []) = true
  /\ is_dir_node (fs h !! cwd h) = true
  /\ forall k n, fs h !! k = Some n -> is_dir_node (fs h !! removelast k) = true.

Lemma tree_start r h : tree h -> is_dir_node (fs h !! start_of r h) = true.
Proof. intros (H1 & H2 & _). by destruct r. Qed.

(** In a tree, below a missing directory there is nothing. *)
Lemma tree_missing_parent h k c :
  tree h -> fs h !! k = None -> fs h !! (k ++ [c]) = None.
Proof.
  intros (_ & _ & Ht) Hk. destruct (fs h !! (k ++ [c])) as [n|] eqn:E; [|done].
  apply Ht in E. rewrite removelast_snoc, Hk in E. done.
Qed.

Lemma mkdir_parents_missing r up c h :
  tree h ->
  no_dotdot up ->
  no_files (fs h) (start_of r h) up ->
  fs h !! (start_of r h ++ up) = None ->
  exists h1,
    mkdir_parents (PosixPath.mk r up) h = (Ok tt, h1)
    /\ cwd h1 = cwd h /\ umask h1 = umask h
    /\ dirs (fs h1) (start_of r h) up
    /\ fs h1 !! (start_of r h ++ up ++ [c]) = None.
Proof.
  intros Ht Hn Hf Hmiss. unfold mkdir_parents. simpl.
  destruct (mkdir_parents_rev_ok r (rev up) h) as (h1 & E & Hc & Hu & Hd & Hfr).
  { by rewrite rev_involutive. }
  { by apply tree_start. }
  { by rewrite rev_involutive. }
  rewrite rev_involutive in Hd.
  exists h1. repeat split; try done.
  rewrite Hfr.
  - rewrite app_assoc. by apply tree_missing_parent.
  - rewrite !length_app, length_rev. simpl. lia.
Qed.

(** Writing a new file into a chain of directories. *)
Lemma write_bytes_fresh r up c h data :
  no_dotdot (up ++ [c]) ->
  dirs (fs h) (start_of r h) up ->
  fs h !! (start_of r h ++ up ++ [c]) = None ->
  exists h2,
    write_bytes (PosixPath.mk r (up ++ [c])) data h = (Ok tt, h2)
    /\ locate (PosixPath.mk r (up ++ [c])) h2 = inr (start_of r h ++ up ++ [c])
    /\ fs h2 !! (start_of r h ++ up ++ [c])
       = Some (File (Z.land 438 (Z.lnot (umask h))) data)
    /\ cwd h2 = cwd h /\ umask h2 = umask h
    /\ dirs (fs h2) (start_of r h) up.
Proof.
  intros Hn Hd Hmiss.
  pose proof (walk_snoc_dirs _ _ _ _ Hn Hd) as Hw.
  assert (L : locate (PosixPath.mk r (up ++ [c])) h = inr (start_of r h ++ up ++ [c]))
    by (unfold locate, start_of in *; simpl; exact Hw).
  unfold write_bytes. rewrite L, Hmiss. unfold create.
  rewrite app_assoc, removelast_snoc.
  pose proof (chain_last _ _ _ _ Hd) as Hl. simpl in Hl. rewrite Hl.
  eexists. split; [reflexivity|]. rewrite <- app_assoc.
  split; [|split; [by simpl; rewrite lookup_insert_eq|split; [done|split; [done|]]]].
  - apply locate_set_fs_insert; [by rewrite Hmiss|done].
  - simpl. eapply chain_frame; [|exact Hd]. intros k Hk.
    apply lookup_insert_ne. intros <-. rewrite !length_app in Hk. simpl in Hk. lia.
Qed.


(** *** Paths with ".." *)

(** One step of resolution: ".." leads to the parent. *)
Definition step (cur : list string) (c : string) : list string :=
  if String.eqb c ".." then removelast cur else cur ++ [c].














End HostFacts.

(** ** File operations of the terminal backend *)

Module TmuxFiles.
Import Tmux.

(** The translated path is a function of the configuration and the
    cache; translating changes nothing. *)
Lemma get_full_path_total sandbox_id path st :
  exists P, forall st',
    config st' = config st -> _sessions st' = _sessions st ->
    _get_full_path sandbox_id path st' = (Ok P, st').
Proof.
  unfold _get_full_path, workspace_of. munfold.
  destruct (Py.startswith path "/workspace"); [|destruct (Py.startswith path "/")];
    eexists; intros st' Hc Hs; rewrite Hc, Hs; reflexivity.
Qed.

Section WithCodec.
Context {codec : TextCodec}.






End WithCodec.



End TmuxFiles.

(** ** Where the runtime looks a written path up *)

Module ArchivePath.

Abbreviation str := String.string_of_list_ascii.
Abbreviation chars := String.list_ascii_of_string.

Lemma str_app a b : str (a ++ b) = str a +:+ str b.
Proof. induction a as [|c a IH]; [done|]. simpl. by rewrite IH. Qed.

Definition slash : ascii := "/"%char.


(** Components of a text cut at a slash. *)
Lemma components_app_slash a b : forall cur,
  PosixPath.components_aux cur (str (a ++ slash :: b))
  = PosixPath.components_aux cur (str a) ++ PosixPath.components_aux [] (str b).
Proof.
  induction a as [|c a IH]; intros cur; simpl; [done|].
  destruct (Ascii.eqb c "/"); simpl; by rewrite IH.
Qed.


Definition kept (l : list ascii) : list string :=
  List.filter PosixPath.keep_component (PosixPath.components_aux [] (str l)).

Lemma kept_snoc_slash a : kept (a ++ [slash]) = kept a.
Proof.
  unfold kept. rewrite components_app_slash, List.filter_app. simpl.
  by rewrite app_nil_r.
Qed.

Lemma kept_slashes l : Forall (fun c => c = slash) l -> kept l = [].
Proof.
  induction l as [|c l IH] using rev_ind; intros H; [done|].
  apply Forall_app in H as [Hl Hc]. apply Forall_singleton in Hc as ->.
  rewrite kept_snoc_slash. by apply IH.
Qed.


Lemma drop_slashes_nil h : OsPath.drop_slashes h = [] -> Forall (fun c => c = slash) h.
Proof.
  induction h as [|c h IH]; simpl; [done|].
  destruct (Ascii.eqb_spec c "/") as [->|Hc]; [|done].
  intros H. constructor; auto.
Qed.




End ArchivePath.

(** ** File transfer of the container backend *)

Module OrbStackFiles.
Import OrbStack OrbStackLifecycle.






Section WithCodec.
Context {utf8 : TextCodec}.



End WithCodec.
End OrbStackFiles.

(** ** Round trips *)

Module RoundTrip.



(** The text "a\rb". *)
Definition with_cr : string := String "a" (String "013" (String "b" EmptyString)).
(** The text "a\nb". *)
Definition with_lf : string := String "a" (String "010" (String "b" EmptyString)).

(** C7 (the code departs from the claim). On the terminal backend
    the text "a\rb", written with [write_file] and read with
    [read_file], comes back as "a\nb": the file is read with universal
    newlines. On the container backend a bare file name is written
    below "/workspace" and looked up in the root directory: the read
    that follows the write does not find the file. *)
Theorem write_then_read_differs :
  (let w := @Tmux.write_file AsciiCodec.codec "sbx_1" "a.txt" with_cr Demo.tmux in
   w.1 = Ok {| name := "a.txt"; path := "/ws/sbx_1/a.txt"; type := "file"; size := 3;
               permissions := "644"; modified_at := None |}
   /\ (@Tmux.read_file AsciiCodec.codec "sbx_1" "a.txt" w.2).1 = Ok with_lf
   /\ with_lf <> with_cr)
  /\ (let w := @OrbStack.write_file_bytes "sbx_1" "a.txt" [Byte.x68; Byte.x69]
                 Demo.orbstack in
      w.1 = Ok {| name := "a.txt"; path := "a.txt"; type := "file"; size := 2;
                  permissions := "644"; modified_at := None |}
      /\ (@OrbStack.read_file_bytes "sbx_1" "a.txt" w.2).1
         = Raise (FileOperationError "File not found: a.txt")).
Proof. split; by vm_compute. Qed.



End RoundTrip.

(** ** Cutting the captured text *)

Module Capture.

Lemma app_nil s : "" +:+ s = s.
Proof. reflexivity. Qed.
Lemma app_cons c s1 s2 : String c s1 +:+ s2 = String c (s1 +:+ s2).
Proof. reflexivity. Qed.

Lemma prefix_slice sep s :
  String.prefix sep s = true -> s = sep +:+ Py.slice_from (String.length sep) s.
Proof.
  revert s. induction sep as [|a sep IH]; intros s.
  - by rewrite app_nil.
  - destruct s as [|b s]; [done|]. simpl.
    destruct (ascii_dec a b) as [->|]; [|done].
    intros H. rewrite app_cons. f_equal. by apply IH.
Qed.


Lemma partition_nil sep :
  Py.partition sep ""
  = if String.prefix sep "" then Some ("", Py.slice_from (String.length sep) "") else None.
Proof. reflexivity. Qed.

Lemma partition_cons sep c s :
  Py.partition sep (String c s)
  = if String.prefix sep (String c s)
    then Some ("", Py.slice_from (String.length sep) (String c s))
    else match Py.partition sep s with
         | Some (a, b) => Some (String c a, b)
         | None => None
         end.
Proof. reflexivity. Qed.


(** ... and at the leftmost one: the separator does not begin
    anywhere in the text before the cut. *)
Lemma partition_leftmost sep s a b :
  Py.partition sep s = Some (a, b) ->
  forall n, (n < String.length a)%nat ->
            String.prefix sep (Py.slice_from n s) = false.
Proof.
  revert a b. induction s as [|c s IH]; intros a b.
  - rewrite partition_nil.
    destruct (String.prefix sep ""); [|done]. intros [= <- <-] n Hn. simpl in Hn. lia.
  - rewrite partition_cons. destruct (String.prefix sep (String c s)) eqn:P.
    + intros [= <- <-] n Hn. simpl in Hn. lia.
    + destruct (Py.partition sep s) as [[a' b']|] eqn:E; [|done].
      intros [= <- <-] n Hn. destruct n as [|n]; [exact P|].
      simpl in Hn. simpl Py.slice_from. eapply IH; [done|lia].
Qed.





End Capture.

(** ** Foreground commands of the terminal backend *)

Module TmuxCommand.
Import Tmux.

(** One poll interval: the clock advances and the other processes
    take their steps. *)
Definition tick (st : Tmux.t) : Tmux.t := (on_host (Host.sleep 200) st).2.

Fixpoint ticks (n : nat) (st : Tmux.t) : Tmux.t :=
  match n with
  | O => st
  | S n' => ticks n' (tick st)
  end.

Lemma tick_clock st : Host.clock (host (tick st)) = Host.clock (host st) + 200.
Proof.
  unfold tick, on_host, zoom, Host.sleep, modify. simpl.
  by destruct (Host.run_due _ _ _).
Qed.

Global Arguments tick : simpl never.

Lemma ticks_clock n : forall st,
  Host.clock (host (ticks n st)) = Host.clock (host st) + 200 * Z.of_nat n.
Proof.
  induction n as [|n IH]; intros st; simpl ticks; [lia|].
  rewrite IH, tick_clock. lia.
Qed.


(** *** The loop test *)

(** Against a finite timeout, a whole number of milliseconds is less
    exactly when it is less than the timeout's deadline. *)
Lemma ms_lt_deadline ms q : Py.ms_lt ms (Py.Finite q) = (ms <? deadline q).
Proof.
  unfold Py.ms_lt, deadline.
  assert (Hq : (q <= Qmake ms 1000)%Q <-> (q * 1000 <= inject_Z ms)%Q).
  { destruct q as [a b]. unfold Qle, Qmult, inject_Z. simpl.
    rewrite Pos.mul_1_r. lia. }
  destruct (Qle_bool q (Qmake ms 1000)) eqn:E; simpl; symmetry.
  - apply Qle_bool_iff, Hq in E. apply Z.ltb_ge.
    rewrite <- (Qceiling_Z ms). by apply Qceiling_resp_le.
  - apply Z.ltb_lt, Z.nle_gt. intros Hle.
    assert (Hn : Qle_bool q (Qmake ms 1000) = true); [|congruence].
    apply Qle_bool_iff, Hq.
    eapply Qle_trans; [apply Qle_ceiling|]. by rewrite <- Zle_Qle.
Qed.




(** *** The other processes come to rest *)






Section WithCodec.
Context {codec : TextCodec}.

(** What a poll sees of the capture file: nothing when it does not
    exist, else the text read (or the error reading raises). *)
Definition observe (output_file : Path) (st : Tmux.t) : option (outcome string) :=
  match (Host.exists_ output_file (host st)).1 with
  | Ok true => Some (TextIO.read_text output_file (host st)).1
  | _ => None
  end.





Lemma exists_state p h : (Host.exists_ p h).2 = h.
Proof. done. Qed.

Lemma read_text_state p h : (TextIO.read_text p h).2 = h.
Proof.
  unfold TextIO.read_text, bind, Host.read_bytes.
  destruct (Host.locate p h); [done|].
  destruct (Host.fs h !! l) as [[]|]; try done.
  simpl. by destruct (decode data).
Qed.

Lemma read_text_total p h : (TextIO.read_text p h).1 <> Raise Diverge.
Proof.
  unfold TextIO.read_text, bind, Host.read_bytes.
  destruct (Host.locate p h); [done|].
  destruct (Host.fs h !! l) as [[]|]; try done.
  simpl. by destruct (decode data).
Qed.


Lemma on_host_time st : on_host Host.time st = (Ok (Host.clock (host st)), st).
Proof. by destruct st. Qed.

Lemma on_host_sleep st : on_host (Host.sleep 200) st = (Ok tt, tick st).
Proof. reflexivity. Qed.

Lemma on_host_exists p st :
  on_host (Host.exists_ p) st = ((Host.exists_ p (host st)).1, st).
Proof. by destruct st. Qed.

Lemma on_host_read_text p st :
  on_host (TextIO.read_text p) st = ((TextIO.read_text p (host st)).1, st).
Proof.
  unfold on_host, zoom. pose proof (read_text_state p (host st)) as H.
  destruct (TextIO.read_text p (host st)) as [r h']. simpl in *. subst h'.
  by destruct st.
Qed.

(** One turn of the loop. *)
Lemma poll_step fuel start_time timeout exit_marker output_file st :
  Py.ms_lt (Host.clock (host st) - start_time) timeout = true ->
  poll (S fuel) start_time timeout exit_marker output_file st
  = match observe output_file (tick st) with
    | None => poll fuel start_time timeout exit_marker output_file (tick st)
    | Some (Ok content) =>
        if Py.contains exit_marker content
        then (Ok (parse_capture exit_marker content), tick st)
        else poll fuel start_time timeout exit_marker output_file (tick st)
    | Some (Raise e) => (Raise e, tick st)
    end.
Proof.
  intros Ht.
  unfold poll; fold poll. unfold bind at 1. rewrite on_host_time, Ht.
  unfold bind at 1. rewrite on_host_sleep.
  unfold bind at 1. rewrite on_host_exists. unfold observe.
  destruct ((Host.exists_ output_file (host (tick st))).1) as [[]|e] eqn:Ex.
  - unfold bind at 1. rewrite on_host_read_text.
    destruct ((TextIO.read_text output_file (host (tick st))).1) as [content|e];
      [|done].
    by destruct (Py.contains exit_marker content).
  - done.
  - done.
Qed.

Lemma poll_stop fuel start_time timeout exit_marker output_file st :
  Py.ms_lt (Host.clock (host st) - start_time) timeout = false ->
  poll fuel start_time timeout exit_marker output_file st = (Ok ("", -1), st).
Proof.
  intros Ht.
  destruct fuel; unfold poll; fold poll; unfold bind at 1;
    by rewrite on_host_time, Ht.
Qed.


















(** [run_command] under a timeout that is not infinite always ends: it
    returns a result or raises a Python exception. *)
Lemma poll_total exit_marker output_file start_time q :
  forall fuel st,
    deadline q - (Host.clock (host st) - start_time) <= 200 * Z.of_nat fuel ->
    (poll fuel start_time (Py.Finite q) exit_marker output_file st).1 <> Raise Diverge.
Proof.
  induction fuel as [|fuel IH]; intros st Hf.
  - rewrite poll_stop; [done|]. rewrite ms_lt_deadline. apply Z.ltb_ge. lia.
  - destruct (Py.ms_lt (Host.clock (host st) - start_time) (Py.Finite q)) eqn:Hlt;
      [|by rewrite poll_stop].
    rewrite poll_step by done.
    assert (Hrec : (poll fuel start_time (Py.Finite q) exit_marker output_file
                      (tick st)).1 <> Raise Diverge)
      by (apply IH; rewrite tick_clock; lia).
    unfold observe.
    destruct ((Host.exists_ output_file (host (tick st))).1) as [[]|e]; try done.
    pose proof (read_text_total output_file (host (tick st))) as Hr.
    destruct ((TextIO.read_text output_file (host (tick st))).1) as [content|e];
      [|simpl; intros [= ->]; by apply Hr].
    by destruct (Py.contains exit_marker content).
Qed.

End WithCodec.
End TmuxCommand.

Module TmuxCommandDemo.
Import Tmux TmuxCommand.

Definition lf : string := String "010" EmptyString.

(** What the shell leaves in the capture file: the output line, then
    the marker with the exit status. *)
Definition captured : string := "hi" +:+ lf +:+ "__EXIT_01234567__0" +:+ lf.




(** The sandbox [sbx_1] whose shell has [text] in the capture file
    [at_ms] milliseconds from now. *)
Definition writes (at_ms : Z) (text : string) : Tmux.t :=
  {| config := config Demo.tmux;
     _sessions := _sessions Demo.tmux;
     host :=
       {| Host.fs := Host.fs Demo.host; Host.cwd := []; Host.umask := 18;
          Host.clock := 0;
          Host.pending :=
            [ {| Host.ev_time := at_ms;
                 Host.ev_key := ["cap"; "sbx_1_output.txt"];
                 Host.ev_data := map byte_of_ascii (String.list_ascii_of_string text) |} ];
          Host.uuid_hex := fun _ => "0123456789abcdef0123456789abcdef";
          Host.uuid_next := 0 |};
     server := server Demo.tmux |}.

(** U+00A0, the no-break space. *)
Definition nbsp : string := String "194" (String "160" EmptyString).

(** White space and digits are Python's: a no-break space after the
    output is stripped, and an exit status written with the
    Arabic-Indic digit three is 3. *)
Lemma run_command_reads_unicode_text :
  (@run_command Utf8Codec.codec "sbx_1" "echo hi" None None (Some (Py.Finite 1)) true
     (writes 150 ("hi" +:+ nbsp +:+ lf +:+ "__EXIT_01234567__٣" +:+ lf))).1
  = Ok {| stdout := "hi"; stderr := ""; exit_code := 3; pid := None |}.
Proof. by vm_compute. Qed.

(** Timeouts are numbers, not whole milliseconds: under a timeout of
    0.2005 s there are two polls, and the call that reads no marker
    takes 500 ms; under a timeout of 0.2 s there is one, and it takes
    300 ms; under [nan] the loop is not entered. *)
Lemma run_command_takes_fractions :
  Host.clock (host (@run_command AsciiCodec.codec "sbx_1" "true" None None
                      (Some (Py.Finite (401 # 2000))) true Demo.tmux).2) = 500
  /\ Host.clock (host (@run_command AsciiCodec.codec "sbx_1" "true" None None
                         (Some (Py.Finite (1 # 5))) true Demo.tmux).2) = 300
  /\ @run_command AsciiCodec.codec "sbx_1" "true" None None (Some Py.NaN) true
       (writes 0 captured)
     = (Ok {| stdout := ""; stderr := ""; exit_code := -1; pid := None |},
        (@run_command AsciiCodec.codec "sbx_1" "true" None None (Some Py.NaN) true
           (writes 0 captured)).2).
Proof. by vm_compute. Qed.

(** Under an infinite timeout the call waits for the marker: it
    returns once the capture shows it, five seconds from now, and
    never when nothing is going to write it. *)
Lemma run_command_without_timeout :
  (let r := @run_command AsciiCodec.codec "sbx_1" "echo hi" None None (Some Py.PosInf)
              true (writes 5000 captured) in
   r.1 = Ok {| stdout := "hi"; stderr := ""; exit_code := 0; pid := None |}
   /\ Host.clock (host r.2) = 5100)
  /\ (@run_command AsciiCodec.codec "sbx_1" "echo hi" None None (Some Py.PosInf) true
        Demo.tmux).1 = Raise Diverge.
Proof. by vm_compute. Qed.

End TmuxCommandDemo.

(** ** Paths that do not exist, on the terminal backend *)

Module TmuxEntries.
Import Tmux.

(** The path translation changes nothing and always yields a path. *)
Lemma get_full_path_ok sandbox_id path st :
  exists P, _get_full_path sandbox_id path st = (Ok P, st).
Proof.
  destruct (TmuxFiles.get_full_path_total sandbox_id path st) as [P HP].
  exists P. by apply HP.
Qed.

Lemma on_host_is_dir p st :
  on_host (Host.is_dir p) st = ((Host.is_dir p (host st)).1, st).
Proof. unfold on_host, zoom, Host.is_dir, gets. simpl. by destruct st. Qed.

Section WithCodec.
Context {codec : TextCodec} {calendar : Calendar}.

Lemma file_exists_eq sandbox_id path st P :
  _get_full_path sandbox_id path st = (Ok P, st) ->
  file_exists sandbox_id path st = ((Host.exists_ P (host st)).1, st).
Proof.
  intros HP. unfold file_exists, bind. rewrite HP. apply TmuxCommand.on_host_exists.
Qed.

(** X1. On the terminal backend, for a path [file_exists] answers
    [False] for: [read_file], [read_file_bytes], [get_file_info] and
    [remove_file] raise [FileOperationError] with the message
    "File not found: " followed by the path as given, [list_files]
    returns the empty list (for every [depth]), and none of them
    changes anything. *)
Theorem missing_path_is_reported sandbox_id path st :
  file_exists sandbox_id path st = (Ok false, st) ->
  let not_found := FileOperationError ("File not found: " +:+ path) in
  read_file sandbox_id path st = (Raise not_found, st)
  /\ read_file_bytes sandbox_id path st = (Raise not_found, st)
  /\ get_file_info sandbox_id path st = (Raise not_found, st)
  /\ remove_file sandbox_id path st = (Raise not_found, st)
  /\ forall depth, list_files sandbox_id path depth st = (Ok [], st).
Proof.
  destruct (get_full_path_ok sandbox_id path st) as [P HP].
  rewrite (file_exists_eq _ _ _ _ HP). intros E%(f_equal fst) nf. cbn [fst] in E.
  unfold read_file, read_file_bytes, get_file_info, remove_file, list_files, bind.
  rewrite HP, TmuxCommand.on_host_exists, E. simpl. done.
Qed.

End WithCodec.

(** A calendar that reads every time as the epoch. *)
Definition epoch : Calendar :=
  {| utcnow_isoformat := fun _ => "1970-01-01T00:00:00";
     mtime_isoformat := fun _ _ => "1970-01-01T00:00:00" |}.

Lemma missing_path_is_reported_witness :
  @get_file_info epoch "sbx_1" "nope.txt" Demo.tmux
  = (Raise (FileOperationError "File not found: nope.txt"), Demo.tmux).
Proof.
  refine (proj1 (proj2 (proj2 (@missing_path_is_reported AsciiCodec.codec epoch
            "sbx_1" "nope.txt" Demo.tmux _)))).
  vm_compute. reflexivity.
Defined.
End TmuxEntries.

(** ** What is reported of a written file *)

Module TmuxWritten.
Import Tmux TmuxEntries.

(** What the backend reports of a regular file with mode [m] and bytes
    [data] at the translated path [P]. *)
Definition file_info_of (P : Path) (m : Z) (data : list Byte.byte)
    (mtime : option string) : FileInfo :=
  {| name := PosixPath.name P;
     path := PosixPath.to_string P;
     type := "file";
     size := Z.of_nat (length data);
     permissions := Host.oct3 (m + 32768);
     modified_at := mtime |}.

Lemma stored_is_dir p h k m data :
  Host.locate p h = inr k -> Host.fs h !! k = Some (Host.File m data) ->
  Host.is_dir p h = (Ok false, h).
Proof. intros L E. unfold Host.is_dir, gets. by rewrite L, E. Qed.

Section WithCodec.
Context {codec : TextCodec} {calendar : Calendar}.

Lemma stored_stat_mtime p h k n :
  Host.locate p h = inr k -> Host.fs h !! k = Some n ->
  stat_mtime p h = (Ok (mtime_isoformat h k), h).
Proof. intros L E. unfold stat_mtime. by rewrite L, E. Qed.

(** The description of a regular file that is stored where the
    translated path leads. *)
Lemma get_file_info_stored sandbox_id path st P k m data :
  _get_full_path sandbox_id path st = (Ok P, st) ->
  Host.locate P (host st) = inr k ->
  Host.fs (host st) !! k = Some (Host.File m data) ->
  file_exists sandbox_id path st = (Ok true, st)
  /\ get_file_info sandbox_id path st
     = (Ok (file_info_of P m data (Some (mtime_isoformat (host st) k))), st).
Proof.
  intros HP L E. split.
  - rewrite (file_exists_eq _ _ _ _ HP).
    by rewrite (HostFacts.stored_exists _ _ _ _ _ L E).
  - unfold get_file_info, bind. rewrite HP, TmuxCommand.on_host_exists.
    rewrite (HostFacts.stored_exists _ _ _ _ _ L E). simpl.
    unfold entry_info, bind, on_host, zoom.
    rewrite (HostFacts.stored_stat _ _ _ _ _ L E). simpl.
    rewrite (stored_stat_mtime _ _ _ _ L E), L, E. simpl.
    by destruct st.
Qed.

Lemma write_file_bytes_returns sandbox_id path data st fi st1 :
  write_file_bytes sandbox_id path data st = (Ok fi, st1) ->
  exists P k m,
    _get_full_path sandbox_id path st1 = (Ok P, st1)
    /\ Host.locate P (host st1) = inr k
    /\ Host.fs (host st1) !! k = Some (Host.File m data)
    /\ fi = file_info_of P m data None.
Proof.
  destruct (TmuxFiles.get_full_path_total sandbox_id path st) as [P HP].
  unfold write_file_bytes. unfold bind at 1. rewrite (HP st eq_refl eq_refl).
  unfold bind at 1. unfold on_host at 1, zoom.
  destruct (Host.mkdir_parents (PosixPath.parent P) (host st)) as [[[]|e] h1]; [|done].
  unfold bind at 1. unfold on_host at 1, zoom. simpl host.
  destruct (Host.write_bytes P data h1) as [[[]|e] h2] eqn:W; [|done].
  destruct (HostFacts.write_bytes_stored _ _ _ _ W) as (k & m & L & E).
  unfold written_info, bind, on_host, zoom. simpl host.
  rewrite (HostFacts.stored_stat _ _ _ _ _ L E). simpl.
  intros [= <- <-]. exists P, k, m. simpl.
  split; [by apply HP|]. done.
Qed.

Lemma write_file_returns sandbox_id path content st fi st1 :
  write_file sandbox_id path content st = (Ok fi, st1) ->
  exists P k m data,
    encode content = Some data
    /\ _get_full_path sandbox_id path st1 = (Ok P, st1)
    /\ Host.locate P (host st1) = inr k
    /\ Host.fs (host st1) !! k = Some (Host.File m data)
    /\ fi = file_info_of P m data None.
Proof.
  destruct (TmuxFiles.get_full_path_total sandbox_id path st) as [P HP].
  unfold write_file. unfold bind at 1. rewrite (HP st eq_refl eq_refl).
  unfold bind at 1. unfold on_host at 1, zoom.
  destruct (Host.mkdir_parents (PosixPath.parent P) (host st)) as [[[]|e] h1]; [|done].
  unfold bind at 1. unfold on_host at 1, zoom. simpl host.
  unfold TextIO.write_text. unfold bind at 1.
  destruct (Host.write_bytes P [] h1) as [[[]|e] h2]; [|done].
  destruct (encode content) as [data|] eqn:En; [|done].
  destruct (Host.write_bytes P data h2) as [[[]|e] h3] eqn:W; [|done].
  destruct (HostFacts.write_bytes_stored _ _ _ _ W) as (k & m & L & E).
  unfold written_info, bind, on_host, zoom. simpl host.
  rewrite (HostFacts.stored_stat _ _ _ _ _ L E). simpl.
  intros [= <- <-]. exists P, k, m, data. simpl.
  split; [done|]. split; [by apply HP|]. done.
Qed.

(** X2. On the terminal backend, right after a write method returned,
    [file_exists] answers [True] for the same path and
    [get_file_info] returns the description the write returned: the
    same name, path, type ("file"), size and permissions (it adds
    the modification time). *)
Theorem written_file_is_described sandbox_id target st fi st1 :
  (exists data, write_file_bytes sandbox_id target data st = (Ok fi, st1))
  \/ (exists content, write_file sandbox_id target content st = (Ok fi, st1)) ->
  file_exists sandbox_id target st1 = (Ok true, st1)
  /\ exists mtime,
       get_file_info sandbox_id target st1
       = (Ok {| name := name fi; path := path fi; type := "file"; size := size fi;
                permissions := permissions fi; modified_at := Some mtime |}, st1).
Proof.
  intros [[data W]|[content W]].
  - destruct (write_file_bytes_returns _ _ _ _ _ _ W) as (P & k & m & HP & L & E & ->).
    destruct (get_file_info_stored _ _ _ _ _ _ _ HP L E) as [H1 H2].
    split; [exact H1|]. eexists. exact H2.
  - destruct (write_file_returns _ _ _ _ _ _ W) as (P & k & m & data & _ & HP & L & E & ->).
    destruct (get_file_info_stored _ _ _ _ _ _ _ HP L E) as [H1 H2].
    split; [exact H1|]. eexists. exact H2.
Qed.

End WithCodec.

Lemma written_file_is_described_witness :
  exists fi st1,
    @write_file AsciiCodec.codec "sbx_1" "a/b.txt" "hello" Demo.tmux = (Ok fi, st1)
    /\ size fi = 5
    /\ @file_exists "sbx_1" "a/b.txt" st1 = (Ok true, st1)
    /\ exists mtime,
         @get_file_info epoch "sbx_1" "a/b.txt" st1
         = (Ok {| name := "b.txt"; path := "/ws/sbx_1/a/b.txt"; type := "file"; size := 5;
                  permissions := "644"; modified_at := Some mtime |}, st1).
Proof.
  destruct (@write_file AsciiCodec.codec "sbx_1" "a/b.txt" "hello" Demo.tmux)
    as [r st1] eqn:W.
  assert (Hr : r = Ok {| name := "b.txt"; path := "/ws/sbx_1/a/b.txt"; type := "file";
                         size := 5; permissions := "644"; modified_at := None |})
    by (apply (f_equal fst) in W; vm_compute in W; by rewrite <- W).
  subst r. eexists _, st1. split; [reflexivity|]. split; [reflexivity|].
  exact (@written_file_is_described AsciiCodec.codec epoch "sbx_1" "a/b.txt" Demo.tmux
           _ st1 (or_intror (ex_intro _ "hello" W))).
Defined.

End TmuxWritten.

(** ** Removing files and directories *)

Module TmuxRemoval.
Import Tmux TmuxEntries.

(** Where a path leads does not depend on the tree, only whether it
    leads anywhere. *)
Lemma walk_same_end f f' cur comps k k' :
  Host.walk f cur comps = inr k -> Host.walk f' cur comps = inr k' -> k = k'.
Proof.
  revert cur. induction comps as [|c rest IH]; intros cur; simpl.
  - by intros [= <-] [= <-].
  - destruct (f !! cur) as [[m|m d]|]; try done.
    destruct (f' !! cur) as [[m'|m' d']|]; try done.
    apply IH.
Qed.

(** Once the entry a path led to is gone, the path does not exist. *)
Lemma exists_after_removal p h h' k :
  Host.cwd h' = Host.cwd h ->
  Host.locate p h = inr k -> Host.fs h' !! k = None ->
  Host.exists_ p h' = (Ok false, h').
Proof.
  intros Hc L E. unfold Host.exists_, gets.
  destruct (Host.locate p h') as [e|k'] eqn:L'; [done|].
  unfold Host.locate in *. rewrite Hc in L'.
  rewrite <- (walk_same_end _ _ _ _ _ _ L L'), E.
  by rewrite bool_decide_eq_false_2 by (by intros [? ?]).
Qed.

Lemma below_refl k : Host.below k k = true.
Proof. unfold Host.below. by rewrite firstn_all, bool_decide_eq_true_2. Qed.

(** What a successful [unlink] and a successful [rmtree] leave. *)
Lemma unlink_spec p h h' :
  Host.unlink p h = (Ok tt, h') ->
  exists k, Host.locate p h = inr k /\ Host.cwd h' = Host.cwd h
    /\ Host.is_dir_node (Host.fs h !! k) = false
    /\ Host.fs h' = delete k (Host.fs h).
Proof.
  unfold Host.unlink. destruct (Host.locate p h) as [e|k] eqn:L; [done|].
  destruct (Host.fs h !! k) as [[m|m d]|] eqn:E; try done.
  intros [= <-]. exists k. by rewrite E.
Qed.

Lemma rmtree_spec p h h' :
  Host.rmtree p h = (Ok tt, h') ->
  exists k, Host.locate p h = inr k /\ Host.cwd h' = Host.cwd h
    /\ Host.is_dir_node (Host.fs h !! k) = true
    /\ forall k', Host.fs h' !! k'
                  = if Host.below k k' then None else Host.fs h !! k'.
Proof.
  unfold Host.rmtree. destruct (Host.locate p h) as [e|k] eqn:L; [done|].
  destruct (Host.fs h !! k) as [[m|m d]|] eqn:E; try done.
  intros [= <-]. exists k. rewrite E. repeat split; try done.
  intros k'. simpl. rewrite map_lookup_filter.
  destruct (Host.fs h !! k') as [n|] eqn:E'; simpl.
  - destruct (Host.below k k'); simpl; done.
  - by destruct (Host.below k k').
Qed.

(** X3. On the terminal backend, once [remove_file] has returned,
    [file_exists] answers [False] for the same path. Where the path
    led, every entry of the host's tree that is not at or below that
    place is as before; if the place was a directory, everything at
    and below it is gone; if it was a regular file, every other entry
    is as before. *)
Theorem remove_file_removes sandbox_id target st st1 :
  remove_file sandbox_id target st = (Ok tt, st1) ->
  file_exists sandbox_id target st1 = (Ok false, st1)
  /\ exists P k,
       _get_full_path sandbox_id target st = (Ok P, st)
       /\ Host.locate P (host st) = inr k
       /\ (forall k', Host.below k k' = false ->
             Host.fs (host st1) !! k' = Host.fs (host st) !! k')
       /\ (Host.is_dir_node (Host.fs (host st) !! k) = true ->
           forall k', Host.below k k' = true -> Host.fs (host st1) !! k' = None)
       /\ (Host.is_dir_node (Host.fs (host st) !! k) = false ->
           forall k', k' <> k -> Host.fs (host st1) !! k' = Host.fs (host st) !! k').
Proof.
  destruct (TmuxFiles.get_full_path_total sandbox_id target st) as [P HP].
  pose proof (HP st eq_refl eq_refl) as HP0.
  unfold remove_file. unfold bind at 1. rewrite HP0.
  unfold bind at 1. rewrite TmuxCommand.on_host_exists.
  destruct (Host.exists_ P (host st)).1 as [[|]|e]; simpl; try done.
  unfold bind at 1. rewrite on_host_is_dir.
  destruct (Host.is_dir P (host st)).1 as [[|]|e]; simpl; try done.
  - unfold on_host, zoom.
    destruct (Host.rmtree P (host st)) as [[[]|e] h1] eqn:R; [|done].
    intros [= <-].
    destruct (rmtree_spec _ _ _ R) as (k & L & Hc & Hd & Hf).
    assert (Hk : Host.fs h1 !! k = None) by (by rewrite Hf, below_refl).
    split.
    + rewrite (file_exists_eq _ _ _ P) by (by apply HP). simpl host.
      by rewrite (exists_after_removal _ _ _ _ Hc L Hk).
    + exists P, k. repeat split; try done; simpl.
      * intros k' Hb. by rewrite Hf, Hb.
      * intros _ k' Hb. by rewrite Hf, Hb.
      * by rewrite Hd.
  - unfold on_host, zoom.
    destruct (Host.unlink P (host st)) as [[[]|e] h1] eqn:R; [|done].
    intros [= <-].
    destruct (unlink_spec _ _ _ R) as (k & L & Hc & Hd & Hf).
    assert (Hk : Host.fs h1 !! k = None) by (rewrite Hf; apply lookup_delete_eq).
    split.
    + rewrite (file_exists_eq _ _ _ P) by (by apply HP). simpl host.
      by rewrite (exists_after_removal _ _ _ _ Hc L Hk).
    + exists P, k. repeat split; try done; simpl.
      * intros k' Hb. rewrite Hf. apply lookup_delete_ne. intros <-.
        by rewrite below_refl in Hb.
      * by rewrite Hd.
      * intros _ k' Hne. rewrite Hf. by apply lookup_delete_ne.
Qed.

(** Removing the workspace directory of the demo sandbox. *)
Lemma remove_file_removes_witness :
  exists st1,
    remove_file "sbx_1" "" Demo.tmux = (Ok tt, st1)
    /\ file_exists "sbx_1" "" st1 = (Ok false, st1).
Proof.
  destruct (remove_file "sbx_1" "" Demo.tmux) as [r st1] eqn:R.
  assert (Hr : r = Ok tt)
    by (apply (f_equal fst) in R; vm_compute in R; by rewrite <- R).
  subst r. exists st1. split; [reflexivity|].
  exact (proj1 (remove_file_removes "sbx_1" "" Demo.tmux st1 R)).
Defined.

End TmuxRemoval.

(** ** Making directories *)

Module TmuxDirectories.
Import Tmux TmuxEntries.
Import HostFacts.

(** A directory where the path leads: [mkdir(parents=True,
    exist_ok=True)] finds it and changes nothing. *)
Lemma mkdir_parents_present p h k m :
  Host.locate p h = inr k -> Host.fs h !! k = Some (Host.Dir m) ->
  Host.mkdir_parents p h = (Ok tt, h).
Proof.
  intros L E. unfold Host.mkdir_parents.
  assert (Hp : PosixPath.mk (PosixPath.root p) (rev (rev (PosixPath.parts p))) = p)
    by (rewrite rev_involutive; by destruct p).
  destruct (rev (PosixPath.parts p)) as [|c up] eqn:R; simpl in *;
    unfold try_except, Host.os_mkdir; rewrite Hp, L, E; simpl;
    unfold Host.mkdir_other_error, bind, Host.is_dir, gets; by rewrite L, E.
Qed.

(** A regular file where the path leads: [FileExistsError]. *)
Lemma mkdir_parents_file p h k m d :
  Host.locate p h = inr k -> Host.fs h !! k = Some (Host.File m d) ->
  Host.mkdir_parents p h = (Raise (OSError EEXIST), h).
Proof.
  intros L E. unfold Host.mkdir_parents.
  assert (Hp : PosixPath.mk (PosixPath.root p) (rev (rev (PosixPath.parts p))) = p)
    by (rewrite rev_involutive; by destruct p).
  destruct (rev (PosixPath.parts p)) as [|c up] eqn:R; simpl in *;
    unfold try_except, Host.os_mkdir; rewrite Hp, L, E; simpl;
    unfold Host.mkdir_other_error, bind, Host.is_dir, gets; by rewrite L, E.
Qed.

Section WithCalendar.
Context {calendar : Calendar}.

(** The description of a directory where the translated path leads. *)
Lemma get_file_info_dir sandbox_id path st P k m :
  _get_full_path sandbox_id path st = (Ok P, st) ->
  Host.locate P (host st) = inr k ->
  Host.fs (host st) !! k = Some (Host.Dir m) ->
  file_exists sandbox_id path st = (Ok true, st)
  /\ exists fi, get_file_info sandbox_id path st = (Ok fi, st) /\ type fi = "dir".
Proof.
  intros HP L E.
  assert (Hex : Host.exists_ P (host st) = (Ok true, host st)).
  { unfold Host.exists_, gets. rewrite L, E. by rewrite bool_decide_eq_true_2. }
  split.
  - rewrite (file_exists_eq _ _ _ _ HP). by rewrite Hex.
  - unfold get_file_info, bind. rewrite HP, TmuxCommand.on_host_exists, Hex. simpl.
    unfold entry_info, bind, on_host, zoom, Host.stat, stat_mtime. rewrite L, E. simpl.
    rewrite L, E. simpl. eexists. split; [by destruct st|done].
Qed.

(** X4. [make_directory] of the terminal backend, for a translated
    path without ".." that starts from a directory and has no regular
    file among itself and its ancestors: it returns [True], the path
    and all its ancestors are directories afterwards, [file_exists]
    answers [True], [get_file_info] reports the type "dir", and a
    second [make_directory] returns [True] again and changes
    nothing. *)
Theorem make_directory_makes_the_chain sandbox_id target st P :
  (_get_full_path sandbox_id target st).1 = Ok P ->
  let start := start_of (PosixPath.root P) (host st) in
  no_dotdot (PosixPath.parts P) ->
  Host.is_dir_node (Host.fs (host st) !! start) = true ->
  no_files (Host.fs (host st)) start (PosixPath.parts P) ->
  exists st1,
    make_directory sandbox_id target st = (Ok true, st1)
    /\ dirs (Host.fs (host st1)) start (PosixPath.parts P)
    /\ file_exists sandbox_id target st1 = (Ok true, st1)
    /\ (exists fi, get_file_info sandbox_id target st1 = (Ok fi, st1) /\ type fi = "dir")
    /\ make_directory sandbox_id target st1 = (Ok true, st1).
Proof.
  intros HP start Hn Hs Hf.
  destruct (TmuxFiles.get_full_path_total sandbox_id target st) as [P' HP'].
  rewrite (HP' st eq_refl eq_refl) in HP. injection HP as ->.
  destruct (mkdir_parents_rev_ok (PosixPath.root P) (rev (PosixPath.parts P)) (host st))
    as (h1 & E & Hc & Hu & Hd & _); rewrite ?rev_involutive; try done.
  rewrite rev_involutive in Hd.
  assert (L : Host.locate P h1 = inr (start ++ PosixPath.parts P)).
  { unfold Host.locate. subst start. unfold start_of in *. rewrite Hc.
    by apply walk_dirs. }
  assert (Hl : Host.is_dir_node (Host.fs h1 !! (start ++ PosixPath.parts P)) = true)
    by exact (chain_last _ _ _ _ Hd).
  destruct (Host.fs h1 !! (start ++ PosixPath.parts P)) as [[m|m d]|] eqn:El; try done.
  assert (HP1 : _get_full_path sandbox_id target (set_host h1 st) = (Ok P, set_host h1 st))
    by (by apply HP').
  exists (set_host h1 st).
  destruct (get_file_info_dir _ _ _ _ _ _ HP1 L El) as [H1 H2].
  split; [|split; [exact Hd|split; [exact H1|split; [exact H2|]]]].
  - unfold make_directory, bind. rewrite (HP' st eq_refl eq_refl).
    unfold on_host, zoom. unfold Host.mkdir_parents. by rewrite E.
  - unfold make_directory, bind. rewrite HP1.
    unfold on_host, zoom. simpl host.
    by rewrite (mkdir_parents_present _ _ _ _ L El).
Qed.

End WithCalendar.

(** In the demo state the sandbox has no directory [a]. *)
Lemma make_directory_makes_the_chain_witness :
  exists st1,
    make_directory "sbx_1" "a/b" Demo.tmux = (Ok true, st1)
    /\ dirs (Host.fs (host st1)) [] ["ws"; "sbx_1"; "a"; "b"]
    /\ make_directory "sbx_1" "a/b" st1 = (Ok true, st1).
Proof.
  assert (HP : (_get_full_path "sbx_1" "a/b" Demo.tmux).1
               = Ok {| PosixPath.root := 1; PosixPath.parts := ["ws"; "sbx_1"; "a"; "b"] |})
    by (vm_compute; reflexivity).
  assert (Hn : no_dotdot ["ws"; "sbx_1"; "a"; "b"]) by (repeat constructor; discriminate).
  assert (Hs : Host.is_dir_node (Host.fs (host Demo.tmux) !! []) = true)
    by (vm_compute; reflexivity).
  assert (Hf : no_files (Host.fs (host Demo.tmux)) [] ["ws"; "sbx_1"; "a"; "b"])
    by (vm_compute; tauto).
  destruct (@make_directory_makes_the_chain epoch "sbx_1" "a/b" Demo.tmux _ HP Hn Hs Hf)
    as (st1 & E & Hd & _ & _ & E2).
  exists st1. split; [exact E|]. split; [exact Hd|exact E2].
Defined.

(** X5. [make_directory] of the terminal backend on a path that
    leads to an entry: on a directory it returns [True], on a regular
    file it raises [FileExistsError]; in both cases nothing changes. *)
Theorem make_directory_on_an_entry sandbox_id target st P k n :
  (_get_full_path sandbox_id target st).1 = Ok P ->
  Host.locate P (host st) = inr k ->
  Host.fs (host st) !! k = Some n ->
  make_directory sandbox_id target st
  = (match n with
     | Host.Dir _ => Ok true
     | Host.File _ _ => Raise (OSError EEXIST)
     end, st).
Proof.
  intros HP L E.
  destruct (TmuxFiles.get_full_path_total sandbox_id target st) as [P' HP'].
  rewrite (HP' st eq_refl eq_refl) in HP. injection HP as ->.
  unfold make_directory, bind. rewrite (HP' st eq_refl eq_refl).
  unfold on_host, zoom. destruct n as [m|m d].
  - rewrite (mkdir_parents_present _ _ _ _ L E). by destruct st.
  - rewrite (mkdir_parents_file _ _ _ _ _ L E). by destruct st.
Qed.

(** The demo state with a regular file [f] in the workspace. *)
Definition with_file : Tmux.t :=
  set_host (Host.set_fs (<[ ["ws"; "sbx_1"; "f"] := Host.File 420 [] ]>
                           (Host.fs Demo.host)) Demo.host) Demo.tmux.

Lemma make_directory_on_an_entry_witness :
  make_directory "sbx_1" "f" with_file = (Raise (OSError EEXIST), with_file).
Proof.
  refine (make_directory_on_an_entry "sbx_1" "f" with_file
            {| PosixPath.root := 1; PosixPath.parts := ["ws"; "sbx_1"; "f"] |}
            ["ws"; "sbx_1"; "f"] (Host.File 420 []) _ _ _);
    vm_compute; reflexivity.
Defined.

End TmuxDirectories.

(** ** Listing a directory *)

Module TmuxListing.
Import Tmux TmuxEntries.

(** *** The entries of a directory *)

Lemma entry_of_Some k key node n :
  Host.entry_of k (key, node) = Some n <-> key = k ++ [n].
Proof.
  unfold Host.entry_of. cbn [fst]. destruct key as [|c key']; [split; [done|]|].
  - intros H. by destruct k.
  - case_bool_decide as Hr.
    + split.
      * intros Hs. assert (Hn : List.last (c :: key') "" = n) by congruence.
        rewrite <- Hn, <- Hr. by apply app_removelast_last.
      * intros E. rewrite E. f_equal. apply last_last.
    + split; [done|]. intros E. destruct Hr. rewrite E. apply removelast_last.
Qed.

Lemma elem_of_listdir k f n :
  n ∈ Host.listdir k f <-> is_Some (f !! (k ++ [n])).
Proof.
  unfold Host.listdir. rewrite list_elem_of_omap. split.
  - intros ([key node] & Hin & He). apply entry_of_Some in He as ->.
    apply elem_of_map_to_list in Hin. by exists node.
  - intros [node E]. exists (k ++ [n], node). split.
    + by apply elem_of_map_to_list.
    + by apply entry_of_Some.
Qed.

Lemma NoDup_listdir k f : NoDup (Host.listdir k f).
Proof.
  unfold Host.listdir. pose proof (NoDup_fst_map_to_list f) as Hnd.
  induction (map_to_list f) as [|[key node] l IH]; simpl; [constructor|].
  apply NoDup_cons in Hnd as [Hnotin Hnd]. specialize (IH Hnd).
  destruct (Host.entry_of k (key, node)) as [n|] eqn:E; [|done].
  apply NoDup_cons. split; [|done].
  rewrite list_elem_of_omap. intros ([key' node'] & Hin & He).
  apply entry_of_Some in E, He. subst. apply Hnotin.
  apply list_elem_of_fmap. by exists (k ++ [n], node').
Qed.

(** The child path of an entry leads to the entry. *)
Lemma locate_child p h k m n :
  Host.locate p h = inr k -> Host.fs h !! k = Some (Host.Dir m) -> n <> ".." ->
  Host.locate (PosixPath.mk (PosixPath.root p) (PosixPath.parts p ++ [n])) h
  = inr (k ++ [n]).
Proof.
  intros L E Hn. unfold Host.locate in *. simpl.
  rewrite HostFacts.walk_app, L. simpl. rewrite E.
  apply String.eqb_neq in Hn. by rewrite Hn.
Qed.

Section WithCalendar.
Context {calendar : Calendar}.

(** What [list_files] reports of the entry [n] of the directory at
    [k], reached by the path [p]. *)
Definition info_of (p : Path) (h : Host.t) (k : list string) (n : string) : FileInfo :=
  {| name := n;
     path := PosixPath.to_string (PosixPath.mk (PosixPath.root p) (PosixPath.parts p ++ [n]));
     type := match h.(Host.fs) !! (k ++ [n]) with Some (Host.Dir _) => "dir" | _ => "file" end;
     size := match h.(Host.fs) !! (k ++ [n]) with
             | Some (Host.File _ d) => Z.of_nat (length d)
             | _ => 4096
             end;
     permissions := Host.oct3 (match h.(Host.fs) !! (k ++ [n]) with
                               | Some (Host.Dir m) => m + 16384
                               | Some (Host.File m _) => m + 32768
                               | None => 0
                               end);
     modified_at := Some (mtime_isoformat h (k ++ [n])) |}.

Lemma entry_info_child p st k m n :
  Host.locate p (host st) = inr k -> Host.fs (host st) !! k = Some (Host.Dir m) ->
  n <> ".." -> is_Some (Host.fs (host st) !! (k ++ [n])) ->
  entry_info (PosixPath.mk (PosixPath.root p) (PosixPath.parts p ++ [n])) st
  = (Ok (info_of p (host st) k n), st).
Proof.
  intros L E Hn [node En].
  pose proof (locate_child _ _ _ _ _ L E Hn) as Lc.
  unfold entry_info, bind, on_host, zoom, Host.stat, Host.is_dir, stat_mtime, gets.
  rewrite Lc, En. unfold info_of. rewrite En. unfold PosixPath.name.
  cbn [PosixPath.parts]. rewrite last_last.
  destruct node as [m'|m' d]; cbn [host set_host fst snd]; rewrite !Lc, !En;
    cbn [host set_host fst snd Host.is_dir_node]; unfold ret; by destruct st.
Qed.

Lemma list_items_children p st k m names : forall files,
  Host.locate p (host st) = inr k -> Host.fs (host st) !! k = Some (Host.Dir m) ->
  Forall (fun n => n <> ".." /\ is_Some (Host.fs (host st) !! (k ++ [n]))) names ->
  list_items
    (map (fun n => PosixPath.mk (PosixPath.root p) (PosixPath.parts p ++ [n])) names) files st
  = (Ok (files ++ map (info_of p (host st) k) names), st).
Proof.
  induction names as [|n names IH]; intros files L E Hall; simpl.
  - unfold ret. by rewrite app_nil_r.
  - apply Forall_cons in Hall as [[Hn Hs] Hall].
    unfold bind. rewrite (entry_info_child _ _ _ _ _ L E Hn Hs).
    rewrite IH by done. by rewrite <- app_assoc.
Qed.

(** X6. [list_files] of the terminal backend on a path that leads to
    an entry (none of whose entries is named ".."). On a regular
    file it raises [NotADirectoryError]. On a directory it returns,
    whatever [depth] is, one [FileInfo] for each entry of the
    directory and no other: the names listed are those of the entries,
    none twice; an entry that is a directory has type "dir", a
    regular file has type "file" and its number of bytes as size.
    Nothing changes. *)
Theorem list_files_lists_the_entries sandbox_id target st P k node :
  (_get_full_path sandbox_id target st).1 = Ok P ->
  Host.locate P (host st) = inr k ->
  Host.fs (host st) !! k = Some node ->
  Host.fs (host st) !! (k ++ [".."]) = None ->
  match node with
  | Host.File _ _ =>
      forall depth, list_files sandbox_id target depth st = (Raise (OSError ENOTDIR), st)
  | Host.Dir _ =>
      exists files,
        (forall depth, list_files sandbox_id target depth st = (Ok files, st))
        /\ NoDup (map name files)
        /\ (forall n, n ∈ map name files <-> is_Some (Host.fs (host st) !! (k ++ [n])))
        /\ Forall (fun fi =>
             match Host.fs (host st) !! (k ++ [name fi]) with
             | Some (Host.Dir _) => type fi = "dir"
             | Some (Host.File _ d) => type fi = "file" /\ size fi = Z.of_nat (length d)
             | None => False
             end) files
  end.
Proof.
  intros HP L E Hdd.
  destruct (TmuxFiles.get_full_path_total sandbox_id target st) as [P' HP'].
  rewrite (HP' st eq_refl eq_refl) in HP. injection HP as ->.
  assert (Hex : Host.exists_ P (host st) = (Ok true, host st)).
  { unfold Host.exists_, gets. rewrite L, E. by rewrite bool_decide_eq_true_2. }
  destruct node as [m|m d].
  - set (names := Host.listdir k (Host.fs (host st))).
    assert (Hall : Forall (fun n => n <> ".."
                     /\ is_Some (Host.fs (host st) !! (k ++ [n]))) names).
    { apply Forall_forall. intros n Hin. apply elem_of_listdir in Hin.
      split; [|done]. intros ->. rewrite Hdd in Hin. by destruct Hin. }
    assert (Hname : map name (map (info_of P (host st) k) names) = names).
    { rewrite map_map. simpl. apply map_id. }
    exists (map (info_of P (host st) k) names). split; [|split; [|split]].
    + intros depth. unfold list_files, bind.
      rewrite (HP' st eq_refl eq_refl), TmuxCommand.on_host_exists, Hex. simpl.
      unfold on_host, zoom, Host.iterdir. rewrite L, E. simpl.
      replace (set_host (host st) st) with st by (by destruct st).
      exact (list_items_children _ _ _ _ _ [] L E Hall).
    + rewrite Hname. apply NoDup_listdir.
    + intros n. rewrite Hname. apply elem_of_listdir.
    + apply Forall_forall. intros fi Hin.
      apply list_elem_of_fmap in Hin as (n & -> & Hin).
      apply elem_of_listdir in Hin as [nd En]. simpl. rewrite En.
      by destruct nd.
  - intros depth. unfold list_files, bind.
    rewrite (HP' st eq_refl eq_refl), TmuxCommand.on_host_exists, Hex. simpl.
    unfold on_host, zoom, Host.iterdir. rewrite L, E. simpl. by destruct st.
Qed.

End WithCalendar.

(** The workspace of the demo sandbox with the file [f] in it. *)
Lemma list_files_lists_the_entries_witness :
  exists files,
    (forall depth, @list_files epoch "sbx_1" "" depth TmuxDirectories.with_file
                   = (Ok files, TmuxDirectories.with_file))
    /\ "f" ∈ map name files.
Proof.
  destruct (@list_files_lists_the_entries epoch "sbx_1" "" TmuxDirectories.with_file
              {| PosixPath.root := 1; PosixPath.parts := ["ws"; "sbx_1"] |}
              ["ws"; "sbx_1"] (Host.Dir 493))
    as (files & H1 & _ & H3 & _); try (vm_compute; reflexivity).
  exists files. split; [exact H1|]. apply H3. vm_compute. by eexists.
Defined.

End TmuxListing.

(** ** Which translated paths stay in the workspace *)

Module TmuxContainment.
Import Tmux.

(** What [_get_full_path] joins to the workspace: the path without the
    ten characters of "/workspace", without its first slash, or as
    it is. *)
Definition tail_of (path : string) : string :=
  if Py.startswith path "/workspace" then Py.slice_from 10 path
  else if Py.startswith path "/" then Py.slice_from 1 path
  else path.

Lemma get_full_path_joins sandbox_id path st :
  exists ws,
    workspace_of sandbox_id st = (Ok ws, st)
    /\ _get_full_path sandbox_id path st
       = (Ok (PosixPath.joinpath (PosixPath.of_string ws) (tail_of path)), st).
Proof.
  unfold _get_full_path, tail_of, workspace_of. munfold.
  eexists. split; [reflexivity|].
  destruct (Py.startswith path "/workspace"); [done|].
  by destruct (Py.startswith path "/").
Qed.

Lemma root_of_relative s : Py.startswith s "/" = false -> PosixPath.root_of s = 0%nat.
Proof.
  unfold Py.startswith, PosixPath.root_of. destruct s as [|c s]; [done|].
  simpl. destruct (Ascii.eqb_spec "/"%char c) as [<-|Hne].
  - simpl. by destruct s.
  - intros _. destruct c as [[] [] [] [] [] [] [] []]; try done.
Qed.

(** A relative right operand is appended to the left one. *)
Lemma joinpath_relative p s :
  Py.startswith s "/" = false ->
  PosixPath.joinpath p s
  = PosixPath.mk (PosixPath.root p)
      (PosixPath.parts p ++ PosixPath.parts (PosixPath.of_string s)).
Proof.
  intros H. unfold PosixPath.joinpath.
  change (PosixPath.root (PosixPath.of_string s)) with (PosixPath.root_of s).
  by rewrite (root_of_relative _ H).
Qed.

(** Without ".." a path leads below where it starts. *)
Lemma walk_no_dotdot f cur ps k :
  HostFacts.no_dotdot ps -> Host.walk f cur ps = inr k -> k = cur ++ ps.
Proof.
  revert cur. induction ps as [|c ps IH]; intros cur Hn; simpl.
  - intros [= <-]. by rewrite app_nil_r.
  - destruct (f !! cur) as [[m|m d]|]; try done.
    apply Forall_cons in Hn as [Hc Hn]. apply String.eqb_neq in Hc. rewrite Hc.
    intros Hw. rewrite (IH _ Hn Hw). by rewrite <- app_assoc.
Qed.

(** X7. Path translation of the terminal backend. Let the tail of a
    path be the path without its first ten characters if it starts
    with "/workspace", else without its first character if it starts
    with a slash, else the path itself. When the tail does not start
    with a slash, the translated path is the workspace path extended
    by the components of the tail: it is relative to the workspace,
    and when the tail has no ".." component, wherever the translated
    path leads on a host, the workspace path leads to a place of
    which that is an extension by the components of the tail. *)
Theorem get_full_path_stays_in_workspace sandbox_id target st :
  Py.startswith (tail_of target) "/" = false ->
  exists ws,
    workspace_of sandbox_id st = (Ok ws, st)
    /\ let W := PosixPath.of_string ws in
       let rest := PosixPath.parts (PosixPath.of_string (tail_of target)) in
       let P := PosixPath.mk (PosixPath.root W) (PosixPath.parts W ++ rest) in
       _get_full_path sandbox_id target st = (Ok P, st)
       /\ PosixPath.is_relative_to P W = true
       /\ (HostFacts.no_dotdot rest ->
           forall h k, Host.locate P h = inr k ->
             exists kw, Host.locate W h = inr kw /\ k = kw ++ rest).
Proof.
  intros Ht. destruct (get_full_path_joins sandbox_id target st) as (ws & Hw & HP).
  exists ws. split; [exact Hw|]. intros W rest P.
  rewrite (joinpath_relative _ _ Ht) in HP. split; [exact HP|]. split.
  - unfold PosixPath.is_relative_to, P. simpl.
    rewrite bool_decide_eq_true_2 by done.
    by rewrite take_app_length, bool_decide_eq_true_2.
  - intros Hn h k. unfold Host.locate, P. cbn [PosixPath.root PosixPath.parts].
    rewrite HostFacts.walk_app.
    destruct (Host.walk (Host.fs h) _ (PosixPath.parts W)) as [e|kw]; [done|].
    intros Hk. exists kw. split; [done|]. by apply (walk_no_dotdot _ _ _ _ Hn Hk).
Qed.

Lemma get_full_path_stays_in_workspace_witness :
  _get_full_path "sbx_1" "/a/b" Demo.tmux
  = (Ok (PosixPath.mk 1 ["ws"; "sbx_1"; "a"; "b"]), Demo.tmux).
Proof.
  destruct (get_full_path_stays_in_workspace "sbx_1" "/a/b" Demo.tmux eq_refl)
    as (ws & Hw & HP & _).
  injection Hw as <-. exact HP.
Defined.

End TmuxContainment.

(** ** How long a command of the terminal backend takes *)

Module TmuxCommandTime.
Import Tmux TmuxCommand.

Section WithCodec.
Context {codec : TextCodec}.





End WithCodec.


End TmuxCommandTime.

(** ** What killing a sandbox of the terminal backend cleans up *)

Module TmuxKill.
Import Tmux TmuxEntries.

(** Resolution in a part of the tree leads where it leads in the
    whole tree. *)
Lemma walk_submap (f f' : gmap (list string) Host.node) cur comps k :
  f' ⊆ f -> Host.walk f' cur comps = inr k -> Host.walk f cur comps = inr k.
Proof.
  intros Hsub. revert cur. induction comps as [|c rest IH]; intros cur; simpl; [done|].
  destruct (f' !! cur) as [[m|m d]|] eqn:E; try done.
  rewrite (lookup_weaken _ _ _ _ E Hsub). apply IH.
Qed.

(** What does not exist does not come to exist by removing entries. *)
Lemma exists_submap p h h' :
  Host.fs h' ⊆ Host.fs h -> Host.cwd h' = Host.cwd h ->
  Host.exists_ p h = (Ok false, h) -> Host.exists_ p h' = (Ok false, h').
Proof.
  intros Hsub Hc. unfold Host.exists_, gets. intros [= H]. f_equal. f_equal.
  unfold Host.locate in *. rewrite Hc.
  destruct (Host.walk (Host.fs h') _ _) as [e|k] eqn:W; [done|].
  rewrite (walk_submap _ _ _ _ _ Hsub W) in H.
  apply bool_decide_eq_false in H. apply bool_decide_eq_false.
  intros [n E]. apply H. exists n. by apply (lookup_weaken _ _ _ _ E Hsub).
Qed.

Lemma kill_session_ok sandbox_id st :
  exists r srv,
    _run_tmux ["kill-session"; "-t"; sandbox_id] false st = (Ok r, set_server srv st).
Proof.
  unfold _run_tmux. simpl.
  destruct (decide (sandbox_id ∈ sessions (server st))); simpl; eauto.
Qed.

(** The clean-up steps of [kill_sandbox] on the host: the workspace
    when configured, then the session info file. *)
Definition workspace_path (st : Tmux.t) (sandbox_id : string) : Path :=
  PosixPath.joinpath (PosixPath.of_string (workspace_dir (config st))) sandbox_id.

Definition info_path (st : Tmux.t) (sandbox_id : string) : Path :=
  PosixPath.joinpath (PosixPath.of_string (capture_dir (config st)))
    (sandbox_id +:+ ".json").

Lemma rmtree_if_exists p h :
  (exists e, (ex <- Host.exists_ p ;; if ex then Host.rmtree p else ret tt) h
             = (Raise (OSError e), h))
  \/ (exists h1,
        (ex <- Host.exists_ p ;; if ex then Host.rmtree p else ret tt) h = (Ok tt, h1)
        /\ Host.exists_ p h1 = (Ok false, h1)
        /\ Host.cwd h1 = Host.cwd h /\ Host.fs h1 ⊆ Host.fs h).
Proof.
  unfold bind. destruct (Host.exists_ p h) as [r h0] eqn:Ex.
  unfold Host.exists_, gets in Ex. injection Ex as <- <-.
  destruct (Host.locate p h) as [e|k] eqn:L.
  - right. exists h. unfold ret, Host.exists_, gets. by rewrite L.
  - case_bool_decide as Hs.
    + unfold Host.rmtree. rewrite L. destruct Hs as [n Hn]. rewrite Hn.
      destruct n as [m|m d]; [|left; eauto].
      right. eexists. split; [reflexivity|]. split; [|split; [done|]].
      * apply (TmuxRemoval.exists_after_removal p h _ k); [done|exact L|].
        simpl. apply map_lookup_filter_None. right. intros n _. simpl.
        rewrite TmuxRemoval.below_refl. simpl. by intros [].
      * simpl. apply map_filter_subseteq.
    + right. exists h. unfold ret, Host.exists_, gets. rewrite L.
      by rewrite bool_decide_eq_false_2.
Qed.

Lemma unlink_if_exists p h :
  (exists e, (ex <- Host.exists_ p ;; if ex then Host.unlink p else ret tt) h
             = (Raise (OSError e), h))
  \/ (exists h1,
        (ex <- Host.exists_ p ;; if ex then Host.unlink p else ret tt) h = (Ok tt, h1)
        /\ Host.exists_ p h1 = (Ok false, h1)
        /\ Host.cwd h1 = Host.cwd h /\ Host.fs h1 ⊆ Host.fs h
        /\ forall k, Host.locate p h <> inr k -> Host.fs h1 !! k = Host.fs h !! k).
Proof.
  unfold bind. destruct (Host.exists_ p h) as [r h0] eqn:Ex.
  unfold Host.exists_, gets in Ex. injection Ex as <- <-.
  destruct (Host.locate p h) as [e|k] eqn:L.
  - right. exists h. unfold ret, Host.exists_, gets. by rewrite L.
  - case_bool_decide as Hs.
    + unfold Host.unlink. rewrite L. destruct Hs as [n Hn]. rewrite Hn.
      destruct n as [m|m d]; [left; eauto|].
      right. eexists. split; [reflexivity|]. split; [|split; [done|split]].
      * apply (TmuxRemoval.exists_after_removal p h _ k); [done|exact L|].
        simpl. apply lookup_delete_eq.
      * simpl. apply delete_subseteq.
      * intros k' Hk'. simpl. apply lookup_delete_ne. congruence.
    + right. exists h. unfold ret, Host.exists_, gets. rewrite L.
      by rewrite bool_decide_eq_false_2.
Qed.

Lemma on_host_if_exists p (rm : M Host.t unit) st :
  (ex <- on_host (Host.exists_ p) ;; if ex then on_host rm else ret tt) st
  = on_host (ex <- Host.exists_ p ;; if ex then rm else ret tt) st.
Proof.
  unfold bind, on_host, zoom, Host.exists_, gets, ret. simpl.
  match goal with |- context [if ?b then _ else _] => destruct b end; [|done].
  simpl. by destruct (rm (host st)).
Qed.

Lemma bind_assoc {S A B C} (m : M S A) (k : A -> M S B) (k' : B -> M S C) s :
  bind (bind m k) k' s = bind m (fun a => bind (k a) k') s.
Proof. unfold bind. by destruct (m s) as [[a|e] s1]. Qed.

(** The two clean-up steps of [kill_sandbox]. *)
Lemma workspace_step sandbox_id st :
  let step :=
    (if default false (cleanup_workspace (config st))
     then
       workspace <- gets (fun st0 : Tmux.t =>
         PosixPath.joinpath (PosixPath.of_string (workspace_dir (config st0))) sandbox_id) ;;
       ex <- on_host (Host.exists_ workspace) ;;
       (if ex then on_host (Host.rmtree workspace) else ret tt)
     else ret tt) : M Tmux.t unit in
  (exists e, step st = (Raise (OSError e), st))
  \/ (exists h1,
        step st = (Ok tt, set_host h1 st)
        /\ Host.cwd h1 = Host.cwd (host st) /\ Host.fs h1 ⊆ Host.fs (host st)
        /\ (cleanup_workspace (config st) = Some true ->
            Host.exists_ (workspace_path st sandbox_id) h1 = (Ok false, h1))
        /\ (default false (cleanup_workspace (config st)) = false -> h1 = host st)).
Proof.
  intros step. destruct (step st) as [r st'] eqn:R. subst step.
  destruct (default false (cleanup_workspace (config st))) eqn:Hcl.
  - unfold bind at 1 in R. unfold gets at 1 in R.
    rewrite on_host_if_exists in R. fold (workspace_path st sandbox_id) in R.
    unfold on_host, zoom in R.
    destruct (rmtree_if_exists (workspace_path st sandbox_id) (host st))
      as [[e He]|(h1 & He & Hex & Hc & Hsub)]; rewrite He in R; injection R as <- <-.
    + left. exists e. by destruct st.
    + right. exists h1. split; [reflexivity|]. split; [done|]. split; [done|].
      split; [done|]. intros H. congruence.
  - injection R as <- <-. right. exists (host st). repeat split; try done.
    + by destruct st.
    + intros H. by rewrite H in Hcl.
Qed.

Lemma info_step sandbox_id st :
  let step :=
    (ex <- on_host (Host.exists_ (info_path st sandbox_id)) ;;
     (if ex then on_host (Host.unlink (info_path st sandbox_id)) else ret tt))
    : M Tmux.t unit in
  (exists e, step st = (Raise (OSError e), st))
  \/ (exists h1,
        step st = (Ok tt, set_host h1 st)
        /\ Host.exists_ (info_path st sandbox_id) h1 = (Ok false, h1)
        /\ Host.cwd h1 = Host.cwd (host st) /\ Host.fs h1 ⊆ Host.fs (host st)
        /\ forall k, Host.locate (info_path st sandbox_id) (host st) <> inr k ->
                     Host.fs h1 !! k = Host.fs (host st) !! k).
Proof.
  intros step. destruct (step st) as [r st'] eqn:R. subst step.
  rewrite on_host_if_exists in R. unfold on_host, zoom in R.
  destruct (unlink_if_exists (info_path st sandbox_id) (host st))
    as [[e He]|(h1 & He & Hex & Hc & Hsub & Hfr)]; rewrite He in R; injection R as <- <-.
  - left. exists e. by destruct st.
  - right. exists h1. repeat split; try done.
Qed.

(** X9. [kill_sandbox] of the terminal backend never raises: it
    returns a boolean in every state. When it returns [True], the
    sandbox is no longer in the [_sessions] cache, its session info
    file does not exist, and with [cleanup_workspace] set to true its
    workspace directory does not exist. When [cleanup_workspace] is
    absent or false, every entry of the host's tree other than the
    session info file is as before, whatever is returned. *)
Theorem kill_sandbox_cleans_up sandbox_id st :
  exists b st1,
    kill_sandbox sandbox_id st = (Ok b, st1)
    /\ (b = true ->
        _sessions st1 !! sandbox_id = None
        /\ Host.exists_ (info_path st sandbox_id) (host st1) = (Ok false, host st1)
        /\ (cleanup_workspace (config st) = Some true ->
            Host.exists_ (workspace_path st sandbox_id) (host st1) = (Ok false, host st1)))
    /\ (default false (cleanup_workspace (config st)) = false ->
        forall k, Host.locate (info_path st sandbox_id) (host st) <> inr k ->
                  Host.fs (host st1) !! k = Host.fs (host st) !! k).
Proof.
  destruct (kill_session_ok sandbox_id st) as (r0 & srv & E0).
  unfold kill_sandbox, try_except. unfold bind at 1. rewrite E0.
  unfold bind at 1. unfold gets at 1. cbn [config set_server].
  set (st0 := set_server srv st).
  unfold bind at 1.
  destruct (workspace_step sandbox_id st0) as [[e Hw]|(h1 & Hw & Hc1 & Hsub1 & Hws & Hsame)];
    cbv zeta in Hw; change (config st0) with (config st) in Hw; rewrite Hw.
  { exists false, st0. simpl. split; [done|]. split; [done|]. done. }
  set (st1 := set_host h1 st0).
  unfold bind at 1. unfold _get_session_info_path at 1, gets at 1.
  change (PosixPath.joinpath (PosixPath.of_string (capture_dir (config st1)))
            (sandbox_id +:+ ".json")) with (info_path st1 sandbox_id).
  rewrite <- (bind_assoc (on_host (Host.exists_ (info_path st1 sandbox_id)))
                (fun ex : bool => if ex then on_host (Host.unlink (info_path st1 sandbox_id))
                                  else ret tt)
                (fun _ => modify (fun st3 : Tmux.t =>
                            set_sessions (delete sandbox_id (_sessions st3)) st3) ;;;
                          ret true)).
  unfold bind at 1.
  destruct (info_step sandbox_id st1) as [[e Hi]|(h2 & Hi & Hex2 & Hc2 & Hsub2 & Hfr2)];
    cbv zeta in Hi; rewrite Hi.
  { exists false, st1. simpl. split; [done|]. split; [done|].
    intros Hcl k _. by rewrite (Hsame Hcl). }
  unfold bind, modify, ret. eexists true, _. split; [reflexivity|].
  cbn [host set_host set_sessions _sessions]. split.
  - intros _. split; [apply lookup_delete_eq|]. split; [exact Hex2|].
    intros Hcl. apply (exists_submap _ h1); [exact Hsub2|exact Hc2|by apply Hws].
  - intros Hcl k Hk. pose proof (Hsame Hcl) as Hh. rewrite Hfr2.
    + change (host st1) with h1. by rewrite Hh.
    + change (host st1) with h1. by rewrite Hh.
Qed.

End TmuxKill.

(** ** Pausing and resuming a container *)

Module OrbStackPause.
Import OrbStack OrbStackLifecycle.

(** The backend once the runtime reports the container [c], named
    [sandbox_id], with status [s]. *)
Definition with_status (sandbox_id s : string) (c : Docker.container)
    (st : OrbStack.t) : OrbStack.t :=
  set_daemon
    (Docker.set_containers
       (<[sandbox_id := Docker.set_status s c]> (Docker.containers (daemon st)))
       (daemon st)) st.

(** [_get_container] either returns an object that addresses the
    container named by the id, or the id is unknown. *)
Lemma _get_container_cases sandbox_id st :
  consistent st ->
  (exists h, _get_container sandbox_id st = (Ok h, st) /\ Docker.h_name h = sandbox_id)
  \/ (_get_container sandbox_id st = (Raise (container_not_found sandbox_id), st)
      /\ unknown sandbox_id st).
Proof.
  intros Hc. destruct (_get_container sandbox_id st) as [r st'] eqn:E.
  destruct (_get_container_spec _ _ _ _ Hc E) as [-> H].
  destruct r as [h|e]; [left; eauto|]. destruct H as [-> H]. by right.
Qed.

(** A change of status the runtime allows from one status only, as
    [pause] and [unpause] are. *)
Definition transition (from to why : string) (h : Docker.handle) : M Docker.t unit :=
  fun d => match Docker.containers d !! Docker.h_name h with
           | Some c =>
               if String.eqb (Docker.a_status (Docker.c_attrs c)) from
               then (Ok tt, Docker.set_containers
                              (<[Docker.h_name h := Docker.set_status to c]>
                                 (Docker.containers d)) d)
               else (Raise (Docker.conflict why), d)
           | None => (Raise (Docker.not_found ("No such container: " +:+ Docker.h_name h)), d)
           end.

(** A method that resolves the container, asks for the change and
    answers [True], or [False] on any exception. *)
Lemma guarded_transition from to why sandbox_id st :
  consistent st ->
  try_except
    (container <- _get_container sandbox_id ;;
     on_daemon (transition from to why container) ;;;
     ret true)
    any_exception (fun _ => ret false) st
  = match Docker.containers (daemon st) !! sandbox_id with
    | Some c =>
        if String.eqb (Docker.a_status (Docker.c_attrs c)) from
        then (Ok true, with_status sandbox_id to c st)
        else (Ok false, st)
    | None => (Ok false, st)
    end.
Proof.
  intros Hc. unfold try_except, bind.
  destruct (_get_container_cases sandbox_id st Hc) as [(h & -> & Hn)|[-> [_ Hu]]].
  - unfold on_daemon, zoom, transition. rewrite Hn.
    destruct (Docker.containers (daemon st) !! sandbox_id) as [c|]; simpl.
    + destruct (String.eqb _ from); simpl; [done|]. unfold ret. by rewrite set_daemon_same.
    + unfold ret. by rewrite set_daemon_same.
  - rewrite Hu. done.
Qed.

(** X10. [pause_sandbox] and [resume_sandbox] of the container
    backend never raise. [pause_sandbox] returns [True] exactly when
    the runtime has a container of that name and it is running; then
    the only change is that the container is paused; in every other
    case it returns [False] and changes nothing. [resume_sandbox]
    does the same from paused to running. (The cached objects address
    the containers they are cached under.) *)
Theorem pause_and_resume_answer sandbox_id st :
  consistent st ->
  pause_sandbox sandbox_id st
  = match Docker.containers (daemon st) !! sandbox_id with
    | Some c =>
        if String.eqb (Docker.a_status (Docker.c_attrs c)) "running"
        then (Ok true, with_status sandbox_id "paused" c st)
        else (Ok false, st)
    | None => (Ok false, st)
    end
  /\ resume_sandbox sandbox_id st
     = match Docker.containers (daemon st) !! sandbox_id with
       | Some c =>
           if String.eqb (Docker.a_status (Docker.c_attrs c)) "paused"
           then (Ok true, with_status sandbox_id "running" c st)
           else (Ok false, st)
       | None => (Ok false, st)
       end.
Proof.
  intros Hc. split.
  - exact (guarded_transition "running" "paused" "container is not running" _ _ Hc).
  - exact (guarded_transition "paused" "running" "container is not paused" _ _ Hc).
Qed.

Lemma demo_consistent : consistent Demo.orbstack.
Proof.
  intros sid e. unfold Demo.orbstack. simpl.
  intros [<- <-]%lookup_singleton_Some. reflexivity.
Qed.

(** Resolving and reloading a container the runtime has: the object
    carries the attributes the runtime reports, and only the cache
    may have changed. *)
Lemma resolved_reload sandbox_id st c :
  consistent st ->
  Docker.containers (daemon st) !! sandbox_id = Some c ->
  exists h0 st2,
    _get_container sandbox_id st = (Ok h0, st)
    /\ Docker.h_name h0 = sandbox_id
    /\ reload sandbox_id h0 st
       = (Ok {| Docker.h_name := sandbox_id; Docker.h_attrs := Docker.c_attrs c |}, st2)
    /\ daemon st2 = daemon st /\ host st2 = host st /\ config st2 = config st.
Proof.
  intros Hc Hd.
  destruct (_get_container_cases sandbox_id st Hc) as [(h & E & Hn)|[_ [_ Hu]]];
    [|congruence].
  exists h. unfold reload, on_daemon, zoom, Docker.reload, Docker.get. munfold.
  rewrite Hn, Hd. simpl.
  eexists. split; [exact E|]. split; [reflexivity|]. split; [reflexivity|].
  by destruct (_active_containers st !! sandbox_id).
Qed.

Lemma with_status_consistent sandbox_id s c st :
  consistent st -> consistent (with_status sandbox_id s c st).
Proof. intros Hc sid e. simpl. apply Hc. Qed.

Lemma with_status_back sandbox_id c st :
  Docker.containers (daemon st) !! sandbox_id = Some c ->
  Docker.a_status (Docker.c_attrs c) = "running" ->
  with_status sandbox_id "running" (Docker.set_status "paused" c)
    (with_status sandbox_id "paused" c st) = st.
Proof.
  intros Hd Hs. unfold with_status. destruct st as [cfg act h [cs ex]]. simpl in *.
  unfold Docker.set_containers. simpl. rewrite insert_insert_eq.
  assert (Hc : Docker.set_status "running" (Docker.set_status "paused" c) = c).
  { destruct c as [[s l cr] f]. simpl in *. by subst s. }
  rewrite Hc, insert_id by done. done.
Qed.

Section WithCodec.
Context {utf8 : TextCodec}.

(** X11. On the container backend, pausing a running sandbox
    returns [True]; then [is_sandbox_running] returns [False],
    [get_sandbox_info] reports the status [PAUSED], [run_command]
    raises [CommandExecutionError] and changes nothing, and
    [resume_sandbox] returns [True] and leaves the backend and the
    runtime exactly as they were before the pause. *)
Theorem paused_sandbox_is_not_running sandbox_id st c :
  consistent st ->
  Docker.containers (daemon st) !! sandbox_id = Some c ->
  Docker.a_status (Docker.c_attrs c) = "running" ->
  exists st1,
    pause_sandbox sandbox_id st = (Ok true, st1)
    /\ (exists st2, is_sandbox_running sandbox_id st1 = (Ok false, st2))
    /\ (exists info st2,
          get_sandbox_info sandbox_id st1 = (Ok info, st2) /\ status info = PAUSED)
    /\ (forall command cwd envs timeout shell, exists msg,
          run_command sandbox_id command cwd envs timeout shell st1
          = (Raise (CommandExecutionError msg), st1))
    /\ resume_sandbox sandbox_id st1 = (Ok true, st).
Proof.
  intros Hc Hd Hs.
  set (st1 := with_status sandbox_id "paused" c st).
  assert (Hc1 : consistent st1) by (by apply with_status_consistent).
  assert (Hd1 : Docker.containers (daemon st1) !! sandbox_id
                = Some (Docker.set_status "paused" c))
    by (simpl; apply lookup_insert_eq).
  exists st1. split; [|split; [|split; [|split]]].
  - unfold pause_sandbox.
    rewrite (guarded_transition "running" "paused" "container is not running" _ _ Hc).
    by rewrite Hd, Hs.
  - destruct (resolved_reload _ _ _ Hc1 Hd1) as (h0 & st2 & E1 & _ & E2 & _).
    exists st2. unfold is_sandbox_running, try_except, bind. by rewrite E1, E2.
  - destruct (resolved_reload _ _ _ Hc1 Hd1) as (h0 & st2 & E1 & _ & E2 & _).
    eexists _, st2. unfold get_sandbox_info, bind. rewrite E1, E2. done.
  - intros command cwd envs timeout shell.
    destruct (resolved_reload _ _ _ Hc1 Hd1) as (h0 & st2 & E1 & Hn & _).
    unfold run_command, bind at 1. rewrite E1.
    unfold try_except, bind, on_daemon, zoom, Docker.exec_run. rewrite Hn, Hd1.
    simpl. eexists. reflexivity.
  - unfold resume_sandbox.
    rewrite (guarded_transition "paused" "running" "container is not paused" _ _ Hc1).
    rewrite Hd1. simpl. f_equal. by apply with_status_back.
Qed.

End WithCodec.

Lemma pause_and_resume_answer_witness :
  resume_sandbox "sbx_1" Demo.orbstack = (Ok false, Demo.orbstack).
Proof.
  pose proof (proj2 (pause_and_resume_answer "sbx_1" Demo.orbstack demo_consistent)) as H.
  vm_compute in H |- *. exact H.
Defined.

(** The demo sandbox runs. *)
Lemma paused_sandbox_is_not_running_witness :
  exists st1,
    pause_sandbox "sbx_1" Demo.orbstack = (Ok true, st1)
    /\ resume_sandbox "sbx_1" st1 = (Ok true, Demo.orbstack).
Proof.
  destruct (@paused_sandbox_is_not_running AsciiCodec.codec "sbx_1" Demo.orbstack
              {| Docker.c_attrs := Demo.running;
                 Docker.c_fs := {[ [] := Host.Dir 493; ["workspace"] := Host.Dir 493 ]} |}
              demo_consistent eq_refl eq_refl)
    as (st1 & H1 & _ & _ & _ & H2).
  exists st1. split; [exact H1|exact H2].
Defined.

End OrbStackPause.

(** ** What the container backend reports of a sandbox *)

Module OrbStackInfo.
Import OrbStack OrbStackLifecycle OrbStackPause.

Lemma _map_status_running s : _map_status s = RUNNING <-> s = "running".
Proof.
  unfold _map_status. destruct (String.eqb_spec s "running") as [->|Hne].
  - done.
  - split; [|done]. repeat (destruct (String.eqb s _); try done).
Qed.

(** *** The metadata read back from the labels *)

Definition meta_prefix : string := LABEL_PREFIX +:+ ".meta.".

Lemma prefix_app pre k : String.prefix pre (pre +:+ k) = true.
Proof.
  induction pre as [|a pre IH]; [by destruct k|].
  rewrite Capture.app_cons. simpl. by destruct (ascii_dec a a).
Qed.

Lemma slice_from_app pre k : Py.slice_from (String.length pre) (pre +:+ k) = k.
Proof. induction pre as [|a pre IH]; [done|]. rewrite Capture.app_cons. exact IH. Qed.

Lemma metadata_of_lookup labels k :
  metadata_of labels !! k = labels !! (meta_prefix +:+ k).
Proof.
  unfold metadata_of. fold meta_prefix.
  set (f := fun kv : string * string =>
              if Py.startswith kv.1 meta_prefix
              then Some (Py.slice_from (String.length meta_prefix) kv.1, kv.2) else None).
  assert (Hf : forall k1 v1 k2 v2, f (k1, v1) = Some (k2, v2) <->
                                   k1 = meta_prefix +:+ k2 /\ v1 = v2).
  { intros k1 v1 k2 v2. unfold f, Py.startswith. cbn [fst snd]. split.
    - destruct (String.prefix meta_prefix k1) eqn:P; [|done].
      intros [= <- <-]. split; [|done]. by apply Capture.prefix_slice.
    - intros [-> ->]. by rewrite prefix_app, slice_from_app. }
  assert (Hnd : NoDup (omap f (map_to_list labels)).*1).
  { pose proof (NoDup_fst_map_to_list labels) as Hl.
    induction (map_to_list labels) as [|[k1 v1] l IH]; simpl; [constructor|].
    apply NoDup_cons in Hl as [Hnotin Hl]. specialize (IH Hl).
    destruct (f (k1, v1)) as [[k2 v2]|] eqn:E; [|done].
    simpl. apply NoDup_cons. split; [|done].
    rewrite list_elem_of_fmap. intros ([k3 v3] & Hk & Hin). simpl in Hk. subst k3.
    apply list_elem_of_omap in Hin as ([k4 v4] & Hin & E4).
    apply Hf in E as [-> _]. apply Hf in E4 as [-> _].
    apply Hnotin. apply list_elem_of_fmap. by exists (meta_prefix +:+ k2, v4). }
  apply option_eq. intros v.
  rewrite <- (elem_of_list_to_map _ _ _ Hnd), list_elem_of_omap. split.
  - intros ([k1 v1] & Hin & E). apply Hf in E as [-> ->].
    by apply elem_of_map_to_list.
  - intros E. exists (meta_prefix +:+ k, v). split; [by apply elem_of_map_to_list|].
    by apply Hf.
Qed.

Section WithCodec.
Context {utf8 : TextCodec}.

(** X12. On the container backend, for a sandbox the runtime has a
    container for: [get_sandbox_info] returns, and
    [is_sandbox_running] returns [True] exactly when the status it
    reports is [RUNNING], that is when the runtime's status is
    "running"; both leave the same state. The metadata reported
    under a key is the container's label "agent-sandbox.meta." + key
    (no other label shows up), the template is the label
    "agent-sandbox.template", and [created_at] is the label
    "agent-sandbox.created_at" or, without it, the creation time the
    runtime reports. The cache stays consistent. *)
Theorem get_sandbox_info_reads_the_runtime sandbox_id st c :
  consistent st ->
  Docker.containers (daemon st) !! sandbox_id = Some c ->
  let labels := Docker.a_labels (Docker.c_attrs c) in
  exists info st1,
    get_sandbox_info sandbox_id st = (Ok info, st1)
    /\ is_sandbox_running sandbox_id st
       = (Ok (String.eqb (Docker.a_status (Docker.c_attrs c)) "running"), st1)
    /\ (status info = RUNNING <-> Docker.a_status (Docker.c_attrs c) = "running")
    /\ (forall k, metadata info !! k = labels !! ("agent-sandbox.meta." +:+ k))
    /\ template info = labels !! "agent-sandbox.template"
    /\ created_at info
       = default (Docker.a_created (Docker.c_attrs c)) (labels !! "agent-sandbox.created_at")
    /\ consistent st1.
Proof.
  intros Hc Hd labels.
  destruct (resolved_reload _ _ _ Hc Hd) as (h0 & st1 & E1 & Hn & E2 & Hd1 & _).
  eexists _, st1. split; [|split; [|split; [|split; [|split; [|split]]]]].
  - unfold get_sandbox_info, bind. rewrite E1, E2. reflexivity.
  - unfold is_sandbox_running, try_except, bind. by rewrite E1, E2.
  - simpl. apply _map_status_running.
  - intros k. simpl. apply metadata_of_lookup.
  - done.
  - done.
  - pose proof (OrbStackInvariant.reload_consistent sandbox_id h0 Hn _ _ _ Hc E2) as [H _].
    exact H.
Qed.

End WithCodec.

Lemma get_sandbox_info_reads_the_runtime_witness :
  exists info st1,
    get_sandbox_info "sbx_1" Demo.orbstack = (Ok info, st1)
    /\ is_sandbox_running "sbx_1" Demo.orbstack = (Ok true, st1).
Proof.
  destruct (get_sandbox_info_reads_the_runtime "sbx_1" Demo.orbstack
              {| Docker.c_attrs := Demo.running;
                 Docker.c_fs := {[ [] := Host.Dir 493; ["workspace"] := Host.Dir 493 ]} |}
              demo_consistent eq_refl)
    as (info & st1 & H1 & H2 & _).
  exists info, st1. split; [exact H1|exact H2].
Defined.

End OrbStackInfo.

(** ** Connecting to a container *)

Module OrbStackConnect.
Import OrbStack OrbStackLifecycle OrbStackPause.

Lemma insert_consistent sandbox_id e st :
  consistent st -> Docker.h_name (e_container e) = sandbox_id ->
  consistent (set_active (<[sandbox_id := e]> (_active_containers st)) st).
Proof.
  intros Hc Hn sid e'. simpl. destruct (decide (sandbox_id = sid)) as [<-|Hne].
  - rewrite lookup_insert_eq. by intros [= <-].
  - rewrite lookup_insert_ne by done. apply Hc.
Qed.

Lemma set_daemon_consistent d st : consistent st -> consistent (set_daemon d st).
Proof. intros Hc sid e. simpl. apply Hc. Qed.

Section WithCodec.
Context {utf8 : TextCodec}.

(** X13. [connect_sandbox] of the container backend. For a name the
    runtime has no container for it raises [SandboxNotFoundError]
    and changes nothing (also when the name is cached). For a
    container that is running it returns [True] and leaves the
    runtime as it is. Whenever it returns [True], the cache holds,
    under the id, an object that addresses the container of that
    name with the attributes read before any start, marked as
    reconnected; the cache is consistent; and [is_sandbox_running]
    returns [True]. *)
Theorem connect_sandbox_caches_the_container sandbox_id st :
  consistent st ->
  match Docker.containers (daemon st) !! sandbox_id with
  | None => connect_sandbox sandbox_id st = (Raise (container_not_found sandbox_id), st)
  | Some c =>
      exists r st1,
        connect_sandbox sandbox_id st = (r, st1)
        /\ (Docker.a_status (Docker.c_attrs c) = "running" ->
            r = Ok true /\ daemon st1 = daemon st)
        /\ (r = Ok true ->
            consistent st1
            /\ (exists e,
                  _active_containers st1 !! sandbox_id = Some e
                  /\ e_container e
                     = {| Docker.h_name := sandbox_id; Docker.h_attrs := Docker.c_attrs c |}
                  /\ e_reconnected e = true)
            /\ exists st2, is_sandbox_running sandbox_id st1 = (Ok true, st2))
  end.
Proof.
  intros Hc. destruct (Docker.containers (daemon st) !! sandbox_id) as [c|] eqn:Hd.
  - unfold connect_sandbox, try_except. unfold bind at 1.
    unfold on_daemon at 1, zoom, Docker.get. rewrite Hd. cbn [Docker.h_attrs].
    rewrite set_daemon_same.
    set (h := {| Docker.h_name := sandbox_id; Docker.h_attrs := Docker.c_attrs c |}).
    assert (Hafter : forall d c',
      Docker.containers d !! sandbox_id = Some c' ->
      Docker.a_status (Docker.c_attrs c') = "running" ->
      let st0 := set_daemon d st in
      let st1 := set_active
                   (<[sandbox_id :=
                        {| e_container := h;
                           e_workspace :=
                             PosixPath.joinpath
                               (PosixPath.of_string (workspace_dir (config st0))) sandbox_id;
                           e_template :=
                             Some (default "base"
                                     (Docker.a_labels (Docker.c_attrs c)
                                        !! (LABEL_PREFIX +:+ ".template")));
                           e_reconnected := true |}]> (_active_containers st0)) st0 in
      consistent st1
      /\ (exists e, _active_containers st1 !! sandbox_id = Some e
                    /\ e_container e = h /\ e_reconnected e = true)
      /\ exists st2, is_sandbox_running sandbox_id st1 = (Ok true, st2)).
    { intros d c' Hd' Hs' st0 st1.
      assert (Hc1 : consistent st1)
        by (apply insert_consistent; [by apply set_daemon_consistent|done]).
      split; [exact Hc1|]. split.
      - eexists. split; [apply lookup_insert_eq|]. done.
      - destruct (resolved_reload sandbox_id st1 c' Hc1 Hd') as (h0 & st2 & E1 & _ & E2 & _).
        exists st2. unfold is_sandbox_running, try_except, bind. rewrite E1, E2.
        cbn [Docker.h_attrs]. by rewrite Hs'. }
    destruct (String.eqb_spec (Docker.a_status (Docker.c_attrs c)) "running") as [Hs|Hs].
    + cbn [negb]. unfold bind, ret, modify. eexists _, _. split; [reflexivity|].
      split; [done|]. intros _.
      pose proof (Hafter (daemon st) c Hd Hs) as H. cbv zeta in H.
      rewrite set_daemon_same in H. exact H.
    + cbn [negb]. unfold bind at 1. unfold on_daemon at 1, zoom, Docker.start.
      cbn [Docker.h_name h]. rewrite Hd.
      apply String.eqb_neq in Hs. rewrite Hs.
      destruct (String.eqb _ "created" || String.eqb _ "exited").
      * unfold bind, ret, modify. eexists _, _. split; [reflexivity|].
        split; [intros H; apply String.eqb_neq in Hs; done|]. intros _.
        refine (Hafter _ (Docker.set_status "running" c) _ _); [|done].
        simpl. apply lookup_insert_eq.
      * simpl. eexists _, _. split; [reflexivity|].
        split; [intros H; apply String.eqb_neq in Hs; done|]. done.
  - unfold connect_sandbox, try_except, bind, on_daemon, zoom, Docker.get.
    rewrite Hd. simpl. unfold raise. by rewrite set_daemon_same.
Qed.

End WithCodec.

Lemma connect_sandbox_caches_the_container_witness :
  exists st1, connect_sandbox "sbx_1" Demo.orbstack = (Ok true, st1).
Proof.
  destruct (connect_sandbox_caches_the_container "sbx_1" Demo.orbstack demo_consistent)
    as (r & st1 & E & Hr & _).
  destruct (Hr eq_refl) as [-> _]. by exists st1.
Defined.

End OrbStackConnect.

(** ** The registry of backend classes *)

Module FactoryRegistry.
Import Factory.

Section WithClasses.
Context {Cfg Obj W : Type}.
Context (OrbStackBackend TmuxBackend : @backend_class Cfg Obj W).

Local Abbreviation state := (@Factory.t Cfg Obj W).
Local Abbreviation class := (@backend_class Cfg Obj W).
Local Abbreviation create_backend := (create_backend OrbStackBackend TmuxBackend).
Local Abbreviation list_backends := (list_backends OrbStackBackend TmuxBackend).

Lemma dict_get_set k (v : class) d : dict_get k (dict_set k v d) = Some v.
Proof.
  induction d as [|[k' v'] d IH]; simpl.
  - by rewrite String.eqb_refl.
  - destruct (String.eqb k' k) eqn:E; simpl.
    + by rewrite String.eqb_refl.
    + by rewrite E.
Qed.

Lemma dict_get_set_ne k k' (v : class) d :
  k <> k' -> dict_get k' (dict_set k v d) = dict_get k' d.
Proof.
  intros Hne. induction d as [|[k0 v0] d IH]; simpl.
  - apply String.eqb_neq in Hne. by rewrite Hne.
  - destruct (String.eqb_spec k0 k) as [->|Hk]; simpl.
    + apply String.eqb_neq in Hne. by rewrite Hne.
    + destruct (String.eqb k0 k'); [done|exact IH].
Qed.

Lemma dict_set_keys k (v : class) d :
  map fst (dict_set k v d)
  = if bool_decide (k ∈ map fst d) then map fst d else map fst d ++ [k].
Proof.
  induction d as [|[k0 v0] d IH].
  - by rewrite bool_decide_eq_false_2 by apply not_elem_of_nil.
  - cbn [dict_set]. destruct (String.eqb_spec k0 k) as [->|Hk]; cbn [map fst].
    + by rewrite bool_decide_eq_true_2 by apply list_elem_of_here.
    + rewrite IH. destruct (decide (k ∈ map fst d)) as [Hin|Hin].
      * rewrite !bool_decide_eq_true_2; [done| |done]. by apply list_elem_of_further.
      * rewrite !bool_decide_eq_false_2; [done| |done].
        intros [->|H2]%elem_of_cons; done.
Qed.

Lemma dict_set_not_nil k (v : class) d : dict_set k v d <> [].
Proof. destruct d as [|[k0 v0] d]; simpl; [done|]. by destruct (String.eqb k0 k). Qed.

(** The registry after a registration. *)
Lemma register_backend_backends name (cls : class) (s : state) :
  _backends (register_backend name cls s).2 = dict_set (Py.lower name) cls (_backends s).
Proof. done. Qed.

(** X14. After [register_backend(name, cls)], [create_backend] with
    that name in any case (and [cache=False]) calls [cls]; the
    classes registered under other names are as before; and the
    names listed are the ones before, with the lower-cased name added
    at the end if it was not there (a name is never listed twice). *)
Theorem registered_class_is_constructed name (cls : class) other config (s : state) :
  Py.lower other = Py.lower name ->
  let s1 := (register_backend name cls s).2 in
  create_backend other config false s1 = construct cls config s1
  /\ (forall k cls', Py.lower name <> k ->
        dict_get k (_backends s1) = Some cls' <-> dict_get k (_backends s) = Some cls')
  /\ (map fst (_backends s1)
      = if bool_decide (Py.lower name ∈ map fst (_backends s))
        then map fst (_backends s) else map fst (_backends s) ++ [Py.lower name]).
Proof.
  intros Heq s1. split; [|split].
  - unfold Factory.create_backend. munfold. subst s1.
    rewrite register_backend_backends.
    assert (Hne : match dict_set (Py.lower name) cls (_backends s) with
                  | [] => true | _ => false end = false)
      by (destruct (dict_set (Py.lower name) cls (_backends s)) eqn:E;
          [by apply dict_set_not_nil in E|done]).
    rewrite Hne, Heq, register_backend_backends, dict_get_set.
    by destruct (construct cls config (register_backend name cls s).2) as [[i|e] s2].
  - intros k cls' Hne. subst s1. rewrite register_backend_backends.
    by rewrite dict_get_set_ne.
  - subst s1. rewrite register_backend_backends. apply dict_set_keys.
Qed.

End WithClasses.

Lemma registered_class_is_constructed_witness :
  create_backend FactoryCache.OrbStackClass FactoryCache.TmuxClass "Custom" "cfg" false
    (register_backend "CUSTOM" FactoryCache.TmuxClass FactoryCache.fresh).2
  = construct FactoryCache.TmuxClass "cfg"
      (register_backend "CUSTOM" FactoryCache.TmuxClass FactoryCache.fresh).2.
Proof.
  exact (proj1 (registered_class_is_constructed FactoryCache.OrbStackClass
                  FactoryCache.TmuxClass "CUSTOM" FactoryCache.TmuxClass "Custom" "cfg"
                  FactoryCache.fresh eq_refl)).
Defined.

End FactoryRegistry.

(** ** What creating a backend leaves *)

Module FactoryOutcome.
Import Factory.

Section WithClasses.
Context {Cfg Obj W : Type}.
Context (OrbStackBackend TmuxBackend : @backend_class Cfg Obj W).

Local Abbreviation state := (@Factory.t Cfg Obj W).
Local Abbreviation class := (@backend_class Cfg Obj W).
Local Abbreviation create_backend := (create_backend OrbStackBackend TmuxBackend).
Local Abbreviation list_backends := (list_backends OrbStackBackend TmuxBackend).

(** The registry [create_backend] and [list_backends] look a name up
    in: the two default classes when nothing is registered, else what
    is registered. *)
Definition registry (s : state) : list (string * class) :=
  match _backends s with
  | [] => [("orbstack", OrbStackBackend); ("tmux", TmuxBackend)]
  | d => d
  end.

(** The lazy registration of the defaults. *)
Lemma lazy_registration (s : state) :
  (if match _backends s with [] => true | _ => false end
   then _register_default_backends OrbStackBackend TmuxBackend
   else ret tt) s
  = (Ok tt, {| _backends := registry s; _instances := _instances s;
               objects := objects s; world := world s |}).
Proof.
  unfold registry. destruct s as [d i o w]. simpl. by destruct d.
Qed.

(** X15. What [create_backend] leaves. When it raises, the cache
    and the objects made so far are as before: a failure is not
    cached. When it returns an instance, either caching is on and
    the instance is the one cached under the lower-cased name, and
    nothing has changed; or the instance is a new object (caching is
    off, or the name had no entry), made after all others, and the
    cache has the new entry when caching is on and is as before when
    it is off. *)
Theorem create_backend_outcome backend_type config cache (s : state) r s1 :
  create_backend backend_type config cache s = (r, s1) ->
  match r with
  | Raise _ => _instances s1 = _instances s /\ objects s1 = objects s
  | Ok instance =>
      (cache = true /\ _instances s !! Py.lower backend_type = Some instance /\ s1 = s)
      \/ ((cache = false \/ _instances s !! Py.lower backend_type = None)
          /\ instance = length (objects s)
          /\ (exists o, objects s1 = objects s ++ [o])
          /\ _instances s1
             = if cache then <[Py.lower backend_type := instance]> (_instances s)
               else _instances s)
  end.
Proof.
  unfold Factory.create_backend. unfold bind at 1. unfold gets at 1.
  destruct (if cache then _instances s !! Py.lower backend_type else None)
    as [hit|] eqn:Hhit.
  { intros [= <- <-]. left. by destruct cache. }
  assert (Hmiss : cache = false \/ _instances s !! Py.lower backend_type = None)
    by (destruct cache; [by right|by left]).
  unfold bind at 1. unfold gets at 1. unfold bind at 1.
  rewrite lazy_registration. unfold bind at 1. unfold gets at 1. cbn [_backends].
  destruct (dict_get (Py.lower backend_type) (registry s)) as [cls|].
  2:{ unfold bind, gets, raise. intros [= <- <-]. done. }
  unfold bind at 1. unfold construct. cbn [world objects _instances _backends].
  destruct (cls config (world s)) as [[o|e] w'].
  2:{ intros [= <- <-]. done. }
  destruct cache; unfold bind, modify, ret; intros [= <- <-]; right;
    (split; [exact Hmiss|split; [done|split; [by exists o|done]]]).
Qed.

(** X16. [create_backend] with a name that is not cached and not in
    the registry (the two default classes when nothing was
    registered, else what was registered) raises
    [InvalidBackendError] with the message
    "Unknown backend: <lower-cased name>. Available: <names, comma
    separated>"; no object is made, the cache is as before, and the
    defaults are registered if nothing was. *)
Theorem unknown_backend_is_refused backend_type config cache (s : state) :
  (cache = true -> _instances s !! Py.lower backend_type = None) ->
  dict_get (Py.lower backend_type) (registry s) = None ->
  exists s1,
    create_backend backend_type config cache s
    = (Raise (InvalidBackendError
                ("Unknown backend: " +:+ Py.lower backend_type +:+ ". Available: "
                 +:+ Py.join ", " (map fst (registry s)))), s1)
    /\ _backends s1 = registry s /\ _instances s1 = _instances s
    /\ objects s1 = objects s /\ world s1 = world s.
Proof.
  intros Hmiss Hget.
  unfold Factory.create_backend. unfold bind at 1. unfold gets at 1.
  assert (Hhit : (if cache then _instances s !! Py.lower backend_type else None) = None)
    by (destruct cache; [by apply Hmiss|done]).
  rewrite Hhit. unfold bind at 1. unfold gets at 1. unfold bind at 1.
  rewrite lazy_registration. unfold bind at 1. unfold gets at 1. cbn [_backends].
  rewrite Hget. unfold bind, gets, raise. cbn [_backends]. eexists. split; [reflexivity|].
  done.
Qed.

(** X17. [list_backends] returns the names of the registry and
    leaves it registered: "orbstack" and "tmux" when nothing was
    registered. The defaults are only registered when nothing is:
    after a first [register_backend(name, cls)] the registry holds
    that one name, and "orbstack" and "tmux" stay unknown. *)
Theorem defaults_are_registered_when_nothing_is (s : state) :
  list_backends s
  = (Ok (map fst (registry s)),
     {| _backends := registry s; _instances := _instances s;
        objects := objects s; world := world s |})
  /\ (_backends s = [] -> map fst (registry s) = ["orbstack"; "tmux"])
  /\ (forall name cls,
        _backends s = [] ->
        map fst (registry (register_backend name cls s).2) = [Py.lower name]).
Proof.
  split; [|split].
  - unfold Factory.list_backends. unfold bind at 1. unfold gets at 1. unfold bind.
    by rewrite lazy_registration.
  - unfold registry. by intros ->.
  - intros name cls Hs. unfold registry. simpl. by rewrite Hs.
Qed.

End WithClasses.

Lemma create_backend_outcome_witness :
  create_backend FactoryCache.OrbStackClass FactoryCache.TmuxClass "TMUX" "first" true
    FactoryCache.fresh = (Ok 0%nat, FactoryCache.after_first)
  /\ _instances FactoryCache.after_first
     = <[Py.lower "TMUX" := 0%nat]> (_instances FactoryCache.fresh).
Proof.
  assert (H : create_backend FactoryCache.OrbStackClass FactoryCache.TmuxClass "TMUX"
                "first" true FactoryCache.fresh = (Ok 0%nat, FactoryCache.after_first))
    by (vm_compute; reflexivity).
  split; [exact H|].
  destruct (create_backend_outcome _ _ _ _ _ _ _ _ H) as [(_ & Hc & _)|(_ & _ & _ & Hi)].
  - vm_compute in Hc. discriminate.
  - exact Hi.
Defined.

Lemma unknown_backend_is_refused_witness :
  exists s1,
    create_backend FactoryCache.OrbStackClass FactoryCache.TmuxClass "Podman" "cfg" true
      FactoryCache.fresh
    = (Raise (InvalidBackendError "Unknown backend: podman. Available: orbstack, tmux"), s1)
    /\ objects s1 = [].
Proof.
  destruct (unknown_backend_is_refused FactoryCache.OrbStackClass FactoryCache.TmuxClass
              "Podman" "cfg" true FactoryCache.fresh (fun _ => eq_refl) eq_refl)
    as (s1 & E & _ & _ & Ho & _).
  exists s1. split; [exact E|exact Ho].
Defined.

End FactoryOutcome.

(** ** The current backend *)

Module FactoryCurrent.
Import Factory.

Section WithClasses.
Context {Cfg Obj W : Type}.
Context (OrbStackBackend TmuxBackend : @backend_class Cfg Obj W).
Context (default_orbstack_config default_tmux_config : Cfg).

Local Abbreviation get_backend :=
  (get_backend OrbStackBackend TmuxBackend default_orbstack_config default_tmux_config).
Local Abbreviation create_backend := (create_backend OrbStackBackend TmuxBackend).

(** X18. When [get_backend] returns an instance, that instance is
    the current backend, and every later [get_backend()] without a
    backend type returns it and changes nothing, whatever
    configuration it is given. *)
Theorem get_backend_remembers backend_type config (g g1 : globals) instance :
  get_backend backend_type config g = (Ok instance, g1) ->
  _current_backend g1 = Some instance
  /\ forall config', get_backend None config' g1 = (Ok instance, g1).
Proof.
  intros H.
  assert (Hcur : _current_backend g1 = Some instance).
  { revert H. unfold Factory.get_backend. unfold bind at 1. unfold gets at 1.
    destruct backend_type as [t|]; [|destruct (_current_backend g) eqn:Hc].
    - unfold bind, on_factory, zoom, modify, ret.
      destruct (Factory.create_backend _ _ _ _ _ _) as [[i|e] f]; [|done].
      by intros [= <- <-].
    - by intros [= <- <-].
    - unfold bind, on_factory, zoom, modify, ret.
      destruct (Factory.create_backend _ _ _ _ _ _) as [[i|e] f]; [|done].
      by intros [= <- <-]. }
  split; [exact Hcur|]. intros config'.
  unfold Factory.get_backend, bind, gets. by rewrite Hcur.
Qed.

(** X19. The default configuration of [get_backend]. Without a
    backend type and without a current backend it does what
    [get_backend("orbstack", <the container defaults>)] does.
    Without a configuration, the container defaults are used for the
    name "orbstack" exactly, the terminal defaults for every other
    name: for a name that is "orbstack" in another case, the
    container backend is made from the terminal backend's default
    configuration. *)
Theorem get_backend_default_configuration backend_type (g : globals) :
  (_current_backend g = None ->
   get_backend None None g = get_backend (Some "orbstack") (Some default_orbstack_config) g)
  /\ (get_backend (Some "orbstack") None g
      = get_backend (Some "orbstack") (Some default_orbstack_config) g)
  /\ (backend_type <> "orbstack" ->
      get_backend (Some backend_type) None g
      = get_backend (Some backend_type) (Some default_tmux_config) g)
  /\ (backend_type <> "orbstack" -> Py.lower backend_type = "orbstack" ->
      get_backend (Some backend_type) None g
      = get_backend (Some "orbstack") (Some default_tmux_config) g).
Proof.
  split; [|split; [|split]].
  - intros Hc. unfold Factory.get_backend, bind, gets. by rewrite Hc.
  - done.
  - intros Hne. apply String.eqb_neq in Hne.
    unfold Factory.get_backend, bind, gets. simpl. by rewrite Hne.
  - intros Hne Hl. apply String.eqb_neq in Hne.
    unfold Factory.get_backend, bind, gets. simpl. rewrite Hne.
    unfold Factory.create_backend. by rewrite Hl.
Qed.

End WithClasses.

Definition start : @globals string string nat :=
  {| factory := FactoryCache.fresh; _current_backend := None |}.

Lemma get_backend_remembers_witness :
  exists g1,
    get_backend FactoryCache.OrbStackClass FactoryCache.TmuxClass "o" "t" (Some "tmux") None
      start = (Ok 0%nat, g1)
    /\ get_backend FactoryCache.OrbStackClass FactoryCache.TmuxClass "o" "t" None (Some "x")
         g1 = (Ok 0%nat, g1).
Proof.
  destruct (get_backend FactoryCache.OrbStackClass FactoryCache.TmuxClass "o" "t"
              (Some "tmux") None start) as [r g1] eqn:E.
  assert (Hr : r = Ok 0%nat)
    by (apply (f_equal fst) in E; vm_compute in E; by rewrite <- E).
  subst r. exists g1. split; [reflexivity|].
  exact (proj2 (get_backend_remembers _ _ _ _ _ _ _ _ _ E) (Some "x")).
Defined.

End FactoryCurrent.

(** ** Directories made and kept *)

Module TmuxCreate.
Import Tmux TmuxLifecycle.

(** *** Directories that [mkdir] made or found *)

Lemma os_mkdir_is_dir p h h' :
  Host.os_mkdir p h = (Ok tt, h') -> Host.is_dir p h' = (Ok true, h').
Proof.
  unfold Host.os_mkdir. destruct (Host.locate p h) as [e|k] eqn:L; [done|].
  destruct (Host.fs h !! k) as [n|] eqn:E; [done|].
  unfold Host.create. destruct (Host.is_dir_node _); [|done].
  intros [= <-]. unfold Host.is_dir, gets.
  rewrite (HostFacts.locate_set_fs_insert _ _ _ _ _ ltac:(by rewrite E) L).
  simpl. by rewrite lookup_insert_eq.
Qed.

Lemma mkdir_other_error_is_dir p e h h' :
  Host.mkdir_other_error p e h = (Ok tt, h') -> Host.is_dir p h' = (Ok true, h').
Proof.
  unfold Host.mkdir_other_error, bind, Host.is_dir, gets.
  destruct (match Host.locate p h with inl _ => false | inr k => _ end) eqn:D; [|done].
  intros [= <-]. by rewrite D.
Qed.

Lemma mkdir_exist_ok_is_dir p h h' :
  Host.mkdir_exist_ok p h = (Ok tt, h') -> Host.is_dir p h' = (Ok true, h').
Proof.
  unfold Host.mkdir_exist_ok, try_except.
  destruct (Host.os_mkdir p h) as [[[]|e] h1] eqn:E.
  - intros [= <-]. exact (os_mkdir_is_dir _ _ _ E).
  - destruct (any_exception e); [|done]. destruct (Host.is_enoent e); [done|].
    intros H; exact (mkdir_other_error_is_dir _ _ _ _ H).
Qed.

Lemma mkdir_parents_is_dir p h h' :
  Host.mkdir_parents p h = (Ok tt, h') -> Host.is_dir p h' = (Ok true, h').
Proof.
  unfold Host.mkdir_parents.
  assert (Hp : PosixPath.mk (PosixPath.root p) (rev (rev (PosixPath.parts p))) = p)
    by (rewrite rev_involutive; by destruct p).
  revert Hp. generalize (rev (PosixPath.parts p)) as rparts. intros rparts Hp.
  destruct rparts as [|c up]; cbn [Host.mkdir_parents_rev]; unfold try_except; rewrite Hp.
  - destruct (Host.os_mkdir p h) as [[[]|e] h1] eqn:E.
    + intros [= <-]. exact (os_mkdir_is_dir _ _ _ E).
    + destruct (any_exception e); [|done]. destruct (Host.is_enoent e); [done|].
      intros H; exact (mkdir_other_error_is_dir _ _ _ _ H).
  - destruct (Host.os_mkdir p h) as [[[]|e] h1] eqn:E.
    + intros [= <-]. exact (os_mkdir_is_dir _ _ _ E).
    + destruct (any_exception e); [|done]. destruct (Host.is_enoent e).
      * unfold bind. destruct (Host.mkdir_parents_rev _ up h1) as [[[]|e'] h2]; [|done].
        intros H; exact (mkdir_exist_ok_is_dir _ _ _ H).
      * intros H; exact (mkdir_other_error_is_dir _ _ _ _ H).
Qed.

(** Writing a file leaves the directories as they are. *)
Lemma write_bytes_keeps_dir p data q h h' :
  Host.write_bytes p data h = (Ok tt, h') ->
  Host.is_dir q h = (Ok true, h) -> Host.is_dir q h' = (Ok true, h').
Proof.
  unfold Host.write_bytes. destruct (Host.locate p h) as [e|k] eqn:L; [done|].
  assert (Hins : forall n, Host.is_dir_node (Host.fs h !! k) = false ->
            Host.is_dir q h = (Ok true, h) ->
            Host.is_dir q (Host.set_fs (<[k := n]> (Host.fs h)) h)
            = (Ok true, Host.set_fs (<[k := n]> (Host.fs h)) h)).
  { intros n Hk. unfold Host.is_dir, gets. intros [= Hq]. f_equal. f_equal.
    destruct (Host.locate q h) as [e|kq] eqn:Lq; [done|].
    rewrite (HostFacts.locate_set_fs_insert _ _ _ _ _ Hk Lq). simpl.
    rewrite lookup_insert_ne; [done|]. intros <-. by rewrite Hk in Hq. }
  destruct (Host.fs h !! k) as [[m|m d]|] eqn:E; [done| |].
  - intros [= <-]. by apply Hins.
  - unfold Host.create. destruct (Host.is_dir_node (Host.fs h !! removelast k)); [|done].
    intros [= <-]. by apply Hins.
Qed.

Section WithCodec.
Context {codec : TextCodec}.

Lemma write_text_keeps_dir p s q h h' :
  TextIO.write_text p s h = (Ok tt, h') ->
  Host.is_dir q h = (Ok true, h) -> Host.is_dir q h' = (Ok true, h').
Proof.
  unfold TextIO.write_text, bind.
  destruct (Host.write_bytes p [] h) as [[[]|e] h1] eqn:W1; [|done].
  destruct (encode s) as [b|]; [|done].
  destruct (Host.write_bytes p b h1) as [[[]|e] h2] eqn:W2; [|done].
  intros [= <-] Hq. eapply write_bytes_keeps_dir; [exact W2|].
  eapply write_bytes_keeps_dir; [exact W1|exact Hq].
Qed.

End WithCodec.

End TmuxCreate.

(** ** Computations that end *)

Module Python.

(** [sane m]: [m] ends in every state, with a value or with a Python
    exception. *)
Definition sane {S A} (m : M S A) : Prop := forall s, (m s).1 <> Raise Diverge.

Section Rules.
Context {S : Type}.

Lemma sane_ret {A} (a : A) : sane (@ret S A a).
Proof. done. Qed.
Lemma sane_gets {A} (f : S -> A) : sane (gets f).
Proof. done. Qed.
Lemma sane_modify (f : S -> S) : sane (modify f).
Proof. done. Qed.
Lemma sane_raise {A} e : e <> Diverge -> sane (@raise S A e).
Proof. intros H s. simpl. congruence. Qed.

Lemma sane_bind {A B} (m : M S A) (k : A -> M S B) :
  sane m -> (forall a, sane (k a)) -> sane (bind m k).
Proof.
  intros Hm Hk s. unfold bind. specialize (Hm s).
  destruct (m s) as [[a|e] s1]; [apply Hk|]. simpl in *. congruence.
Qed.

Lemma sane_try {A} (m : M S A) c (h : exn -> M S A) :
  sane m -> (forall e, e <> Diverge -> sane (h e)) -> sane (try_except m c h).
Proof.
  intros Hm Hh s. unfold try_except. specialize (Hm s).
  destruct (m s) as [[a|e] s1]; [done|]. simpl in Hm.
  destruct (c e); [|done]. apply Hh. congruence.
Qed.

Lemma sane_zoom {T A} (get : S -> T) (set : T -> S -> S) (m : M T A) :
  sane m -> sane (zoom get set m).
Proof.
  intros Hm s. unfold zoom. specialize (Hm (get s)). by destruct (m (get s)).
Qed.

Lemma sane_if {A} (b : bool) (m1 m2 : M S A) :
  sane m1 -> sane m2 -> sane (if b then m1 else m2).
Proof. by destruct b. Qed.

End Rules.

(** *** The host's calls *)

Lemma sane_os_mkdir p : sane (Host.os_mkdir p).
Proof.
  intros h. unfold Host.os_mkdir. destruct (Host.locate p h); [done|].
  destruct (Host.fs h !! l); [done|]. unfold Host.create.
  by destruct (Host.is_dir_node _).
Qed.

Lemma sane_mkdir_other_error p e : e <> Diverge -> sane (Host.mkdir_other_error p e).
Proof.
  intros He. apply sane_bind; [apply sane_gets|]. intros d.
  apply sane_if; [apply sane_ret|by apply sane_raise].
Qed.

Lemma sane_mkdir_exist_ok p : sane (Host.mkdir_exist_ok p).
Proof.
  apply sane_try; [apply sane_os_mkdir|]. intros e He.
  apply sane_if; [by apply sane_raise|by apply sane_mkdir_other_error].
Qed.

Lemma sane_mkdir_parents p : sane (Host.mkdir_parents p).
Proof.
  unfold Host.mkdir_parents. generalize (PosixPath.root p) as r.
  induction (rev (PosixPath.parts p)) as [|c up IH]; intros r;
    cbn [Host.mkdir_parents_rev]; (apply sane_try; [apply sane_os_mkdir|]); intros e He;
    (apply sane_if; [|by apply sane_mkdir_other_error]).
  - by apply sane_raise.
  - apply sane_bind; [apply IH|]. intros _. apply sane_mkdir_exist_ok.
Qed.

Lemma sane_write_bytes p data : sane (Host.write_bytes p data).
Proof.
  intros h. unfold Host.write_bytes. destruct (Host.locate p h); [done|].
  destruct (Host.fs h !! l) as [[]|]; try done. unfold Host.create.
  by destruct (Host.is_dir_node _).
Qed.

Lemma sane_write_text {codec : TextCodec} p s : sane (TextIO.write_text p s).
Proof.
  apply sane_bind; [apply sane_write_bytes|]. intros _.
  destruct (encode s); [apply sane_write_bytes|by apply sane_raise].
Qed.

End Python.

(** ** Creating a sandbox of the terminal backend *)

Module TmuxCreated.
Import Tmux TmuxLifecycle TmuxCreate Python.

Section WithCodec.
Context {codec : TextCodec} {json : JsonCodec} {writer : JsonWriter}
        {calendar : Calendar}.

Lemma sane_run_tmux_sessions args check : sane (_run_tmux_sessions args check).
Proof.
  intros st. unfold _run_tmux_sessions.
  destruct (tmux_cli_sessions args (server st)) as [r srv].
  by destruct (check && negb (returncode r =? 0)).
Qed.

Lemma sane_set_environment sandbox_id envs : sane (set_environment sandbox_id envs).
Proof.
  induction envs as [|[key value] rest IH]; simpl; [apply sane_ret|].
  apply sane_bind; [apply sane_run_tmux_sessions|]. intros _. exact IH.
Qed.

(** Setting the environment changes nothing the backend keeps track of. *)
Lemma set_environment_state sandbox_id envs st :
  (set_environment sandbox_id envs st).2 = st.
Proof.
  induction envs as [|[key value] rest IH]; [done|].
  cbn [set_environment]. unfold bind, _run_tmux_sessions. simpl.
  destruct (decide (sandbox_id ∈ sessions (server st))); simpl;
    rewrite set_server_same; [exact IH|done].
Qed.

(** What [new-session] does when it succeeds. *)
Lemma new_session_ok sandbox_id dir st r st' :
  _run_tmux_sessions ["new-session"; "-d"; "-s"; sandbox_id; "-c"; dir] true st
  = (Ok r, st') ->
  (sandbox_id ∉ sessions (server st))
  /\ st' = set_server {| sessions := sessions (server st) ∪ {[sandbox_id]};
                         sent := sent (server st) |} st.
Proof.
  unfold _run_tmux_sessions. simpl.
  destruct (decide (sandbox_id ∈ sessions (server st))); simpl; [done|].
  by intros [= <- <-].
Qed.

(** The name [create_sandbox] draws in the state [st]. *)
Definition next_id (st : Tmux.t) : string :=
  SESSION_PREFIX +:+ "_"
  +:+ Py.slice_to 12 (Host.uuid_hex (host st) (Host.uuid_next (host st))).

(** What [create_sandbox] has done when it returns. *)
Lemma create_sandbox_returns template timeout envs metadata st sandbox_id st1 :
  create_sandbox template timeout envs metadata st = (Ok sandbox_id, st1) ->
  let workspace :=
    PosixPath.joinpath (PosixPath.of_string (workspace_dir (config st))) sandbox_id in
  sandbox_id = next_id st
  /\ (sandbox_id ∉ sessions (server st))
  /\ sessions (server st1) = sessions (server st) ∪ {[sandbox_id]}
  /\ config st1 = config st
  /\ (exists created,
        _sessions st1
        = <[sandbox_id := {| d_sandbox_id := Some sandbox_id;
                             d_workspace := Some (PosixPath.to_string workspace);
                             d_created_at := Some created;
                             d_template := Some template;
                             d_timeout := Some timeout;
                             d_metadata := Some (default ∅ metadata);
                             d_envs := Some (list_to_map (default [] envs)) |}]>
            (_sessions st))
  /\ Host.is_dir workspace (host st1) = (Ok true, host st1).
Proof.
  unfold create_sandbox, bind at 1, _generate_sandbox_id, bind at 1, on_host at 1, zoom.
  cbn [Host.uuid4_hex fst snd ret]. fold (next_id st). unfold try_except.
  set (sid := next_id st).
  set (st0 := set_host _ st).
  unfold bind at 1. unfold gets at 1. change (config st0) with (config st).
  set (ws := PosixPath.joinpath (PosixPath.of_string (workspace_dir (config st))) sid).
  unfold bind at 1. unfold on_host at 1, zoom.
  destruct (Host.mkdir_parents ws (host st0)) as [[[]|e] h1] eqn:Emk;
    [|destruct (any_exception e); cbv beta iota zeta; unfold raise; intros; discriminate].
  apply mkdir_parents_is_dir in Emk.
  set (st2 := set_host h1 st0).
  unfold bind at 1.
  destruct (_run_tmux_sessions _ true st2) as [[r|e] st3] eqn:Enew;
    [|destruct (any_exception e); cbv beta iota zeta; unfold raise; intros; discriminate].
  apply new_session_ok in Enew as [Hfresh ->].
  set (st3 := set_server _ st2).
  unfold bind at 1.
  match goal with |- context [match envs with _ => _ end st3] =>
    assert (Henv : exists r0, match envs with
                             | Some (e :: es) => set_environment sid (e :: es)
                             | _ => ret tt
                             end st3 = (r0, st3))
  end.
  { destruct envs as [[|e es]|]; try (by eexists).
    pose proof (set_environment_state sid (e :: es) st3) as H.
    destruct (set_environment sid (e :: es) st3) as [r' s']. simpl in H. subst s'.
    by eexists. }
  destruct Henv as [[[]|e] ->]; [|destruct (any_exception e); cbv beta iota zeta; unfold raise; intros; discriminate].
  unfold bind at 1. unfold on_host at 1, zoom, Host.time, gets.
  cbn [fst snd]. unfold bind at 1. unfold modify at 1.
  unfold bind at 1. unfold _save_session_info, bind at 1, _get_session_info_path, gets at 1.
  unfold on_host, zoom. cbn [host set_sessions set_host].
  match goal with |- context [TextIO.write_text ?p ?s ?h] =>
    destruct (TextIO.write_text p s h) as [[[]|e] h4] eqn:Ew;
      [|destruct (any_exception e); cbv beta iota zeta; unfold raise; intros; discriminate]
  end.
  unfold ret. intros [= <- <-]. cbn [host server config _sessions set_host set_sessions].
  split; [done|]. split; [done|]. split; [done|]. split; [done|].
  split; [by eexists|].
  eapply write_text_keeps_dir; [exact Ew|exact Emk].
Qed.

(** X20. [create_sandbox] of the terminal backend ends in every
    state, and it either returns the id "sbx_" followed by the first
    twelve characters of the hexadecimal value drawn, or raises
    [SandboxCreationError]: no other exception escapes. *)
Theorem create_sandbox_raises_creation_errors template timeout envs metadata st :
  match (create_sandbox template timeout envs metadata st).1 with
  | Ok sandbox_id => sandbox_id = next_id st
  | Raise e => exists msg, e = SandboxCreationError msg
  end.
Proof.
  destruct (create_sandbox template timeout envs metadata st) as [[i|e] s1] eqn:E.
  { by destruct (create_sandbox_returns _ _ _ _ _ _ _ E) as [-> _]. }
  revert E.
  unfold create_sandbox, bind at 1, _generate_sandbox_id, bind at 1, on_host at 1, zoom.
  cbn [Host.uuid4_hex fst snd ret]. unfold try_except.
  match goal with |- context [?body (set_host ?h st)] =>
    assert (Hs : sane body); [|specialize (Hs (set_host h st));
                               destruct (body (set_host h st)) as [[i|e'] s2]]
  end.
  { apply sane_bind; [apply sane_gets|]. intros ws.
    apply sane_bind; [apply sane_zoom, sane_mkdir_parents|]. intros _.
    apply sane_bind; [apply sane_run_tmux_sessions|]. intros _.
    apply sane_bind.
    { destruct envs as [[|e0 es]|]; [apply sane_ret|apply sane_set_environment|apply sane_ret]. }
    intros _. apply sane_bind; [apply sane_zoom, sane_gets|]. intros now.
    apply sane_bind; [apply sane_modify|]. intros _.
    apply sane_bind; [|intros; apply sane_ret].
    apply sane_bind; [apply sane_gets|]. intros p. apply sane_zoom, sane_write_text. }
  - done.
  - destruct e'; simpl in *; try done; intros [= <- _]; by eexists.
Qed.

(** X21. When [create_sandbox] of the terminal backend returns an
    id: no session had that name before; [is_sandbox_running]
    returns [True]; [get_sandbox_info] returns the id, the backend
    type "tmux", the status [RUNNING], the template given and the
    metadata given (empty when none was given), both without changing
    anything; and the workspace directory of the id exists. *)
Theorem created_sandbox_is_running template timeout envs metadata st id st1 :
  create_sandbox template timeout envs metadata st = (Ok id, st1) ->
  (id ∉ sessions (server st))
  /\ is_sandbox_running id st1 = (Ok true, st1)
  /\ (exists created,
        get_sandbox_info id st1
        = (Ok {| sandbox_id := id; backend_type := "tmux"; status := RUNNING;
                 created_at := created; metadata := default ∅ metadata;
                 template := template; ports := None |}, st1))
  /\ Host.is_dir (PosixPath.joinpath (PosixPath.of_string (workspace_dir (config st))) id)
       (host st1) = (Ok true, host st1).
Proof.
  intros H.
  destruct (create_sandbox_returns _ _ _ _ _ _ _ H)
    as (_ & Hfresh & Hs & Hcfg & [created Hcache] & Hdir).
  assert (Hin : id ∈ sessions (server st1)) by (rewrite Hs; by apply elem_of_union_r, elem_of_singleton).
  split; [exact Hfresh|]. split; [|split; [|exact Hdir]].
  - unfold is_sandbox_running. by rewrite _session_exists_eq, bool_decide_eq_true_2.
  - exists created. unfold get_sandbox_info. unfold bind at 1.
    rewrite _session_exists_eq, bool_decide_eq_true_2 by done.
    unfold negb, bind, cached, gets, ret. rewrite Hcache, lookup_insert_eq. done.
Qed.

End WithCodec.

Definition braces : JsonWriter := {| json_dumps := fun _ => "{}" |}.

Lemma created_sandbox_is_running_witness :
  exists st1,
    @create_sandbox AsciiCodec.codec braces TmuxEntries.epoch (Some "python") None None None
      Demo.tmux = (Ok "sbx_0123456789ab", st1)
    /\ is_sandbox_running "sbx_0123456789ab" st1 = (Ok true, st1).
Proof.
  destruct (@create_sandbox AsciiCodec.codec braces TmuxEntries.epoch (Some "python")
              None None None Demo.tmux) as [r st1] eqn:E.
  assert (Hr : r = Ok "sbx_0123456789ab")
    by (apply (f_equal fst) in E; vm_compute in E; by rewrite <- E).
  subst r. exists st1. split; [reflexivity|].
  exact (proj1 (proj2 (@created_sandbox_is_running AsciiCodec.codec Demo.no_json braces
                         TmuxEntries.epoch _ _ _ _ _ _ _ E))).
Defined.

End TmuxCreated.

(** ** Listing the sandboxes of the terminal backend *)

Module TmuxListed.
Import Tmux TmuxLifecycle.

(** The names among some lines of the multiplexer's answer that
    [list_sandboxes] takes for sandboxes: the lines stripped, those
    that start with the prefix, in the order printed. *)
Definition names (lines : list string) : list string :=
  List.filter (fun n => Py.startswith n SESSION_PREFIX) (map Py.strip lines).

(** The sandbox names the multiplexer prints when asked for its
    sessions. *)
Definition printed (st : Tmux.t) : list string :=
  let r := (tmux_cli_sessions ["list-sessions"; "-F"; "#{session_name}"] (server st)).1 in
  if (returncode r =? 0) && Py.truthy (proc_stdout r)
  then names (Py.split newline (Py.strip (proc_stdout r)))
  else [].

Section WithCodec.
Context {codec : TextCodec} {json : JsonCodec}.

(** Loading a session info file changes nothing. *)
Lemma load_session_info_state sandbox_id st : (_load_session_info sandbox_id st).2 = st.
Proof.
  unfold _load_session_info, bind, _get_session_info_path, gets.
  rewrite TmuxCommand.on_host_exists.
  destruct (Host.exists_ _ (host st)).1 as [[|]|e]; try done.
  rewrite TmuxCommand.on_host_read_text.
  destruct (TextIO.read_text _ (host st)).1 as [text|e]; [|done].
  by destruct (json_loads text).
Qed.

(** What [list_sandboxes] says of every sandbox it lists. *)
Definition listed_well (info : SandboxInfo) : Prop :=
  Py.startswith (sandbox_id info) SESSION_PREFIX = true
  /\ backend_type info = "tmux" /\ status info = RUNNING /\ ports info = None.

(** The loop appends the sandbox names of the lines, in their order,
    until the list has [limit] entries, and one at least if there is
    one. *)
Lemma list_lines_spec limit lines : forall sandboxes st r st1,
  list_lines limit lines sandboxes st = (r, st1) ->
  st1 = st
  /\ forall infos, r = Ok infos ->
       (Forall listed_well sandboxes -> Forall listed_well infos)
       /\ map sandbox_id infos
          = map sandbox_id sandboxes
            ++ take (Z.to_nat (Z.max 1 (limit - Z.of_nat (length sandboxes))))
                 (names lines).
Proof.
  induction lines as [|line rest IH]; intros sandboxes st r st1.
  - intros [= <- <-]. split; [done|]. intros infos [= <-]. split; [done|].
    unfold names. simpl. by rewrite take_nil, app_nil_r.
  - cbn [list_lines]. unfold names. cbn [map List.filter]. fold (names rest).
    destruct (Py.startswith (Py.strip line) SESSION_PREFIX) eqn:Hp; [|apply IH].
    unfold bind at 1. unfold cached at 1, gets at 1.
    set (load := match _sessions st !! Py.strip line with
                 | Some d => if dict_truthy d then ret (Some d)
                             else _load_session_info (Py.strip line)
                 | None => _load_session_info (Py.strip line)
                 end).
    assert (Hload : (load st).2 = st).
    { subst load. destruct (_sessions st !! Py.strip line) as [d|];
        [destruct (dict_truthy d); [done|]|]; apply load_session_info_state. }
    unfold bind at 1. destruct (load st) as [[info|e] st'] eqn:El; simpl in Hload; subst st'.
    2:{ intros [= <- <-]. split; [done|]. done. }
    set (new := sandboxes ++ [listed (Py.strip line) info]).
    assert (Hlen : Z.of_nat (length new) = Z.of_nat (length sandboxes) + 1)
      by (subst new; rewrite length_app; simpl; lia).
    assert (Hwell : Forall listed_well sandboxes -> Forall listed_well new).
    { intros H. apply Forall_app. split; [done|]. apply Forall_singleton.
      unfold listed_well, listed. simpl. done. }
    assert (Hids : map sandbox_id new = map sandbox_id sandboxes ++ [Py.strip line])
      by (subst new; by rewrite map_app).
    destruct (Z.of_nat (length new) >=? limit) eqn:Hge.
    + intros [= <- <-]. split; [done|]. intros infos [= <-]. split; [done|].
      rewrite Hids. f_equal.
      assert (Hone : Z.to_nat (Z.max 1 (limit - Z.of_nat (length sandboxes))) = 1%nat) by lia.
      rewrite Hone. simpl. by rewrite take_0.
    + intros Hrec. destruct (IH _ _ _ _ Hrec) as [-> Hinfos]. split; [done|].
      intros infos Hr. destruct (Hinfos infos Hr) as [H1 H2]. split; [auto|].
      rewrite H2, Hids, <- app_assoc. f_equal. simpl.
      assert (Hmore : Z.to_nat (Z.max 1 (limit - Z.of_nat (length sandboxes)))
                      = S (Z.to_nat (Z.max 1 (limit - Z.of_nat (length new))))) by lia.
      by rewrite Hmore.
Qed.

(** X22. When [list_sandboxes] of the terminal backend returns, it
    has changed nothing, and it lists the sandbox names the
    multiplexer prints (the printed lines, stripped, that start with
    "sbx"), in the order printed, up to [limit] of them, and the first
    one also when [limit] is less than 1: so it lists one sandbox
    under a limit of 0 whenever there is one. Every sandbox listed has
    the backend type "tmux", the status [RUNNING] and no ports. *)
Theorem list_sandboxes_lists_sandboxes limit st infos st1 :
  list_sandboxes limit st = (Ok infos, st1) ->
  st1 = st
  /\ map sandbox_id infos = take (Z.to_nat (Z.max 1 limit)) (printed st)
  /\ Z.of_nat (length infos)
     = Z.min (Z.max 1 limit) (Z.of_nat (length (printed st)))
  /\ Forall listed_well infos.
Proof.
  intros H.
  assert (Hmain : st1 = st
                  /\ map sandbox_id infos = take (Z.to_nat (Z.max 1 limit)) (printed st)
                  /\ Forall listed_well infos).
  { revert H. unfold list_sandboxes, printed. unfold bind at 1.
    unfold _run_tmux_sessions. cbn [andb].
    destruct (tmux_cli_sessions _ (server st)) as [r srv] eqn:Er.
    assert (Hsrv : srv = server st).
    { revert Er. unfold tmux_cli_sessions.
      destruct (elements (sessions (server st))); by intros [= _ <-]. }
    subst srv. rewrite set_server_same. cbn [fst].
    destruct ((returncode r =? 0) && Py.truthy (proc_stdout r)).
    - intros H. destruct (list_lines_spec _ _ _ _ _ _ H) as [-> Hinfos].
      destruct (Hinfos infos eq_refl) as [H1 H2]. split; [done|]. split.
      + rewrite H2. simpl. by rewrite Z.sub_0_r.
      + by apply H1.
    - intros [= <- <-]. split; [done|]. split; [by rewrite take_nil|done]. }
  destruct Hmain as (-> & Hids & Hwell). split; [done|]. split; [done|]. split; [|done].
  apply (f_equal length) in Hids. rewrite length_map, length_take in Hids. lia.
Qed.

End WithCodec.

(** The demo backend with a second sandbox. *)
Definition two : Tmux.t :=
  {| config := config Demo.tmux; _sessions := _sessions Demo.tmux; host := host Demo.tmux;
     server := {| sessions := {["sbx_1"; "sbx_2"]}; sent := [] |} |}.

(** Under a limit of 0 one of the two sandboxes is listed. *)
Lemma list_sandboxes_lists_sandboxes_witness :
  length (printed two) = 2%nat
  /\ exists infos,
       @list_sandboxes AsciiCodec.codec Demo.no_json 0 two = (Ok infos, two)
       /\ map sandbox_id infos = take 1 (printed two)
       /\ Z.of_nat (length infos) = 1.
Proof.
  split; [vm_compute; reflexivity|].
  destruct (@list_sandboxes AsciiCodec.codec Demo.no_json 0 two) as [r st1] eqn:E.
  assert (Hr : exists infos, r = Ok infos).
  { apply (f_equal fst) in E. vm_compute in E. rewrite <- E. eexists. reflexivity. }
  destruct Hr as (infos & ->).
  destruct (list_sandboxes_lists_sandboxes _ _ _ _ E) as (-> & Hids & Hlen & _).
  exists infos. split; [reflexivity|]. split; [exact Hids|].
  rewrite Hlen. vm_compute. reflexivity.
Defined.

End TmuxListed.
